(** * StrandsInputServer: a shallow embedding of the TCP line-protocol server

    The development follows [UStrandsInputServerSubsystem] (the CitySample
    copy of the plugin, and the older copy packaged under MyProject where the
    two differ).

    Conventions of the model:
    - [double] and [float] values are exact rationals ([Q]); rounding,
      infinities and NaN are outside the model, and the narrowing casts
      [(float)Forward] are the identity.
    - [int32] is a [Z] with the two's-complement wrap-around written out.
    - an [FString] is a list of 8-bit characters: the source widens every
      received byte with [(TCHAR)Buffer[b]].
    - engine calls on the controlled pawn, the file system and the sockets are
      recorded as a list of [Effect]s in the order the source performs them;
      [UE_LOG] lines of verbosity [Warning] are recorded, those of verbosity
      [Log] are not.
    - [FPlatformTime::Seconds()] is an input ([Now]) of every function that
      reads the clock.
    - a sum of axes is stated as the fold over the live actions in the order
      of the pool, which is the sum the loop computes; the properties of
      the resolve pass do not regroup or reorder the terms of a sum.
    - the engine's [FJsonObject::TryGetBoolField] is not part of the plugin:
      it is modelled from the specification, and what [ProcessLine] does is
      also stated with the accessor left open ([ProcessLineWith]). *)

From Stdlib Require Import String Ascii List ZArith QArith Qabs Qminmax Bool Lia Permutation Arith.
Import ListNotations.

(** ** Text *)

Definition FString := list ascii.

Definition TEXT (s : string) : FString := list_ascii_of_string s.

(** JSON text is written with an apostrophe for every double quote:
    [JSON "{'cmd':'jump'}"] is the line [{"cmd":"jump"}]. *)
Definition JSON (s : string) : FString :=
  map (fun c => if Ascii.eqb c "'"%char then ascii_of_nat 34 else c) (TEXT s).

(** ** Numbers *)

Definition Qltb (a b : Q) : bool := negb (Qle_bool b a).

(** [FMath::Max(A, B)] is [(B < A) ? A : B]; [FMath::Min(A, B)] is
    [(A < B) ? A : B]; [FMath::Clamp(V, Lo, Hi)] is [Max(Min(V, Hi), Lo)]. *)
Definition FMath_Max (A B : Q) : Q := if Qltb B A then A else B.
Definition FMath_Min (A B : Q) : Q := if Qltb A B then A else B.
Definition FMath_Clamp (V Lo Hi : Q) : Q := FMath_Max (FMath_Min V Hi) Lo.

Record FVector2D := mkVector2D { X : Q; Y : Q }.

Definition ZeroVector2D : FVector2D := mkVector2D 0 0.

Definition V2_add (a b : FVector2D) : FVector2D :=
  mkVector2D (X a + X b) (Y a + Y b).

(** [UE_KINDA_SMALL_NUMBER], the default tolerance of [IsNearlyZero]. *)
Definition KINDA_SMALL_NUMBER : Q := 1 # 10000.

Definition IsNearlyZero (v : FVector2D) : bool :=
  Qle_bool (Qabs (X v)) KINDA_SMALL_NUMBER && Qle_bool (Qabs (Y v)) KINDA_SMALL_NUMBER.

(** [int32] arithmetic. *)
Definition wrap32 (z : Z) : Z := ((z + 2 ^ 31) mod 2 ^ 32 - 2 ^ 31)%Z.

(** ** Scheduled actions *)

Record FStrandsMoveAction := mkMoveAction {
  Axis : FVector2D;     (* X=Forward, Y=Right *)
  EndTime : Q
}.

(** The look action's expiry is the source's [EndTime] as well; a second
    record cannot reuse the field name. *)
Record FStrandsLookAction := mkLookAction {
  Rate : FVector2D;     (* X=YawRate (deg/sec), Y=PitchRate (deg/sec) *)
  LookEndTime : Q
}.

(** ** TArray *)

(** [TArray::RemoveAtSwap(i)]: the last element takes the place of element
    [i] and the array shrinks by one.  The engine asserts [i] in range; out
    of range the model leaves the array as it is. *)
Definition RemoveAtSwap {A : Type} (i : nat) (l : list A) : list A :=
  if (length l <=? i)%nat then l
  else if (i =? length l - 1)%nat then removelast l
  else match nth_error l (length l - 1) with
       | Some z => firstn i l ++ z :: skipn (S i) (removelast l)
       | None => l
       end.

(** ** The sweep-and-sum loop of [ApplyScheduledActions]

    [for (i = Num() - 1; i >= 0; --i)
       { if (Actions[i].EndTime <= Now) { RemoveAtSwap(i); continue; }
         Sum += Actions[i].Vector; }]
    The source has the loop twice, once per pool; [n] is [i + 1]. *)
Section Sweep.
Variable A : Type.
Variable vec : A -> FVector2D.
Variable expiry : A -> Q.
Variable Now : Q.

Fixpoint SweepLoop (n : nat) (Actions : list A) (Sum : FVector2D)
  : list A * FVector2D :=
  match n with
  | O => (Actions, Sum)
  | S i =>
      match nth_error Actions i with
      | None => (Actions, Sum)
      | Some a =>
          if Qle_bool (expiry a) Now
          then SweepLoop i (RemoveAtSwap i Actions) Sum
          else SweepLoop i Actions (V2_add Sum (vec a))
      end
  end.

Definition Sweep (Actions : list A) : list A * FVector2D :=
  SweepLoop (length Actions) Actions ZeroVector2D.

(** The reading of the specification: the entries that are still alive, and
    their componentwise sum. *)
Definition alive (a : A) : bool := Qltb Now (expiry a).

Definition sum_vectors (l : list A) : FVector2D :=
  fold_right (fun a acc => V2_add (vec a) acc) ZeroVector2D l.
End Sweep.

Arguments SweepLoop {A} vec expiry Now n Actions Sum.
Arguments Sweep {A} vec expiry Now Actions.
Arguments alive {A} expiry Now a.
Arguments sum_vectors {A} vec l.

Definition ClampAxis (v : FVector2D) : FVector2D :=
  mkVector2D (FMath_Clamp (X v) (-1) 1) (FMath_Clamp (Y v) (-1) 1).

Definition V2_eq (a b : FVector2D) : Prop := X a == X b /\ Y a == Y b.

(** ** FString operations *)

Definition FString_eqb (a b : FString) : bool :=
  String.eqb (string_of_list_ascii a) (string_of_list_ascii b).

Definition ToLower (c : ascii) : ascii :=
  let n := nat_of_ascii c in
  if ((65 <=? n) && (n <=? 90))%nat then ascii_of_nat (n + 32) else c.

(** [A.Equals(B, ESearchCase::IgnoreCase)]. *)
Definition EqualsIgnoreCase (a b : FString) : bool :=
  FString_eqb (map ToLower a) (map ToLower b).

(** [FChar::IsWhitespace] on 8-bit characters: space and the controls
    [\t \n \v \f \r]. *)
Definition IsWhitespace (c : ascii) : bool :=
  let n := nat_of_ascii c in
  ((n =? 32) || ((9 <=? n) && (n <=? 13)))%nat.

Fixpoint TrimStart (s : FString) : FString :=
  match s with
  | c :: r => if IsWhitespace c then TrimStart r else s
  | [] => []
  end.

Definition TrimEnd (s : FString) : FString := rev (TrimStart (rev s)).

Definition TrimStartAndEnd (s : FString) : FString := TrimEnd (TrimStart s).

Definition newline : ascii := ascii_of_nat 10.
Definition dquote : ascii := ascii_of_nat 34.
Definition carriage_return : ascii := ascii_of_nat 13.

(** [FString::FindChar]: the index of the first occurrence. *)
Fixpoint FindChar (c : ascii) (s : FString) : option nat :=
  match s with
  | [] => None
  | d :: r => if Ascii.eqb d c then Some O
              else match FindChar c r with
                   | Some i => Some (S i)
                   | None => None
                   end
  end.

(** [Line.Len() > 0 && Line[Line.Len() - 1] == '\r'], then
    [Line.RemoveAt(Line.Len() - 1, 1)]. *)
Definition StripTrailingCR (Line : FString) : FString :=
  match nth_error Line (length Line - 1) with
  | Some c => if Ascii.eqb c carriage_return then removelast Line else Line
  | None => Line
  end.

(** ** Line framing: [Strands_SplitLines]

    One turn of the [while] loop removes at least the newline it found, so
    [length Accumulator] turns are enough; [Strands_SplitLines] starts the
    loop with that bound. *)
Fixpoint SplitLinesLoop (fuel : nat) (Accumulator : FString) (OutLines : list FString)
  : FString * list FString :=
  match fuel with
  | O => (Accumulator, OutLines)
  | S fuel' =>
      match FindChar newline Accumulator with
      | None => (Accumulator, OutLines)
      | Some NewlineIndex =>
          let Line := firstn NewlineIndex Accumulator in
          let Accumulator' := skipn (NewlineIndex + 1) Accumulator in
          let Line := TrimStartAndEnd Line in
          match Line with
          | [] => SplitLinesLoop fuel' Accumulator' OutLines
          | _ :: _ => SplitLinesLoop fuel' Accumulator' (OutLines ++ [StripTrailingCR Line])
          end
      end
  end.

Definition Strands_SplitLines (Accumulator : FString) (OutLines : list FString)
  : FString * list FString :=
  SplitLinesLoop (length Accumulator) Accumulator OutLines.

(** ** JSON: the engine's [FJsonValue], [FJsonObject] and reader *)

#[warnings="-register-all"]
Inductive FJsonValue : Type :=
| JNull
| JBoolean (b : bool)
| JNumber (q : Q)
| JString (s : FString)
| JArray (l : list FJsonValue)
| JObject (fields : list (FString * FJsonValue)).

(** The fields of an object, oldest first; a name occurs once. *)
Definition FJsonObject := list (FString * FJsonValue).

Fixpoint SetField (k : FString) (v : FJsonValue) (o : FJsonObject) : FJsonObject :=
  match o with
  | [] => [(k, v)]
  | (k', v') :: r => if FString_eqb k' k then (k, v) :: r else (k', v') :: SetField k v r
  end.

Fixpoint TryGetField (o : FJsonObject) (k : FString) : option FJsonValue :=
  match o with
  | [] => None
  | (k', v) :: r => if FString_eqb k' k then Some v else TryGetField r k
  end.

Definition HasField (o : FJsonObject) (k : FString) : bool :=
  match TryGetField o k with Some _ => true | None => false end.

Inductive EJson := EJson_Null | EJson_String | EJson_Number | EJson_Boolean
                 | EJson_Array | EJson_Object.

Definition JsonType (v : FJsonValue) : EJson :=
  match v with
  | JNull => EJson_Null
  | JBoolean _ => EJson_Boolean
  | JNumber _ => EJson_Number
  | JString _ => EJson_String
  | JArray _ => EJson_Array
  | JObject _ => EJson_Object
  end.

Definition EJson_eqb (a b : EJson) : bool :=
  match a, b with
  | EJson_Null, EJson_Null | EJson_String, EJson_String | EJson_Number, EJson_Number
  | EJson_Boolean, EJson_Boolean | EJson_Array, EJson_Array | EJson_Object, EJson_Object => true
  | _, _ => false
  end.

(** [Obj->HasTypedField<T>(Name)]. *)
Definition HasTypedField (T : EJson) (o : FJsonObject) (k : FString) : bool :=
  match TryGetField o k with
  | Some v => EJson_eqb (JsonType v) T
  | None => false
  end.

(** The typed getters of the engine are read by their contract: the value
    of a field of the requested type.  On a missing or differently typed
    field [GetStringField] is read as the empty string and
    [GetNumberField] as zero (the engine logs the mismatch). *)
Definition GetStringField (o : FJsonObject) (k : FString) : FString :=
  match TryGetField o k with Some (JString s) => s | _ => [] end.

Definition GetNumberField (o : FJsonObject) (k : FString) : Q :=
  match TryGetField o k with Some (JNumber q) => q | _ => 0 end.

Definition GetBoolField (o : FJsonObject) (k : FString) : bool :=
  match TryGetField o k with Some (JBoolean b) => b | _ => false end.

(** Modelled from the spec: [FJsonObject::TryGetBoolField] is engine code,
    its body is not part of the plugin's sources.  The specification reads
    it as succeeding on a JSON boolean and failing on every other value
    (a sprint command whose [enabled] is not a boolean changes nothing), and
    that reading is what is written here.  Whatever holds of [ProcessLine]
    for every behaviour of this accessor is stated on [ProcessLineWith],
    which leaves the accessor open. *)
Definition TryGetBoolField (o : FJsonObject) (k : FString) : option bool :=
  match TryGetField o k with Some (JBoolean b) => Some b | _ => None end.

(** *** The reader

    [FJsonSerializer::Deserialize] is engine code; it is modelled as a reader
    of RFC 8259 documents over 8-bit text.  A [\u] escape above [00FF] has no
    8-bit character and is refused. *)

Definition is_json_ws (c : ascii) : bool :=
  let n := nat_of_ascii c in
  ((n =? 32) || (n =? 9) || (n =? 10) || (n =? 13))%nat.

Fixpoint skip_ws (s : FString) : FString :=
  match s with
  | c :: r => if is_json_ws c then skip_ws r else s
  | [] => []
  end.

Definition digit_of (c : ascii) : option Z :=
  let n := nat_of_ascii c in
  if ((48 <=? n) && (n <=? 57))%nat then Some (Z.of_nat (n - 48)) else None.

Definition hex_of (c : ascii) : option nat :=
  let n := nat_of_ascii c in
  if ((48 <=? n) && (n <=? 57))%nat then Some (n - 48)%nat
  else if ((65 <=? n) && (n <=? 70))%nat then Some (n - 55)%nat
  else if ((97 <=? n) && (n <=? 102))%nat then Some (n - 87)%nat
  else None.

(** Reads a run of decimal digits: its value on top of [acc], its length and
    the rest of the text. *)
Fixpoint read_digits (s : FString) (acc : Z) (count : nat) : Z * nat * FString :=
  match s with
  | c :: r => match digit_of c with
              | Some d => read_digits r (acc * 10 + d)%Z (S count)
              | None => (acc, count, s)
              end
  | [] => (acc, count, [])
  end.

Definition pow10 (n : nat) : positive := Pos.pow 10 (Pos.of_nat n).

Definition scale10 (q : Q) (e : Z) : Q :=
  match e with
  | Z0 => q
  | Zpos p => q * inject_Z (Zpos (Pos.pow 10 p))
  | Zneg p => q * (1 # Pos.pow 10 p)
  end.

Definition read_exponent (s : FString) : option (Z * FString) :=
  match s with
  | c :: r =>
      if (Ascii.eqb c "e" || Ascii.eqb c "E")%char then
        let '(neg, r1) := match r with
                          | "-"%char :: r' => (true, r')
                          | "+"%char :: r' => (false, r')
                          | _ => (false, r)
                          end in
        match read_digits r1 0 0 with
        | (_, O, _) => None
        | (e, S _, r2) => Some (if neg then (- e)%Z else e, r2)
        end
      else Some (0%Z, s)
  | [] => Some (0%Z, [])
  end.

Definition read_fraction (s : FString) (int : Z) : option (Q * FString) :=
  match s with
  | "."%char :: r =>
      match read_digits r int 0 with
      | (_, O, _) => None
      | (m, S n, r') => Some (m # pow10 (S n), r')
      end
  | _ => Some (inject_Z int, s)
  end.

Definition parse_number (s : FString) : option (Q * FString) :=
  let '(neg, s1) := match s with
                    | "-"%char :: r => (true, r)
                    | _ => (false, s)
                    end in
  match read_digits s1 0 0 with
  | (_, O, _) => None
  | (int, S _, s2) =>
      match read_fraction s2 int with
      | None => None
      | Some (m, s3) =>
          match read_exponent s3 with
          | None => None
          | Some (e, s4) => Some (Qred (scale10 (if neg then - m else m) e), s4)
          end
      end
  end.

(** The characters of a string literal after its opening quote. *)
Fixpoint parse_string_body (s : FString) : option (FString * FString) :=
  match s with
  | [] => None
  | c :: r =>
      if Ascii.eqb c dquote then Some ([], r)
      else if Ascii.eqb c "\"%char then
        match r with
        | e :: r' =>
            if Ascii.eqb e "u"%char then
              match r' with
              | h1 :: h2 :: h3 :: h4 :: r'' =>
                  match hex_of h1, hex_of h2, hex_of h3, hex_of h4 with
                  | Some O, Some O, Some a, Some b =>
                      match parse_string_body r'' with
                      | Some (t, rest) => Some (ascii_of_nat (16 * a + b) :: t, rest)
                      | None => None
                      end
                  | _, _, _, _ => None
                  end
              | _ => None
              end
            else
              let decoded :=
                if Ascii.eqb e dquote then Some dquote
                else if Ascii.eqb e "\"%char then Some "\"%char
                else if Ascii.eqb e "/"%char then Some "/"%char
                else if Ascii.eqb e "b"%char then Some (ascii_of_nat 8)
                else if Ascii.eqb e "f"%char then Some (ascii_of_nat 12)
                else if Ascii.eqb e "n"%char then Some (ascii_of_nat 10)
                else if Ascii.eqb e "r"%char then Some (ascii_of_nat 13)
                else if Ascii.eqb e "t"%char then Some (ascii_of_nat 9)
                else None in
              match decoded, parse_string_body r' with
              | Some d, Some (t, rest) => Some (d :: t, rest)
              | _, _ => None
              end
        | [] => None
        end
      else if (nat_of_ascii c <? 32)%nat then None
      else match parse_string_body r with
           | Some (t, rest) => Some (c :: t, rest)
           | None => None
           end
  end.

Fixpoint strip_prefix (p s : FString) : option FString :=
  match p, s with
  | [], _ => Some s
  | a :: p', b :: s' => if Ascii.eqb a b then strip_prefix p' s' else None
  | _ :: _, [] => None
  end.

Fixpoint parse_value (fuel : nat) (s : FString) : option (FJsonValue * FString) :=
  match fuel with
  | O => None
  | S fuel' =>
      match skip_ws s with
      | [] => None
      | c :: r =>
          if Ascii.eqb c "{"%char then
            match skip_ws r with
            | "}"%char :: r' => Some (JObject [], r')
            | _ => match parse_members fuel' r [] with
                   | Some (o, r') => Some (JObject o, r')
                   | None => None
                   end
            end
          else if Ascii.eqb c "["%char then
            match skip_ws r with
            | "]"%char :: r' => Some (JArray [], r')
            | _ => match parse_elements fuel' r with
                   | Some (l, r') => Some (JArray l, r')
                   | None => None
                   end
            end
          else if Ascii.eqb c dquote then
            match parse_string_body r with
            | Some (t, r') => Some (JString t, r')
            | None => None
            end
          else match strip_prefix (TEXT "true") (c :: r),
                     strip_prefix (TEXT "false") (c :: r),
                     strip_prefix (TEXT "null") (c :: r) with
               | Some r', _, _ => Some (JBoolean true, r')
               | _, Some r', _ => Some (JBoolean false, r')
               | _, _, Some r' => Some (JNull, r')
               | None, None, None =>
                   match parse_number (c :: r) with
                   | Some (q, r') => Some (JNumber q, r')
                   | None => None
                   end
               end
      end
  end
with parse_members (fuel : nat) (s : FString) (acc : FJsonObject)
  : option (FJsonObject * FString) :=
  match fuel with
  | O => None
  | S fuel' =>
      match skip_ws s with
      | c :: r =>
          if Ascii.eqb c dquote then
            match parse_string_body r with
            | Some (k, r1) =>
                match skip_ws r1 with
                | ":"%char :: r2 =>
                    match parse_value fuel' r2 with
                    | Some (v, r3) =>
                        let acc' := SetField k v acc in
                        match skip_ws r3 with
                        | ","%char :: r4 => parse_members fuel' r4 acc'
                        | "}"%char :: r4 => Some (acc', r4)
                        | _ => None
                        end
                    | None => None
                    end
                | _ => None
                end
            | None => None
            end
          else None
      | [] => None
      end
  end
with parse_elements (fuel : nat) (s : FString) : option (list FJsonValue * FString) :=
  match fuel with
  | O => None
  | S fuel' =>
      match parse_value fuel' s with
      | Some (v, r1) =>
          match skip_ws r1 with
          | ","%char :: r2 =>
              match parse_elements fuel' r2 with
              | Some (l, r3) => Some (v :: l, r3)
              | None => None
              end
          | "]"%char :: r2 => Some ([v], r2)
          | _ => None
          end
      | None => None
      end
  end.

(** [FJsonSerializer::Deserialize(Reader, Obj)] followed by [Obj.IsValid()]:
    the whole line is one JSON object.  Every nested call of the reader has
    consumed a character, so the length of the line bounds its depth. *)
Definition Deserialize (Line : FString) : option FJsonObject :=
  match parse_value (S (length Line)) Line with
  | Some (JObject o, rest) =>
      match skip_ws rest with
      | [] => Some o
      | _ :: _ => None
      end
  | _ => None
  end.

(** ** The controlled pawn and the world *)

Record FVector := mkVector { VX : Q; VY : Q; VZ : Q }.

Definition V_add (a b : FVector) : FVector :=
  mkVector (VX a + VX b) (VY a + VY b) (VZ a + VZ b).
Definition V_scale (a : FVector) (k : Q) : FVector :=
  mkVector (VX a * k) (VY a * k) (VZ a * k).
Definition V_neg (a : FVector) : FVector :=
  mkVector (- VX a) (- VY a) (- VZ a).

Record FRotator := mkRotator { Pitch : Q; Yaw : Q; Roll : Q }.

Inductive EMovementMode :=
| MOVE_None | MOVE_Walking | MOVE_NavWalking | MOVE_Falling
| MOVE_Swimming | MOVE_Flying | MOVE_Custom | MOVE_MAX.

Record UCharacterMovementComponent := mkMovement {
  MaxWalkSpeed : Q;
  MovementMode : EMovementMode;
  IsFalling : bool
}.

(** What the snapshot and the applicator read of an [APawn].
    [VelocityLength] is [GetVelocity().Length()], a square root the engine
    computes. *)
Record APawn := mkPawn {
  GetName : FString;
  GetClassName : option FString;      (* [GetClass()], when there is one *)
  GetActorLocation : FVector;
  GetActorRotation : FRotator;
  GetVelocity : FVector;
  VelocityLength : Q;
  GetActorForwardVector : FVector;
  GetActorRightVector : FVector;
  GetActorUpVector : FVector
}.

(** An [ACharacter] is an [APawn] with a movement component and a capsule. *)
Record ACharacter := mkCharacter {
  AsPawn : APawn;
  GetCharacterMovement : option UCharacterMovementComponent;
  bIsCrouched : bool;
  GetScaledCapsuleHalfHeight : option Q   (* of [GetCapsuleComponent()], when there is one *)
}.

Inductive PossessedPawn :=
| PlainPawn (p : APawn)
| CharacterPawn (c : ACharacter).

Record APlayerController := mkController { GetPawn : option PossessedPawn }.

(** [LineTraceSingleByChannel] from [Start] to [End] on the visibility
    channel, the pawn ignored: the distance of the first blocking hit. *)
Record UWorld := mkWorld {
  GetFirstPlayerController : option APlayerController;
  LineTraceSingleByChannel : FVector -> FVector -> option Q
}.

Record FEngine := mkEngine {
  GetWorld : option UWorld;
  ProjectSavedDir : FString
}.

Definition Strands_GetControlledCharacter (World : option UWorld) : option ACharacter :=
  match World with
  | None => None
  | Some W =>
      match GetFirstPlayerController W with
      | None => None
      | Some PC =>
          match GetPawn PC with
          | Some (CharacterPawn c) => Some c
          | _ => None
          end
      end
  end.

Definition Strands_GetControlledPawn (World : option UWorld) : option APawn :=
  match World with
  | None => None
  | Some W =>
      match GetFirstPlayerController W with
      | None => None
      | Some PC =>
          match GetPawn PC with
          | Some (CharacterPawn c) => Some (AsPawn c)
          | Some (PlainPawn p) => Some p
          | None => None
          end
      end
  end.

(** ** Sockets and clients *)

Inductive ESocketConnectionState :=
| SCS_NotConnected | SCS_Connected | SCS_ConnectionError.

(** A non-blocking socket at the time of a frame: the bytes that have
    arrived and were not read yet, and the state [GetConnectionState]
    reports.  [Recv] hands out the oldest bytes, as many as asked for. *)
Record FSocket := mkSocket {
  SocketId : nat;
  Incoming : list Byte.byte;
  GetConnectionState : ESocketConnectionState
}.

Definition HasPendingData (Sock : FSocket) : bool * nat :=
  (match Incoming Sock with [] => false | _ :: _ => true end, length (Incoming Sock)).

Definition Recv (Sock : FSocket) (BufferSize : nat) : FSocket * list Byte.byte :=
  (mkSocket (SocketId Sock) (skipn BufferSize (Incoming Sock)) (GetConnectionState Sock),
   firstn BufferSize (Incoming Sock)).

Definition IsConnected (Sock : FSocket) : bool :=
  match GetConnectionState Sock with SCS_Connected => true | _ => false end.

Record FStrandsClientState := mkClient {
  Socket : option FSocket;
  Pending : FString
}.

(** ** Effects on the engine *)

Inductive Effect :=
| LogWarning (Message : FString)
| AddMovementInput (WorldDirection : FVector) (ScaleValue : Q)
| CharacterJump
| AddControllerYawInput (Val : Q)
| AddControllerPitchInput (Val : Q)
| RequestScreenshot (OutPath : FString) (bShowUI : bool)
| MakeDirectory (Dir : FString)
| SaveStringToFile (Root : FJsonObject) (OutPath : FString)
| SocketClose (Id : nat)
| DestroySocket (Id : nat).

(** ** The subsystem *)

Record UStrandsInputServerSettings := mkSettings {
  bAutoStart : bool;
  Port : Z;
  DefaultMoveDuration : Q;
  DefaultLookDuration : Q;
  NormalWalkSpeed : Q;
  SprintWalkSpeed : Q
}.

(** The defaults of the settings class.  They are [float]s: [0.25f], [600.f]
    and [1000.f] are exact, [0.2f] is the binary32 number nearest to one
    fifth, 13421773 / 2^26. *)
Definition DefaultSettings : UStrandsInputServerSettings :=
  mkSettings true 17777 (1 # 4) (13421773 # 67108864) 600 1000.

(** [Listener] is [Listener.IsValid()]; [Settings] holds the values cached
    by [Initialize]. *)
Record UStrandsInputServerSubsystem := mkSubsystem {
  Listener : bool;
  Clients : list FStrandsClientState;
  bRunning : bool;
  MoveActions : list FStrandsMoveAction;
  LookActions : list FStrandsLookAction;
  PendingJumpCount : Z;
  PendingSprintEnabled : option bool;
  Settings : UStrandsInputServerSettings
}.

Definition InitialSubsystem (S : UStrandsInputServerSettings) : UStrandsInputServerSubsystem :=
  mkSubsystem false [] false [] [] 0 None S.

Definition set_Clients (cs : list FStrandsClientState) (s : UStrandsInputServerSubsystem) :=
  mkSubsystem (Listener s) cs (bRunning s) (MoveActions s) (LookActions s)
              (PendingJumpCount s) (PendingSprintEnabled s) (Settings s).
Definition set_MoveActions (l : list FStrandsMoveAction) (s : UStrandsInputServerSubsystem) :=
  mkSubsystem (Listener s) (Clients s) (bRunning s) l (LookActions s)
              (PendingJumpCount s) (PendingSprintEnabled s) (Settings s).
Definition set_LookActions (l : list FStrandsLookAction) (s : UStrandsInputServerSubsystem) :=
  mkSubsystem (Listener s) (Clients s) (bRunning s) (MoveActions s) l
              (PendingJumpCount s) (PendingSprintEnabled s) (Settings s).
Definition set_PendingJumpCount (n : Z) (s : UStrandsInputServerSubsystem) :=
  mkSubsystem (Listener s) (Clients s) (bRunning s) (MoveActions s) (LookActions s)
              n (PendingSprintEnabled s) (Settings s).
Definition set_PendingSprintEnabled (b : option bool) (s : UStrandsInputServerSubsystem) :=
  mkSubsystem (Listener s) (Clients s) (bRunning s) (MoveActions s) (LookActions s)
              (PendingJumpCount s) b (Settings s).

(** The scheduler state: what [ProcessLine] and the resolve pass work on. *)
Definition SchedulerState (s : UStrandsInputServerSubsystem) :=
  (MoveActions s, LookActions s, PendingJumpCount s, PendingSprintEnabled s).

(** ** Paths *)

(** [FPaths::Combine(A, B)]. *)
Definition PathCombine (a b : FString) : FString :=
  match a with
  | [] => b
  | _ :: _ => match nth_error a (length a - 1) with
              | Some "/"%char => a ++ b
              | _ => a ++ "/"%char :: b
              end
  end.

Definition is_path_separator (c : ascii) : bool :=
  (Ascii.eqb c "/" || Ascii.eqb c "\")%char.

(** [FPaths::GetPath]: the text before the last separator. *)
Fixpoint GetPath (p : FString) : FString :=
  match p with
  | [] => []
  | c :: r => if existsb is_path_separator r then c :: GetPath r else []
  end.

(** ** The state snapshot: [BuildWorldState] *)

Definition ModeStr (m : EMovementMode) : FString :=
  match m with
  | MOVE_Walking => TEXT "Walking"
  | MOVE_NavWalking => TEXT "NavWalking"
  | MOVE_Falling => TEXT "Falling"
  | MOVE_Swimming => TEXT "Swimming"
  | MOVE_Flying => TEXT "Flying"
  | MOVE_Custom => TEXT "Custom"
  | _ => TEXT "None"
  end.

(** The lambda [TraceDist]: [bHit ? Hit.Distance : Length]. *)
Definition TraceDist (World : UWorld) (Start Dir : FVector) (Length : Q) : Q :=
  match LineTraceSingleByChannel World Start (V_add Start (V_scale Dir Length)) with
  | Some Distance => Distance
  | None => Length
  end.

Definition RangeFwd : Q := 200.
Definition RangeSide : Q := 200.
Definition RangeDown : Q := 300.
Definition Knee : Q := 50.
Definition Waist : Q := 90.
Definition Chest : Q := 140.

Record Traces := mkTraces {
  ForwardKnee : Q; ForwardWaist : Q; ForwardChest : Q;
  LeftWaist : Q; RightWaist : Q; DownDist : Q
}.

(** The block [if (Pawn) { ... }] that runs the six probes; every distance
    starts as [0.f]. *)
Definition RunTraces (World : UWorld) (Pawn : option APawn) (Character : option ACharacter)
  : Traces :=
  match Pawn with
  | None => mkTraces 0 0 0 0 0 0
  | Some P =>
      let BaseLoc := GetActorLocation P in
      let Fwd := GetActorForwardVector P in
      let Right := GetActorRightVector P in
      let Up := GetActorUpVector P in
      let HalfHeight :=
        match Character with
        | Some C => match GetScaledCapsuleHalfHeight C with
                    | Some h => h
                    | None => 88
                    end
        | None => 88
        end in
      let KneeStart := V_add BaseLoc (V_scale Up (Knee - HalfHeight)) in
      let WaistStart := V_add BaseLoc (V_scale Up (Waist - HalfHeight)) in
      let ChestStart := V_add BaseLoc (V_scale Up (Chest - HalfHeight)) in
      mkTraces (TraceDist World KneeStart Fwd RangeFwd)
               (TraceDist World WaistStart Fwd RangeFwd)
               (TraceDist World ChestStart Fwd RangeFwd)
               (TraceDist World WaistStart (V_neg Right) RangeSide)
               (TraceDist World WaistStart Right RangeSide)
               (TraceDist World BaseLoc (V_neg Up) RangeDown)
  end.

Definition BlockedForward (T : Traces) : bool :=
  Qltb 0 (ForwardWaist T) && Qltb (ForwardWaist T) 100.

Definition PawnFields (Pawn : option APawn) (Out : FJsonObject) : FJsonObject :=
  match Pawn with
  | Some P =>
      let PawnObj := SetField (TEXT "name") (JString (GetName P)) [] in
      let PawnObj := SetField (TEXT "class")
                       (JString (match GetClassName P with
                                 | Some n => n
                                 | None => TEXT "Unknown"
                                 end)) PawnObj in
      let Out := SetField (TEXT "pawn") (JObject PawnObj) Out in
      let Loc := GetActorLocation P in
      let Out := SetField (TEXT "pos")
                   (JArray [JNumber (VX Loc); JNumber (VY Loc); JNumber (VZ Loc)]) Out in
      let Rot := GetActorRotation P in
      let RotObj := SetField (TEXT "yaw") (JNumber (Yaw Rot)) [] in
      let RotObj := SetField (TEXT "pitch") (JNumber (Pitch Rot)) RotObj in
      let RotObj := SetField (TEXT "roll") (JNumber (Roll Rot)) RotObj in
      let Out := SetField (TEXT "rot") (JObject RotObj) Out in
      let Vel := GetVelocity P in
      let Out := SetField (TEXT "vel")
                   (JArray [JNumber (VX Vel); JNumber (VY Vel); JNumber (VZ Vel)]) Out in
      SetField (TEXT "speed") (JNumber (VelocityLength P)) Out
  | None => SetField (TEXT "pawn") (JObject []) Out
  end.

Definition MoveFields (Character : option ACharacter) : FJsonObject :=
  match Character with
  | Some C =>
      match GetCharacterMovement C with
      | Some MoveComp =>
          let MoveObj := SetField (TEXT "mode") (JString (ModeStr (MovementMode MoveComp))) [] in
          let MoveObj := SetField (TEXT "isFalling") (JBoolean (IsFalling MoveComp)) MoveObj in
          SetField (TEXT "isCrouched") (JBoolean (bIsCrouched C)) MoveObj
      | None => []
      end
  | None => []
  end.

Definition TraceFields (T : Traces) : FJsonObject :=
  let ForwardObj := SetField (TEXT "knee") (JNumber (ForwardKnee T)) [] in
  let ForwardObj := SetField (TEXT "waist") (JNumber (ForwardWaist T)) ForwardObj in
  let ForwardObj := SetField (TEXT "chest") (JNumber (ForwardChest T)) ForwardObj in
  let TraceObj := SetField (TEXT "forward") (JObject ForwardObj) [] in
  let LeftObj := SetField (TEXT "waist") (JNumber (LeftWaist T)) [] in
  let TraceObj := SetField (TEXT "left") (JObject LeftObj) TraceObj in
  let RightObj := SetField (TEXT "waist") (JNumber (RightWaist T)) [] in
  let TraceObj := SetField (TEXT "right") (JObject RightObj) TraceObj in
  let DownObj := SetField (TEXT "dist") (JNumber (DownDist T)) [] in
  SetField (TEXT "down") (JObject DownObj) TraceObj.

Definition BuildWorldState (Now : Q) (Out : FJsonObject) (World : option UWorld)
  : FJsonObject :=
  match World with
  | None => Out
  | Some W =>
      let Character := Strands_GetControlledCharacter World in
      let Pawn := match Character with
                  | Some C => Some (AsPawn C)
                  | None => Strands_GetControlledPawn World
                  end in
      let Out := SetField (TEXT "ts") (JNumber Now) Out in
      let Out := PawnFields Pawn Out in
      let Out := SetField (TEXT "move") (JObject (MoveFields Character)) Out in
      let T := RunTraces W Pawn Character in
      let Out := SetField (TEXT "trace") (JObject (TraceFields T)) Out in
      let BlockedObj := SetField (TEXT "forward") (JBoolean (BlockedForward T)) [] in
      SetField (TEXT "blocked") (JObject BlockedObj) Out
  end.

Definition WriteWorldStateToFile (Now : Q) (E : FEngine) (OutPath : FString) : list Effect :=
  let Root := BuildWorldState Now [] (GetWorld E) in
  let Dir := GetPath OutPath in
  (match Dir with [] => [] | _ :: _ => [MakeDirectory Dir] end)
  ++ [SaveStringToFile Root OutPath].

(** Reading a number out of a snapshot, along a path of field names. *)
Fixpoint JsonAt (path : list FString) (v : FJsonValue) : option FJsonValue :=
  match path with
  | [] => Some v
  | k :: rest =>
      match v with
      | JObject o => match TryGetField o k with
                     | Some v' => JsonAt rest v'
                     | None => None
                     end
      | _ => None
      end
  end.

(** ** Command decoding and ingest: [ProcessLine]

    The body of [ProcessLine] is read in two steps: [DecodeCommand] is the
    chain of [Cmd.Equals(...)] tests with the field extraction of the branch
    taken, [ExecuteCommand] is what the branch then does to the subsystem. *)

Inductive Command :=
| CmdMove (Forward Right Duration : Q)
| CmdLook (YawRate PitchRate Duration : Q)
| CmdJump
| CmdSprint (enabled : option bool)   (* [None]: no usable [enabled] field *)
| CmdScreenshot (OutPath : FString) (bShowUI : bool)
| CmdState (OutPath : FString)
| CmdUnknown (Cmd : FString).

Definition NumberOr (Obj : FJsonObject) (k : FString) (d : Q) : Q :=
  if HasTypedField EJson_Number Obj k then GetNumberField Obj k else d.

Definition DecodeCommand (E : FEngine) (S : UStrandsInputServerSettings)
  (Obj : FJsonObject) : Command :=
  let Cmd := GetStringField Obj (TEXT "cmd") in
  if EqualsIgnoreCase Cmd (TEXT "move") then
    CmdMove (NumberOr Obj (TEXT "forward") 0)
            (NumberOr Obj (TEXT "right") 0)
            (NumberOr Obj (TEXT "duration") (DefaultMoveDuration S))
  else if EqualsIgnoreCase Cmd (TEXT "look") then
    CmdLook (NumberOr Obj (TEXT "yawRate") 0)
            (NumberOr Obj (TEXT "pitchRate") 0)
            (NumberOr Obj (TEXT "duration") (DefaultLookDuration S))
  else if EqualsIgnoreCase Cmd (TEXT "jump") then CmdJump
  else if EqualsIgnoreCase Cmd (TEXT "sprint") then
    CmdSprint (if HasField Obj (TEXT "enabled")
               then TryGetBoolField Obj (TEXT "enabled")
               else None)
  else if EqualsIgnoreCase Cmd (TEXT "screenshot") then
    CmdScreenshot
      (if HasTypedField EJson_String Obj (TEXT "path")
       then GetStringField Obj (TEXT "path")
       else PathCombine (ProjectSavedDir E) (TEXT "AutoScreenshot.png"))
      (if HasTypedField EJson_Boolean Obj (TEXT "showUI")
       then GetBoolField Obj (TEXT "showUI")
       else false)
  else if EqualsIgnoreCase Cmd (TEXT "state") then
    CmdState
      (if HasTypedField EJson_String Obj (TEXT "path")
       then GetStringField Obj (TEXT "path")
       else PathCombine (ProjectSavedDir E) (TEXT "WorldState/agent_state.json"))
  else CmdUnknown Cmd.

(** [Action.Axis = FVector2D((float)Forward, (float)Right)] and
    [Action.Rate = FVector2D((float)YawRate, (float)PitchRate)]: the
    narrowing to [float] is the identity on the exact numbers used here, so
    the stored axis is the decoded one only for values a [float] holds
    (such as 1, 0 and 0.5); [EndTime] is computed in [double] and is not
    narrowed. *)
Definition ExecuteCommand (Now : Q) (E : FEngine) (c : Command)
  (s : UStrandsInputServerSubsystem) : UStrandsInputServerSubsystem * list Effect :=
  match c with
  | CmdMove Forward Right Duration =>
      let Action := mkMoveAction (mkVector2D Forward Right) (Now + FMath_Max 0 Duration) in
      (set_MoveActions (MoveActions s ++ [Action]) s, [])
  | CmdLook YawRate PitchRate Duration =>
      let Action := mkLookAction (mkVector2D YawRate PitchRate) (Now + FMath_Max 0 Duration) in
      (set_LookActions (LookActions s ++ [Action]) s, [])
  | CmdJump =>
      (set_PendingJumpCount (wrap32 (PendingJumpCount s + 1)) s, [])
  | CmdSprint (Some bEnabled) =>
      (set_PendingSprintEnabled (Some bEnabled) s, [])
  | CmdSprint None => (s, [])
  | CmdScreenshot OutPath bShowUI => (s, [RequestScreenshot OutPath bShowUI])
  | CmdState OutPath => (s, WriteWorldStateToFile Now E OutPath)
  | CmdUnknown Cmd =>
      (s, [LogWarning (TEXT "StrandsInputServer: Unknown cmd '" ++ Cmd ++ TEXT "'")])
  end.

Definition ProcessLine (Now : Q) (E : FEngine) (Line : FString)
  (s : UStrandsInputServerSubsystem) : UStrandsInputServerSubsystem * list Effect :=
  match Deserialize Line with
  | None => (s, [LogWarning (TEXT "StrandsInputServer: Failed to parse JSON: " ++ Line)])
  | Some Obj => ExecuteCommand Now E (DecodeCommand E (Settings s) Obj) s
  end.

(** [ProcessLine] once more, with the engine's [TryGetBoolField] left open:
    the same chain of tests, the accessor of the sprint branch being the
    argument [TryGetBool]. *)
Definition DecodeCommandWith (TryGetBool : FJsonObject -> FString -> option bool)
  (E : FEngine) (S : UStrandsInputServerSettings) (Obj : FJsonObject) : Command :=
  let Cmd := GetStringField Obj (TEXT "cmd") in
  if EqualsIgnoreCase Cmd (TEXT "move") then
    CmdMove (NumberOr Obj (TEXT "forward") 0)
            (NumberOr Obj (TEXT "right") 0)
            (NumberOr Obj (TEXT "duration") (DefaultMoveDuration S))
  else if EqualsIgnoreCase Cmd (TEXT "look") then
    CmdLook (NumberOr Obj (TEXT "yawRate") 0)
            (NumberOr Obj (TEXT "pitchRate") 0)
            (NumberOr Obj (TEXT "duration") (DefaultLookDuration S))
  else if EqualsIgnoreCase Cmd (TEXT "jump") then CmdJump
  else if EqualsIgnoreCase Cmd (TEXT "sprint") then
    CmdSprint (if HasField Obj (TEXT "enabled")
               then TryGetBool Obj (TEXT "enabled")
               else None)
  else if EqualsIgnoreCase Cmd (TEXT "screenshot") then
    CmdScreenshot
      (if HasTypedField EJson_String Obj (TEXT "path")
       then GetStringField Obj (TEXT "path")
       else PathCombine (ProjectSavedDir E) (TEXT "AutoScreenshot.png"))
      (if HasTypedField EJson_Boolean Obj (TEXT "showUI")
       then GetBoolField Obj (TEXT "showUI")
       else false)
  else if EqualsIgnoreCase Cmd (TEXT "state") then
    CmdState
      (if HasTypedField EJson_String Obj (TEXT "path")
       then GetStringField Obj (TEXT "path")
       else PathCombine (ProjectSavedDir E) (TEXT "WorldState/agent_state.json"))
  else CmdUnknown Cmd.

Definition ProcessLineWith (TryGetBool : FJsonObject -> FString -> option bool)
  (Now : Q) (E : FEngine) (Line : FString)
  (s : UStrandsInputServerSubsystem) : UStrandsInputServerSubsystem * list Effect :=
  match Deserialize Line with
  | None => (s, [LogWarning (TEXT "StrandsInputServer: Failed to parse JSON: " ++ Line)])
  | Some Obj => ExecuteCommand Now E (DecodeCommandWith TryGetBool E (Settings s) Obj) s
  end.

(** [ProcessLine] of the copy of the plugin under MyProject: its chain of
    tests has the branches [move], [look], [jump] and [sprint], and then the
    [else] that logs the unknown command.  It reads nothing of the engine,
    [E] is kept for [ExecuteCommand]. *)
Definition DecodeCommand_MyProject (E : FEngine) (S : UStrandsInputServerSettings)
  (Obj : FJsonObject) : Command :=
  let Cmd := GetStringField Obj (TEXT "cmd") in
  if EqualsIgnoreCase Cmd (TEXT "move") then
    CmdMove (NumberOr Obj (TEXT "forward") 0)
            (NumberOr Obj (TEXT "right") 0)
            (NumberOr Obj (TEXT "duration") (DefaultMoveDuration S))
  else if EqualsIgnoreCase Cmd (TEXT "look") then
    CmdLook (NumberOr Obj (TEXT "yawRate") 0)
            (NumberOr Obj (TEXT "pitchRate") 0)
            (NumberOr Obj (TEXT "duration") (DefaultLookDuration S))
  else if EqualsIgnoreCase Cmd (TEXT "jump") then CmdJump
  else if EqualsIgnoreCase Cmd (TEXT "sprint") then
    CmdSprint (if HasField Obj (TEXT "enabled")
               then TryGetBoolField Obj (TEXT "enabled")
               else None)
  else CmdUnknown Cmd.

Definition ProcessLine_MyProject (Now : Q) (E : FEngine) (Line : FString)
  (s : UStrandsInputServerSubsystem) : UStrandsInputServerSubsystem * list Effect :=
  match Deserialize Line with
  | None => (s, [LogWarning (TEXT "StrandsInputServer: Failed to parse JSON: " ++ Line)])
  | Some Obj => ExecuteCommand Now E (DecodeCommand_MyProject E (Settings s) Obj) s
  end.

(** The frames of one pass and the commands they decode to, for reading the
    protocol without the subsystem: a line that is no JSON object decodes to
    nothing. *)
Definition DecodeLine (E : FEngine) (S : UStrandsInputServerSettings) (Line : FString)
  : option Command :=
  match Deserialize Line with
  | None => None
  | Some Obj => Some (DecodeCommand E S Obj)
  end.

Fixpoint DecodeLines (E : FEngine) (S : UStrandsInputServerSettings) (Lines : list FString)
  : list Command :=
  match Lines with
  | [] => []
  | L :: r => match DecodeLine E S L with
              | Some c => c :: DecodeLines E S r
              | None => DecodeLines E S r
              end
  end.

(** ** Draining a socket

    The read loop, which the source has verbatim in [DrainClient] and in
    [PollClients].  Every turn that does not leave the loop takes at least
    one byte off the socket, so [length (Incoming Sock)] turns are enough. *)
Definition RecvChunk : nat := N.to_nat 65536.

Section Drain.
Variable LineHandler :
  FString -> UStrandsInputServerSubsystem -> UStrandsInputServerSubsystem * list Effect.

(** [for (FString& Line : Lines) ProcessLine(Line);] *)
Fixpoint ProcessLines (Lines : list FString) (s : UStrandsInputServerSubsystem)
  : UStrandsInputServerSubsystem * list Effect :=
  match Lines with
  | [] => (s, [])
  | Line :: rest =>
      let (s1, e1) := LineHandler Line s in
      let (s2, e2) := ProcessLines rest s1 in
      (s2, e1 ++ e2)
  end.

Fixpoint DrainLoop (fuel : nat) (Sock : FSocket) (Pend : FString)
  (s : UStrandsInputServerSubsystem)
  : FSocket * FString * UStrandsInputServerSubsystem * list Effect :=
  match fuel with
  | O => (Sock, Pend, s, [])
  | S fuel' =>
      let (bHas, PendingSize) := HasPendingData Sock in
      if bHas && (0 <? PendingSize)%nat then
        let ToRead := Nat.min PendingSize RecvChunk in
        let (Sock1, Buffer) := Recv Sock ToRead in
        let ActuallyRead := length Buffer in
        if (0 <? ActuallyRead)%nat then
          let Chunk := map ascii_of_byte Buffer in
          let (Pend1, Lines) := Strands_SplitLines (Pend ++ Chunk) [] in
          let (s1, e1) := ProcessLines Lines s in
          let '(Sock2, Pend2, s2, e2) := DrainLoop fuel' Sock1 Pend1 s1 in
          (Sock2, Pend2, s2, e1 ++ e2)
        else (Sock1, Pend, s, [])
      else (Sock, Pend, s, [])
  end.

Definition DrainSocket (Sock : FSocket) (Pend : FString) (s : UStrandsInputServerSubsystem) :=
  DrainLoop (length (Incoming Sock)) Sock Pend s.

(** [Clients[i] = v]. *)
Definition SetAt {A : Type} (i : nat) (v : A) (l : list A) : list A :=
  if (i <? length l)%nat then firstn i l ++ v :: skipn (S i) l else l.

(** [PollClients] of the CitySample copy; [n] is [i + 1]. *)
Fixpoint PollLoop (n : nat) (s : UStrandsInputServerSubsystem)
  : UStrandsInputServerSubsystem * list Effect :=
  match n with
  | O => (s, [])
  | S i =>
      match nth_error (Clients s) i with
      | None => (s, [])
      | Some Client =>
          match Socket Client with
          | None => PollLoop i (set_Clients (RemoveAtSwap i (Clients s)) s)
          | Some Sock =>
              (* Read all pending data FIRST, even if the peer closed after sending *)
              let '(Sock1, Pend1, s1, e1) := DrainSocket Sock (Pending Client) s in
              let s2 := set_Clients (SetAt i (mkClient (Some Sock1) Pend1) (Clients s1)) s1 in
              (* After attempting to drain, remove sockets that are no longer connected *)
              if negb (IsConnected Sock1) then
                let s3 := set_Clients (RemoveAtSwap i (Clients s2)) s2 in
                let (s4, e4) := PollLoop i s3 in
                (s4, e1 ++ SocketClose (SocketId Sock1) :: DestroySocket (SocketId Sock1) :: e4)
              else
                let (s4, e4) := PollLoop i s2 in
                (s4, e1 ++ e4)
          end
      end
  end.

Definition PollClients (s : UStrandsInputServerSubsystem) :=
  PollLoop (length (Clients s)) s.

(** [PollClients] of the MyProject copy: the connection state is looked at
    before anything is read. *)
Fixpoint PollLoop_MyProject (n : nat) (s : UStrandsInputServerSubsystem)
  : UStrandsInputServerSubsystem * list Effect :=
  match n with
  | O => (s, [])
  | S i =>
      match nth_error (Clients s) i with
      | None => (s, [])
      | Some Client =>
          match Socket Client with
          | None => PollLoop_MyProject i (set_Clients (RemoveAtSwap i (Clients s)) s)
          | Some Sock =>
              if negb (IsConnected Sock) then
                let s3 := set_Clients (RemoveAtSwap i (Clients s)) s in
                let (s4, e4) := PollLoop_MyProject i s3 in
                (s4, SocketClose (SocketId Sock) :: DestroySocket (SocketId Sock) :: e4)
              else
                (* Read all pending data *)
                let '(Sock1, Pend1, s1, e1) := DrainSocket Sock (Pending Client) s in
                let s2 := set_Clients (SetAt i (mkClient (Some Sock1) Pend1) (Clients s1)) s1 in
                let (s4, e4) := PollLoop_MyProject i s2 in
                (s4, e1 ++ e4)
          end
      end
  end.

Definition PollClients_MyProject (s : UStrandsInputServerSubsystem) :=
  PollLoop_MyProject (length (Clients s)) s.

(** [DrainClient(Clients.Last())], as the accept task calls it. *)
Definition DrainLastClient (s : UStrandsInputServerSubsystem)
  : UStrandsInputServerSubsystem * list Effect :=
  let i := (length (Clients s) - 1)%nat in
  match nth_error (Clients s) i with
  | None => (s, [])
  | Some Client =>
      match Socket Client with
      | None => (s, [])
      | Some Sock =>
          let '(Sock1, Pend1, s1, e1) := DrainSocket Sock (Pending Client) s in
          (set_Clients (SetAt i (mkClient (Some Sock1) Pend1) (Clients s1)) s1, e1)
      end
  end.

(** The game-thread task queued by the accept callback. *)
Definition OnClientAccepted (InSocket : FSocket) (s : UStrandsInputServerSubsystem) :=
  DrainLastClient (set_Clients (Clients s ++ [mkClient (Some InSocket) []]) s).
End Drain.

(** ** Start and stop *)


Fixpoint CloseAll (cs : list FStrandsClientState) : list Effect :=
  match cs with
  | [] => []
  | C :: rest =>
      match Socket C with
      | Some Sock => SocketClose (SocketId Sock) :: DestroySocket (SocketId Sock) :: CloseAll rest
      | None => CloseAll rest
      end
  end.

Definition StopServer (s : UStrandsInputServerSubsystem)
  : UStrandsInputServerSubsystem * list Effect :=
  (mkSubsystem false [] false (MoveActions s) (LookActions s)
               (PendingJumpCount s) (PendingSprintEnabled s) (Settings s),
   CloseAll (Clients s)).

(** ** Resolve and apply *)

Definition ApplyScheduledActions (DeltaSeconds : Q) (Now : Q) (E : FEngine)
  (s : UStrandsInputServerSubsystem) : UStrandsInputServerSubsystem * list Effect :=
  (* Sum active move actions, remove expired *)
  let (MoveActions', MoveSum) := Sweep Axis EndTime Now (MoveActions s) in
  let MoveAxis := ClampAxis MoveSum in
  (* Sum active look actions, remove expired (rates are deg/sec) *)
  let (LookActions', LookRate) := Sweep Rate LookEndTime Now (LookActions s) in
  let s := set_LookActions LookActions' (set_MoveActions MoveActions' s) in
  let Character := Strands_GetControlledCharacter (GetWorld E) in
  let Pawn := match Character with
              | Some C => Some (AsPawn C)
              | None => Strands_GetControlledPawn (GetWorld E)
              end in
  let '(s, e1) :=
    match Character with
    | Some C =>
        let em :=
          if negb (IsNearlyZero MoveAxis)
          then [AddMovementInput (GetActorForwardVector (AsPawn C)) (X MoveAxis);
                AddMovementInput (GetActorRightVector (AsPawn C)) (Y MoveAxis)]
          else [] in
        if (0 <? PendingJumpCount s)%Z
        then (set_PendingJumpCount 0 s,
              em ++ repeat CharacterJump (Z.to_nat (PendingJumpCount s)))
        else (s, em)
    | None => (s, [])
    end in
  let e2 :=
    match Pawn with
    | Some P =>
        if negb (IsNearlyZero LookRate)
        then [AddControllerYawInput (X LookRate * DeltaSeconds);
              AddControllerPitchInput (Y LookRate * DeltaSeconds)]
        else []
    | None => []
    end in
  (s, e1 ++ e2).

(** [MoveComp->MaxWalkSpeed = v] on the possessed character. *)
Definition SetMaxWalkSpeed (v : Q) (E : FEngine) : FEngine :=
  match GetWorld E with
  | Some W =>
      match GetFirstPlayerController W with
      | Some PC =>
          match GetPawn PC with
          | Some (CharacterPawn C) =>
              match GetCharacterMovement C with
              | Some MoveComp =>
                  let MoveComp' := mkMovement v (MovementMode MoveComp) (IsFalling MoveComp) in
                  let C' := mkCharacter (AsPawn C) (Some MoveComp') (bIsCrouched C)
                                        (GetScaledCapsuleHalfHeight C) in
                  mkEngine (Some (mkWorld (Some (mkController (Some (CharacterPawn C'))))
                                          (LineTraceSingleByChannel W)))
                           (ProjectSavedDir E)
              | None => E
              end
          | _ => E
          end
      | None => E
      end
  | None => E
  end.

Definition ApplySprintIfPending (E : FEngine) (s : UStrandsInputServerSubsystem)
  : UStrandsInputServerSubsystem * FEngine :=
  match PendingSprintEnabled s with
  | None => (s, E)
  | Some bEnabled =>
      let E' :=
        match Strands_GetControlledCharacter (GetWorld E) with
        | Some Character =>
            SetMaxWalkSpeed (if bEnabled then SprintWalkSpeed (Settings s)
                             else NormalWalkSpeed (Settings s)) E
        | None => E
        end in
      (set_PendingSprintEnabled None s, E')
  end.

(** The walk speed of the possessed character, when there is one with a
    movement component. *)
Definition CurrentMaxWalkSpeed (E : FEngine) : option Q :=
  match Strands_GetControlledCharacter (GetWorld E) with
  | Some C => match GetCharacterMovement C with
              | Some MoveComp => Some (MaxWalkSpeed MoveComp)
              | None => None
              end
  | None => None
  end.

(** [Tick]: [NowPoll] is the clock while the received lines are processed,
    [NowApply] the clock [ApplyScheduledActions] reads. *)
Definition Tick (DeltaTime NowPoll NowApply : Q) (E : FEngine)
  (s : UStrandsInputServerSubsystem)
  : UStrandsInputServerSubsystem * FEngine * list Effect :=
  let (s1, e1) := if bRunning s then PollClients (ProcessLine NowPoll E) s else (s, []) in
  let (s2, e2) := ApplyScheduledActions DeltaTime NowApply E s1 in
  let (s3, E') := ApplySprintIfPending E s2 in
  (s3, E', e1 ++ e2).

(** [Tick] of the MyProject copy. *)
Definition Tick_MyProject (DeltaTime NowPoll NowApply : Q) (E : FEngine)
  (s : UStrandsInputServerSubsystem)
  : UStrandsInputServerSubsystem * FEngine * list Effect :=
  let (s1, e1) := if bRunning s
                  then PollClients_MyProject (ProcessLine_MyProject NowPoll E) s
                  else (s, []) in
  let (s2, e2) := ApplyScheduledActions DeltaTime NowApply E s1 in
  let (s3, E') := ApplySprintIfPending E s2 in
  (s3, E', e1 ++ e2).

(** ** Reading the specification

    [clamp_unit] is the clamp of the specification, written with the
    library's minimum and maximum; [JumpCount] counts the jumps a pass
    applied. *)

Definition clamp_unit (x : Q) : Q := Qmax (-1) (Qmin x 1).

Definition is_jump (e : Effect) : bool :=
  match e with CharacterJump => true | _ => false end.

Definition JumpCount (es : list Effect) : nat := length (filter is_jump es).

Definition live_moves (Now : Q) (pool : list FStrandsMoveAction) : list FStrandsMoveAction :=
  filter (fun a => Qltb Now (EndTime a)) pool.

(** ** Sample worlds and lines *)

Definition NoHit : FVector -> FVector -> option Q := fun _ _ => None.

(** The pawn of P7: at (10, 20, 30), yaw 90, at rest. *)
Definition SamplePawn : APawn :=
  mkPawn (TEXT "BP_ThirdPersonCharacter_C_0") (Some (TEXT "BP_ThirdPersonCharacter_C"))
         (mkVector 10 20 30) (mkRotator 0 90 0) (mkVector 0 0 0) 0
         (mkVector 0 1 0) (mkVector (-1) 0 0) (mkVector 0 0 1).

Definition SampleCharacter : ACharacter :=
  mkCharacter SamplePawn (Some (mkMovement 600 MOVE_Walking false)) false (Some 88).

Definition SavedDir : FString := TEXT "../../../CitySample/Saved/".

(** A world whose player controller possesses [SampleCharacter], with
    nothing in range of the probes. *)
Definition Engine_Character : FEngine :=
  mkEngine (Some (mkWorld (Some (mkController (Some (CharacterPawn SampleCharacter)))) NoHit))
           SavedDir.

(** A world whose player controller possesses nothing. *)
Definition Engine_NoPawn : FEngine :=
  mkEngine (Some (mkWorld (Some (mkController None)) NoHit)) SavedDir.

Definition JumpLine : FString := JSON "{'cmd':'jump'}".

Definition SprintLine (enabled : bool) : FString :=
  if enabled then JSON "{'cmd':'sprint','enabled':true}"
  else JSON "{'cmd':'sprint','enabled':false}".

Definition bytes_of (s : FString) : list Byte.byte := map byte_of_ascii s.

(** What the specification asks of one probe: from [Start] along [Dir], the
    distance of the nearest obstruction, or [Range] when nothing is hit. *)
Definition ProbeReports (World : UWorld) (Start Dir : FVector) (Range d : Q) : Prop :=
  match LineTraceSingleByChannel World Start (V_add Start (V_scale Dir Range)) with
  | Some Distance => d = Distance
  | None => d = Range
  end.

(** The number, or the flag, a snapshot holds at a path of field names. *)
Definition SnapshotAt (path : list string) (Root : FJsonObject) : option FJsonValue :=
  JsonAt (map TEXT path) (JObject Root).

Definition HalfHeightOf (Character : option ACharacter) : Q :=
  match Character with
  | Some C => match GetScaledCapsuleHalfHeight C with Some h => h | None => 88 end
  | None => 88
  end.

(** A frame as the specification describes it: not empty, with no
    whitespace (and so no carriage return) at either end. *)
Definition Framed (Line : FString) : Prop :=
  Line <> [] /\
  (forall c, hd_error Line = Some c -> IsWhitespace c = false) /\
  (forall c, hd_error (rev Line) = Some c -> IsWhitespace c = false).

Definition MoveForwardLine : FString := JSON "{'cmd':'move','forward':1}".

(** The byte stream of P5. *)
Definition P5_stream : FString :=
  JumpLine ++ [newline] ++ MoveForwardLine ++ [carriage_return; newline].

(** A registry of one client whose socket holds [stream], unread. *)
Definition OneClient (S : UStrandsInputServerSettings) (stream : FString)
  (state : ESocketConnectionState) : UStrandsInputServerSubsystem :=
  mkSubsystem true [mkClient (Some (mkSocket 1 (bytes_of stream) state)) []] true
              [] [] 0 None S.

(** What a poll pass owes one client: its unread bytes are framed after
    what was buffered for it ([FramesOf]), it is left with an empty socket
    and the text after the last line feed ([Drained]), and it stays in the
    registry when its socket is connected ([StaysConnected]). *)
Definition TextOf (C : FStrandsClientState) : FString :=
  match Socket C with
  | Some Sock => Pending C ++ map ascii_of_byte (Incoming Sock)
  | None => Pending C
  end.

Definition FramesOf (C : FStrandsClientState) : list FString :=
  match Socket C with
  | Some Sock => snd (Strands_SplitLines (TextOf C) [])
  | None => []
  end.

Definition Drained (C : FStrandsClientState) : FStrandsClientState :=
  match Socket C with
  | Some Sock =>
      mkClient (Some (mkSocket (SocketId Sock) [] (GetConnectionState Sock)))
               (fst (Strands_SplitLines (TextOf C) []))
  | None => C
  end.

Definition StaysConnected (C : FStrandsClientState) : bool :=
  match Socket C with
  | Some Sock => IsConnected Sock
  | None => false
  end.

(** No complete line is left in the buffer of a client between two passes. *)
Definition NoLineBuffered (C : FStrandsClientState) : Prop :=
  FindChar newline (Pending C) = None.

(** What a poll pass owes the registry, client after client in the order
    of the pass: the frames of everything the client has sent are handled,
    and then, when its socket is not connected, the socket is closed and
    destroyed. *)
Definition ClosingOf (C : FStrandsClientState) : list Effect :=
  match Socket C with
  | Some Sock => if IsConnected Sock then []
                 else [SocketClose (SocketId Sock); DestroySocket (SocketId Sock)]
  | None => []
  end.

Fixpoint PollSpec
  (h : FString -> UStrandsInputServerSubsystem -> UStrandsInputServerSubsystem * list Effect)
  (cs : list FStrandsClientState) (s : UStrandsInputServerSubsystem)
  : UStrandsInputServerSubsystem * list Effect :=
  match cs with
  | [] => (s, [])
  | C :: rest =>
      let (s1, e1) := ProcessLines h (FramesOf C) s in
      let (s2, e2) := PollSpec h rest s1 in
      (s2, e1 ++ ClosingOf C ++ e2)
  end.

(** The subsystem as the poll of a frame leaves it, the registry aside:
    while the server runs, every line the clients have sent has been
    handled; the sprint latch of this state is what the last Sprint command
    ingested so far has set, the commands of this frame included. *)
Definition Received (NowPoll : Q) (E : FEngine) (s : UStrandsInputServerSubsystem)
  : UStrandsInputServerSubsystem :=
  if bRunning s then fst (PollSpec (ProcessLine NowPoll E) (rev (Clients s)) s) else s.

(** ** Words for the further properties *)

Definition live_looks (Now : Q) (pool : list FStrandsLookAction) : list FStrandsLookAction :=
  filter (fun a => Qltb Now (LookEndTime a)) pool.

Definition is_look_input (e : Effect) : bool :=
  match e with
  | AddControllerYawInput _ | AddControllerPitchInput _ => true
  | _ => false
  end.

Definition is_movement_input (e : Effect) : bool :=
  match e with AddMovementInput _ _ => true | _ => false end.

(** The names [ProcessLine] compares the command with. *)
Definition CommandNames : list FString :=
  map TEXT ["move"; "look"; "jump"; "sprint"; "screenshot"; "state"]%string.

(** A world with the sample character and an obstruction at distance [d]
    on every line. *)
Definition Engine_Wall (d : Q) : FEngine :=
  mkEngine (Some (mkWorld (Some (mkController (Some (CharacterPawn SampleCharacter))))
                          (fun _ _ => Some d)))
           SavedDir.

(** A world whose player controller possesses a pawn that is no character. *)
Definition Engine_PlainPawn : FEngine :=
  mkEngine (Some (mkWorld (Some (mkController (Some (PlainPawn SamplePawn)))) NoHit)) SavedDir.

Definition is_file_effect (e : Effect) : bool :=
  match e with
  | MakeDirectory _ | SaveStringToFile _ _ => true
  | _ => false
  end.

Definition is_screenshot_request (e : Effect) : bool :=
  match e with RequestScreenshot _ _ => true | _ => false end.

(** Where the waist probe of a pawn starts. *)
Definition WaistStartOf (P : APawn) (Character : option ACharacter) : FVector :=
  V_add (GetActorLocation P) (V_scale (GetActorUpVector P) (Waist - HalfHeightOf Character)).


(* ===================================================================== *)
(** * Theorems *)

Lemma RemoveAtSwap_last : forall {A : Type} (p : list A) (a : A),
  RemoveAtSwap (length p) (p ++ [a]) = p.
Proof.
  intros A p a. unfold RemoveAtSwap.
  rewrite length_app. simpl.
  destruct (Nat.leb_spec (length p + 1) (length p)); [lia|].
  replace (length p + 1 - 1)%nat with (length p) by lia.
  rewrite Nat.eqb_refl. apply removelast_last.
Qed.

Lemma RemoveAtSwap_middle : forall {A : Type} (p : list A) (a : A) (q : list A) (z : A),
  RemoveAtSwap (length p) (p ++ a :: q ++ [z]) = p ++ z :: q.
Proof.
  intros A p a q z. unfold RemoveAtSwap.
  assert (Hlen : length (p ++ a :: q ++ [z]) = (length p + S (length q + 1))%nat).
  { rewrite length_app. simpl. rewrite length_app. reflexivity. }
  rewrite Hlen.
  destruct (Nat.leb_spec (length p + S (length q + 1)) (length p)); [lia|].
  destruct (Nat.eqb_spec (length p) (length p + S (length q + 1) - 1)); [lia|].
  assert (Hnth : nth_error (p ++ a :: q ++ [z]) (length p + S (length q + 1) - 1) = Some z).
  { replace (p ++ a :: q ++ [z]) with ((p ++ a :: q) ++ [z])
      by (rewrite <- app_assoc; reflexivity).
    rewrite nth_error_app2; rewrite length_app; simpl; [|lia].
    replace (length p + S (length q + 1) - 1 - (length p + S (length q)))%nat with 0%nat by lia.
    reflexivity. }
  rewrite Hnth.
  rewrite firstn_app, firstn_all, Nat.sub_diag. simpl. rewrite app_nil_r.
  f_equal. f_equal.
  replace (p ++ a :: q ++ [z]) with ((p ++ a :: q) ++ [z])
    by (rewrite <- app_assoc; reflexivity).
  rewrite removelast_last.
  clear. induction p as [|b p IH]; simpl; [reflexivity | exact IH].
Qed.

(** ** Rational helpers *)

Lemma Qltb_lt : forall a b, Qltb a b = true <-> a < b.
Proof.
  intros a b. unfold Qltb. rewrite negb_true_iff.
  split; intro H.
  - apply Qnot_le_lt. intro Hle. apply Qle_bool_iff in Hle. congruence.
  - destruct (Qle_bool b a) eqn:E; [|reflexivity].
    apply Qle_bool_iff in E. exfalso. exact (Qlt_not_le _ _ H E).
Qed.

Lemma Qltb_ge : forall a b, Qltb a b = false <-> b <= a.
Proof.
  intros a b. unfold Qltb. rewrite negb_false_iff. apply Qle_bool_iff.
Qed.

Lemma Qltb_compat : forall a a' b b', a == a' -> b == b' -> Qltb a b = Qltb a' b'.
Proof.
  intros a a' b b' Ha Hb.
  destruct (Qltb a b) eqn:E1, (Qltb a' b') eqn:E2; try reflexivity.
  - apply Qltb_lt in E1. apply Qltb_ge in E2. rewrite Ha, Hb in E1.
    exfalso. exact (Qlt_not_le _ _ E1 E2).
  - apply Qltb_ge in E1. apply Qltb_lt in E2. rewrite <- Ha, <- Hb in E2.
    exfalso. exact (Qlt_not_le _ _ E2 E1).
Qed.

Lemma FMath_Clamp_compat : forall x y lo hi, x == y ->
  FMath_Clamp x lo hi == FMath_Clamp y lo hi.
Proof.
  intros x y lo hi Hxy. unfold FMath_Clamp, FMath_Max, FMath_Min.
  rewrite (Qltb_compat x y hi hi Hxy (Qeq_refl hi)).
  destruct (Qltb y hi).
  - rewrite (Qltb_compat lo lo x y (Qeq_refl lo) Hxy).
    destruct (Qltb lo y); [exact Hxy | reflexivity].
  - reflexivity.
Qed.

Lemma FMath_Clamp_range : forall x lo hi, lo <= hi ->
  lo <= FMath_Clamp x lo hi /\ FMath_Clamp x lo hi <= hi.
Proof.
  intros x lo hi Hlh. unfold FMath_Clamp, FMath_Max, FMath_Min.
  destruct (Qltb x hi) eqn:E1.
  - destruct (Qltb lo x) eqn:E2.
    + apply Qltb_lt in E1, E2. split; apply Qlt_le_weak; assumption.
    + split; [apply Qle_refl | exact Hlh].
  - destruct (Qltb lo hi) eqn:E2.
    + split; [exact Hlh | apply Qle_refl].
    + split; [apply Qle_refl | exact Hlh].
Qed.

(** Inside the interval the clamp is the identity; outside it is the nearer
    bound. *)
Lemma FMath_Clamp_cases : forall x lo hi, lo <= hi ->
  (x < lo /\ FMath_Clamp x lo hi = lo) \/
  (lo <= x <= hi /\ FMath_Clamp x lo hi == x) \/
  (hi < x /\ FMath_Clamp x lo hi == hi).
Proof.
  intros x lo hi Hlh. unfold FMath_Clamp, FMath_Max, FMath_Min.
  destruct (Qltb x hi) eqn:E1.
  - destruct (Qltb lo x) eqn:E2.
    + right; left. apply Qltb_lt in E1, E2.
      split; [split; apply Qlt_le_weak; assumption | reflexivity].
    + apply Qltb_ge in E2. destruct (Qle_lt_or_eq _ _ E2) as [Hlt | Heq].
      * left. split; [exact Hlt | reflexivity].
      * right; left. split; [|symmetry; exact Heq].
        split; [rewrite Heq; apply Qle_refl | rewrite Heq; exact Hlh].
  - apply Qltb_ge in E1. destruct (Qltb lo hi) eqn:E2.
    + destruct (Qle_lt_or_eq _ _ E1) as [Hlt | Heq].
      * right; right. split; [exact Hlt | reflexivity].
      * right; left. split; [|exact Heq].
        split; [rewrite <- Heq; exact Hlh | rewrite Heq; apply Qle_refl].
    + apply Qltb_ge in E2.
      assert (Heq : lo == hi) by (apply Qle_antisym; assumption).
      destruct (Qle_lt_or_eq _ _ E1) as [Hlt | Hxe].
      * right; right. split; [exact Hlt | exact Heq].
      * right; left. split; [|rewrite Heq; exact Hxe].
        split; [rewrite <- Hxe; exact Hlh | rewrite Hxe; apply Qle_refl].
Qed.

Lemma V2_eq_refl : forall a, V2_eq a a.
Proof. intro a; split; reflexivity. Qed.

Lemma V2_eq_sym : forall a b, V2_eq a b -> V2_eq b a.
Proof. intros a b [H1 H2]; split; symmetry; assumption. Qed.

Lemma V2_eq_trans : forall a b c, V2_eq a b -> V2_eq b c -> V2_eq a c.
Proof. intros a b c [H1 H2] [H3 H4]; split; etransitivity; eassumption. Qed.

Lemma V2_add_compat : forall a a' b b', V2_eq a a' -> V2_eq b b' ->
  V2_eq (V2_add a b) (V2_add a' b').
Proof.
  intros a a' b b' [H1 H2] [H3 H4]. split; simpl.
  - rewrite H1, H3; reflexivity.
  - rewrite H2, H4; reflexivity.
Qed.

Lemma ClampAxis_compat : forall a b, V2_eq a b -> V2_eq (ClampAxis a) (ClampAxis b).
Proof.
  intros a b [H1 H2]. split; simpl; apply FMath_Clamp_compat; assumption.
Qed.

(** ** The sweep loop keeps the live entries and sums them *)

Lemma last_or_nil : forall {A : Type} (l : list A),
  l = [] \/ exists q z, l = q ++ [z].
Proof.
  intros A l. destruct l as [|a l]; [left; reflexivity | right].
  destruct (@exists_last A (a :: l)) as [q [z E]]; [discriminate|].
  exists q, z. exact E.
Qed.

Section SweepFacts.
Variable A : Type.
Variable vec : A -> FVector2D.
Variable expiry : A -> Q.
Variable Now : Q.

Lemma sum_vectors_app : forall l1 l2,
  V2_eq (sum_vectors vec (l1 ++ l2))
        (V2_add (sum_vectors vec l1) (sum_vectors vec l2)).
Proof.
  induction l1 as [|a l1 IH]; intro l2; simpl.
  - split; simpl; ring.
  - destruct (IH l2) as [H1 H2]. split; simpl; [rewrite H1 | rewrite H2]; simpl; ring.
Qed.

Lemma sum_vectors_perm : forall l1 l2, Permutation l1 l2 ->
  V2_eq (sum_vectors vec l1) (sum_vectors vec l2).
Proof.
  induction 1 as [| a l l' _ IH | a b l | l l' l'' _ IH1 _ IH2].
  - apply V2_eq_refl.
  - apply V2_add_compat; [apply V2_eq_refl | exact IH].
  - split; simpl; ring.
  - eapply V2_eq_trans; eassumption.
Qed.

Lemma SweepLoop_spec : forall n pre done Sum,
  length pre = n ->
  exists kept Sum',
    SweepLoop vec expiry Now n (pre ++ done) Sum = (kept, Sum') /\
    Permutation kept (filter (alive expiry Now) pre ++ done) /\
    V2_eq Sum' (V2_add Sum (sum_vectors vec (filter (alive expiry Now) pre))).
Proof.
  induction n as [|i IH]; intros pre done Sum Hlen.
  - destruct pre; [|discriminate]. simpl.
    exists done, Sum. repeat split; simpl; try ring. apply Permutation_refl.
  - destruct (exists_last (l := pre)) as [pre' [a Hpre]].
    { intro E; subst pre; discriminate. }
    subst pre. rewrite length_app in Hlen. simpl in Hlen.
    assert (Hi : length pre' = i) by lia.
    rewrite <- app_assoc. simpl.
    assert (Hnth : nth_error (pre' ++ a :: done) i = Some a).
    { rewrite nth_error_app2 by lia. rewrite Hi, Nat.sub_diag. reflexivity. }
    rewrite Hnth. rewrite filter_app. simpl.
    assert (Ha : alive expiry Now a = negb (Qle_bool (expiry a) Now)) by reflexivity.
    rewrite Ha. clear Ha.
    destruct (Qle_bool (expiry a) Now) eqn:E; simpl.
    + rewrite app_nil_r.
      destruct (last_or_nil done) as [-> | [q [z ->]]].
      * rewrite <- Hi, RemoveAtSwap_last, Hi.
        destruct (IH pre' [] Sum Hi) as [kept [Sum' [H1 [H2 H3]]]].
        rewrite app_nil_r in H1. exists kept, Sum'. auto.
      * rewrite <- Hi, RemoveAtSwap_middle, Hi.
        destruct (IH pre' (z :: q) Sum Hi) as [kept [Sum' [H1 [H2 H3]]]].
        exists kept, Sum'. repeat split; try assumption; try apply H3.
        eapply Permutation_trans; [exact H2|].
        apply Permutation_app_head.
        apply Permutation_cons_append.
    + destruct (IH pre' (a :: done) (V2_add Sum (vec a)) Hi)
        as [kept [Sum' [H1 [H2 H3]]]].
      exists kept, Sum'. split; [exact H1|]. split.
      * rewrite <- app_assoc. exact H2.
      * eapply V2_eq_trans; [exact H3|].
        eapply V2_eq_trans; [|apply V2_add_compat;
          [apply V2_eq_refl | apply V2_eq_sym, sum_vectors_app]].
        split; simpl; ring.
Qed.

Lemma Sweep_spec : forall Actions,
  Permutation (fst (Sweep vec expiry Now Actions)) (filter (alive expiry Now) Actions) /\
  V2_eq (snd (Sweep vec expiry Now Actions))
        (sum_vectors vec (filter (alive expiry Now) Actions)).
Proof.
  intro Actions. unfold Sweep.
  destruct (SweepLoop_spec (length Actions) Actions [] ZeroVector2D eq_refl)
    as [kept [Sum' [H1 [H2 H3]]]].
  rewrite app_nil_r in H1, H2. rewrite H1. simpl. split; [exact H2|].
  eapply V2_eq_trans; [exact H3|]. split; simpl; ring.
Qed.
End SweepFacts.

Lemma FMath_Clamp_unit : forall x, FMath_Clamp x (-1) 1 == clamp_unit x.
Proof.
  intro x. unfold clamp_unit.
  assert (Hb : -1 <= 1) by (unfold Qle; simpl; lia).
  destruct (FMath_Clamp_cases x (-1) 1 Hb) as [[H1 H2] | [[[H1 H1'] H2] | [H1 H2]]];
    rewrite H2.
  - rewrite Q.max_l; [reflexivity|].
    eapply Qle_trans; [apply Q.le_min_l | apply Qlt_le_weak; exact H1].
  - rewrite Q.min_l by exact H1'. rewrite Q.max_r by exact H1. reflexivity.
  - rewrite Q.min_r by (apply Qlt_le_weak; exact H1).
    rewrite Q.max_r by exact Hb. reflexivity.
Qed.

(** ** The move pool of a resolve pass *)

Lemma ApplyScheduledActions_MoveActions : forall Delta Now E s,
  MoveActions (fst (ApplyScheduledActions Delta Now E s))
  = fst (Sweep Axis EndTime Now (MoveActions s)).
Proof.
  intros Delta Now E s. unfold ApplyScheduledActions.
  destruct (Sweep Axis EndTime Now (MoveActions s)) as [ma ms].
  destruct (Sweep Rate LookEndTime Now (LookActions s)) as [la ls].
  destruct (Strands_GetControlledCharacter (GetWorld E)) as [C|]; simpl.
  - destruct (0 <? PendingJumpCount s)%Z; reflexivity.
  - reflexivity.
Qed.

(** With a character possessed and a move axis that is not nearly zero, the
    pass opens with the two movement inputs, scaled by the resolved axis. *)
Lemma ApplyScheduledActions_applies_axis : forall Delta Now E s C,
  Strands_GetControlledCharacter (GetWorld E) = Some C ->
  let MoveAxis := ClampAxis (snd (Sweep Axis EndTime Now (MoveActions s))) in
  IsNearlyZero MoveAxis = false ->
  exists rest,
    snd (ApplyScheduledActions Delta Now E s)
    = AddMovementInput (GetActorForwardVector (AsPawn C)) (X MoveAxis)
      :: AddMovementInput (GetActorRightVector (AsPawn C)) (Y MoveAxis) :: rest.
Proof.
  intros Delta Now E s C HC MoveAxis Hnz. unfold ApplyScheduledActions.
  subst MoveAxis.
  destruct (Sweep Axis EndTime Now (MoveActions s)) as [ma ms].
  destruct (Sweep Rate LookEndTime Now (LookActions s)) as [la ls].
  rewrite HC. simpl in Hnz |- *. rewrite Hnz. simpl.
  destruct (0 <? PendingJumpCount s)%Z; simpl; eexists; reflexivity.
Qed.

(** P2 of the specification: Move(2, 0) and Move(0, -3) with overlapping
    windows resolve to the axis (1, -1). *)
Example P2_clamp : forall Delta E,
  let s := set_MoveActions [mkMoveAction (mkVector2D 2 0) 10; mkMoveAction (mkVector2D 0 (-3)) 12]
             (InitialSubsystem DefaultSettings) in
  ClampAxis (snd (Sweep Axis EndTime 5 (MoveActions s))) = mkVector2D 1 (-1) /\
  length (MoveActions (fst (ApplyScheduledActions Delta 5 E s))) = 2%nat.
Proof.
  intros Delta E s. split; [reflexivity|].
  rewrite ApplyScheduledActions_MoveActions. reflexivity.
Qed.

(** ** C2: the jump counter *)

Lemma JumpCount_app : forall e1 e2, JumpCount (e1 ++ e2) = (JumpCount e1 + JumpCount e2)%nat.
Proof.
  intros e1 e2. unfold JumpCount. rewrite filter_app, length_app. reflexivity.
Qed.

Lemma JumpCount_repeat : forall k, JumpCount (repeat CharacterJump k) = k.
Proof.
  induction k as [|k IH]; [reflexivity|].
  unfold JumpCount in *. simpl. rewrite IH. reflexivity.
Qed.

Lemma ProcessLine_jump : forall Now E s,
  ProcessLine Now E JumpLine s
  = (set_PendingJumpCount (wrap32 (PendingJumpCount s + 1)) s, []).
Proof. intros Now E s. reflexivity. Qed.

Lemma ApplyScheduledActions_jumps : forall Delta Now E s,
  let r := ApplyScheduledActions Delta Now E s in
  match Strands_GetControlledCharacter (GetWorld E) with
  | Some _ =>
      JumpCount (snd r) = Z.to_nat (PendingJumpCount s) /\
      PendingJumpCount (fst r)
      = (if (0 <? PendingJumpCount s)%Z then 0 else PendingJumpCount s)%Z
  | None =>
      JumpCount (snd r) = 0%nat /\ PendingJumpCount (fst r) = PendingJumpCount s
  end.
Proof.
  intros Delta Now E s. unfold ApplyScheduledActions.
  destruct (Sweep Axis EndTime Now (MoveActions s)) as [ma ms].
  destruct (Sweep Rate LookEndTime Now (LookActions s)) as [la ls].
  destruct (Strands_GetControlledCharacter (GetWorld E)) as [C|]; simpl.
  - destruct (0 <? PendingJumpCount s)%Z eqn:Hpos; simpl.
    + split; [|reflexivity].
      rewrite !JumpCount_app, JumpCount_repeat.
      destruct (IsNearlyZero (ClampAxis ms)), (IsNearlyZero ls);
        unfold JumpCount; simpl; lia.
    + split; [|reflexivity].
      apply Z.ltb_ge in Hpos.
      replace (Z.to_nat (PendingJumpCount s)) with 0%nat by lia.
      rewrite JumpCount_app.
      destruct (IsNearlyZero (ClampAxis ms)), (IsNearlyZero ls); reflexivity.
  - split; [|reflexivity].
    destruct (Strands_GetControlledPawn (GetWorld E)); [|reflexivity].
    destruct (IsNearlyZero ls); reflexivity.
Qed.

(** C2, as the code has it. A resolve pass that finds a character possessed
    applies the pending jumps, as many as the counter says when it is
    positive, and leaves the counter at 0: one Jump ingested on an empty
    counter is applied once by the next pass and not again by the pass after
    it.  A resolve pass that finds no character applies no jump and leaves
    the counter as it was. *)
Theorem C2_jump_counter_needs_character : forall (Delta Now : Q) (E : FEngine)
    (s : UStrandsInputServerSubsystem),
  let r := ApplyScheduledActions Delta Now E s in
  let n := PendingJumpCount s in
  match Strands_GetControlledCharacter (GetWorld E) with
  | Some _ =>
      JumpCount (snd r) = Z.to_nat n /\
      PendingJumpCount (fst r) = (if (0 <? n)%Z then 0 else n)%Z /\
      (let s1 := fst (ProcessLine Now E JumpLine (set_PendingJumpCount 0 s)) in
       let r1 := ApplyScheduledActions Delta Now E s1 in
       let r2 := ApplyScheduledActions Delta Now E (fst r1) in
       JumpCount (snd r1) = 1%nat /\ PendingJumpCount (fst r1) = 0%Z /\
       JumpCount (snd r2) = 0%nat /\ PendingJumpCount (fst r2) = 0%Z)
  | None =>
      JumpCount (snd r) = 0%nat /\ PendingJumpCount (fst r) = n
  end.
Proof.
  intros Delta Now E s r n.
  pose proof (ApplyScheduledActions_jumps Delta Now E s) as H0.
  set (s1 := fst (ProcessLine Now E JumpLine (set_PendingJumpCount 0 s))).
  assert (Hs1 : PendingJumpCount s1 = 1%Z) by reflexivity.
  pose proof (ApplyScheduledActions_jumps Delta Now E s1) as H1.
  set (r1 := ApplyScheduledActions Delta Now E s1) in *.
  pose proof (ApplyScheduledActions_jumps Delta Now E (fst r1)) as H2.
  set (r2 := ApplyScheduledActions Delta Now E (fst r1)) in *.
  destruct (Strands_GetControlledCharacter (GetWorld E)) as [C|]; [|exact H0].
  destruct H0 as [H0a H0b]. split; [exact H0a|]. split; [exact H0b|].
  cbv zeta in H1, H2 |- *.
  destruct H1 as [H1a H1b]. rewrite Hs1 in H1a, H1b.
  change (JumpCount (snd r1) = 1%nat) in H1a.
  change (PendingJumpCount (fst r1) = 0%Z) in H1b.
  destruct H2 as [H2a H2b]. rewrite H1b in H2a, H2b.
  repeat split; assumption.
Qed.

(** The claim as the specification words it fails with no character
    possessed: the pass leaves the counter at 1 and applies nothing, and the
    jump is applied by a later pass, once a character is possessed. *)
Lemma C2_counter_kept_without_character :
  let s1 := fst (ProcessLine 0 Engine_NoPawn JumpLine (InitialSubsystem DefaultSettings)) in
  let r1 := ApplyScheduledActions 1 0 Engine_NoPawn s1 in
  let r2 := ApplyScheduledActions 1 0 Engine_Character (fst r1) in
  PendingJumpCount s1 = 1%Z /\
  PendingJumpCount (fst r1) <> 0%Z /\
  JumpCount (snd r1) = 0%nat /\
  JumpCount (snd r2) = 1%nat.
Proof.
  vm_compute. repeat split; try reflexivity. discriminate.
Qed.

(** ** Decoding: which branch of [ProcessLine] a line takes *)

Lemma FString_eqb_eq : forall a b, FString_eqb a b = true <-> a = b.
Proof.
  intros a b. unfold FString_eqb. rewrite String.eqb_eq. split; intro H.
  - rewrite <- (list_ascii_of_string_of_list_ascii a),
            <- (list_ascii_of_string_of_list_ascii b), H.
    reflexivity.
  - rewrite H. reflexivity.
Qed.

Lemma EqualsIgnoreCase_lower : forall a b,
  EqualsIgnoreCase a b = true -> map ToLower a = map ToLower b.
Proof. intros a b H. apply FString_eqb_eq. exact H. Qed.

Lemma DecodeCommand_sprint : forall E S Obj,
  EqualsIgnoreCase (GetStringField Obj (TEXT "cmd")) (TEXT "sprint") = true ->
  DecodeCommand E S Obj
  = CmdSprint (if HasField Obj (TEXT "enabled")
               then TryGetBoolField Obj (TEXT "enabled") else None).
Proof.
  intros E S Obj H. apply EqualsIgnoreCase_lower in H.
  unfold DecodeCommand, EqualsIgnoreCase. rewrite H. reflexivity.
Qed.

Lemma DecodeCommand_no_cmd : forall E S Obj,
  GetStringField Obj (TEXT "cmd") = [] ->
  DecodeCommand E S Obj = CmdUnknown [].
Proof.
  intros E S Obj H. unfold DecodeCommand. rewrite H. reflexivity.
Qed.

(** [ProcessLine] never touches the registry, the listener, the running
    flag or the settings. *)
Lemma ExecuteCommand_frame : forall Now E c s,
  let s' := fst (ExecuteCommand Now E c s) in
  Clients s' = Clients s /\ Listener s' = Listener s /\
  bRunning s' = bRunning s /\ Settings s' = Settings s.
Proof.
  intros Now E c s. destruct c as [f r d | y p d | | [b|] | o b | o | c];
    simpl; repeat split; reflexivity.
Qed.

Lemma ProcessLine_frame : forall Now E Line s,
  let s' := fst (ProcessLine Now E Line s) in
  Clients s' = Clients s /\ Listener s' = Listener s /\
  bRunning s' = bRunning s /\ Settings s' = Settings s.
Proof.
  intros Now E Line s. unfold ProcessLine.
  destruct (Deserialize Line) as [Obj|].
  - apply ExecuteCommand_frame.
  - simpl. repeat split; reflexivity.
Qed.

(** ** C5: a sprint command without a boolean [enabled] *)

Lemma DecodeCommandWith_sprint : forall TryGetBool E S Obj,
  EqualsIgnoreCase (GetStringField Obj (TEXT "cmd")) (TEXT "sprint") = true ->
  DecodeCommandWith TryGetBool E S Obj
  = CmdSprint (if HasField Obj (TEXT "enabled")
               then TryGetBool Obj (TEXT "enabled") else None).
Proof.
  intros TryGetBool E S Obj H. apply EqualsIgnoreCase_lower in H.
  unfold DecodeCommandWith, EqualsIgnoreCase. rewrite H. reflexivity.
Qed.

(** [ProcessLine] is [ProcessLineWith] at the accessor as the specification
    reads it. *)
Lemma ProcessLineWith_TryGetBoolField : forall Now E Line s,
  ProcessLineWith TryGetBoolField Now E Line s = ProcessLine Now E Line s.
Proof. intros Now E Line s. reflexivity. Qed.

(** C5. A sprint command whose [enabled] field is absent, or present with a
    value that is not a JSON boolean, changes nothing: the subsystem after
    the line is the subsystem before it, sprint latch included, and the line
    has no effect on the engine and logs no warning.

    What the code of [ProcessLine] decides by itself is said for every
    behaviour [TryGetBool] of the engine's accessor: without the field the
    accessor is not called and the line changes nothing; with the field the
    line changes nothing exactly when the accessor fails, and sets the latch
    to the accessor's result otherwise.  That the accessor fails on every
    value that is not a boolean is the reading of the specification
    ([TryGetBoolField]); the first conjunct holds with that reading. *)
Theorem C5_sprint_without_boolean_is_noop : forall (Now : Q) (E : FEngine)
    (Line : FString) (Obj : FJsonObject) (s : UStrandsInputServerSubsystem),
  Deserialize Line = Some Obj ->
  EqualsIgnoreCase (GetStringField Obj (TEXT "cmd")) (TEXT "sprint") = true ->
  match TryGetField Obj (TEXT "enabled") with
  | Some (JBoolean _) => False
  | _ => True
  end ->
  ProcessLine Now E Line s = (s, []) /\
  ProcessLine Now E Line s = ProcessLineWith TryGetBoolField Now E Line s /\
  (forall TryGetBool,
     HasField Obj (TEXT "enabled") = false ->
     ProcessLineWith TryGetBool Now E Line s = (s, [])) /\
  (forall TryGetBool,
     TryGetBool Obj (TEXT "enabled") = None ->
     ProcessLineWith TryGetBool Now E Line s = (s, [])) /\
  (forall TryGetBool b,
     HasField Obj (TEXT "enabled") = true ->
     TryGetBool Obj (TEXT "enabled") = Some b ->
     ProcessLineWith TryGetBool Now E Line s = (set_PendingSprintEnabled (Some b) s, [])).
Proof.
  intros Now E Line Obj s HD HC HE.
  assert (HW : forall TryGetBool,
            ProcessLineWith TryGetBool Now E Line s
            = ExecuteCommand Now E
                (CmdSprint (if HasField Obj (TEXT "enabled")
                            then TryGetBool Obj (TEXT "enabled") else None)) s).
  { intro TryGetBool. unfold ProcessLineWith. rewrite HD.
    rewrite (DecodeCommandWith_sprint TryGetBool E (Settings s) Obj HC). reflexivity. }
  split; [|split; [|split; [|split]]].
  - rewrite <- ProcessLineWith_TryGetBoolField, HW.
    unfold HasField, TryGetBoolField.
    destruct (TryGetField Obj (TEXT "enabled")) as [[| b | q | t | l | o]|];
      try reflexivity.
    contradiction.
  - symmetry. apply ProcessLineWith_TryGetBoolField.
  - intros TryGetBool HF. rewrite HW, HF. reflexivity.
  - intros TryGetBool HT. rewrite HW, HT.
    destruct (HasField Obj (TEXT "enabled")); reflexivity.
  - intros TryGetBool b HF HT. rewrite HW, HF, HT. reflexivity.
Qed.

Lemma C5_witness :
  ProcessLine 0 Engine_Character (JSON "{'cmd':'SPRINT','enabled':'yes'}")
    (set_PendingSprintEnabled (Some false) (InitialSubsystem DefaultSettings))
  = (set_PendingSprintEnabled (Some false) (InitialSubsystem DefaultSettings), []).
Proof.
  refine (proj1 (C5_sprint_without_boolean_is_noop 0 Engine_Character
           (JSON "{'cmd':'SPRINT','enabled':'yes'}")
           [(TEXT "cmd", JString (TEXT "SPRINT")); (TEXT "enabled", JString (TEXT "yes"))]
           _ _ _ _)).
  - vm_compute. reflexivity.
  - vm_compute. reflexivity.
  - simpl. exact I.
Defined.

(** An accessor that reads the number 1 as [true] would set the latch on a
    sprint line whose [enabled] is the number 1: such a line is without
    effect only as far as the accessor fails. *)
Example sprint_enabled_number_with_a_lenient_accessor : forall Now E s,
  let Lenient := fun (o : FJsonObject) (k : FString) =>
    match TryGetField o k with
    | Some (JBoolean b) => Some b
    | Some (JNumber q) => Some (negb (Qeq_bool q 0))
    | _ => None
    end in
  ProcessLineWith Lenient Now E (JSON "{'cmd':'sprint','enabled':1}") s
  = (set_PendingSprintEnabled (Some true) s, []).
Proof. intros. reflexivity. Qed.

Example sprint_enabled_absent : forall Now E s,
  ProcessLine Now E (JSON "{'cmd':'sprint'}") s = (s, []).
Proof. intros. reflexivity. Qed.

Example sprint_enabled_number : forall Now E s,
  ProcessLine Now E (JSON "{'cmd':'sprint','enabled':1}") s = (s, []).
Proof. intros. reflexivity. Qed.

(** ** C7: a line that is no JSON object *)

(** C7. A line the reader does not accept as one JSON object is dropped: the
    subsystem after it is the subsystem before it (pools, jump counter,
    sprint latch, registry), and all the line leaves is a warning in the
    log.  The lines after it are decoded as usual: [not json] followed by a
    jump line, read from a connected socket, yields one command, Jump, and
    the connection stays in the registry. *)
Theorem C7_malformed_line_is_dropped : forall (Now : Q) (E : FEngine)
    (Line : FString) (s : UStrandsInputServerSubsystem),
  Deserialize Line = None ->
  ProcessLine Now E Line s
  = (s, [LogWarning (TEXT "StrandsInputServer: Failed to parse JSON: " ++ Line)]) /\
  (let stream := TEXT "not json" ++ [newline] ++ JumpLine ++ [newline] in
   let r := PollClients (ProcessLine Now E) (OneClient (Settings s) stream SCS_Connected) in
   DecodeLines E (Settings s) (snd (Strands_SplitLines stream [])) = [CmdJump] /\
   Clients (fst r) = [mkClient (Some (mkSocket 1 [] SCS_Connected)) []] /\
   SchedulerState (fst r) = ([], [], 1%Z, None) /\
   snd r = [LogWarning (TEXT "StrandsInputServer: Failed to parse JSON: not json")]).
Proof.
  intros Now E Line s HD. split.
  - unfold ProcessLine. rewrite HD. reflexivity.
  - repeat split; reflexivity.
Qed.

Lemma C7_witness :
  ProcessLine 0 Engine_Character (TEXT "[1, 2]") (InitialSubsystem DefaultSettings)
  = (InitialSubsystem DefaultSettings,
     [LogWarning (TEXT "StrandsInputServer: Failed to parse JSON: [1, 2]")]).
Proof.
  apply (C7_malformed_line_is_dropped 0 Engine_Character (TEXT "[1, 2]")
           (InitialSubsystem DefaultSettings)).
  vm_compute. reflexivity.
Defined.

Example not_json_is_refused : Deserialize (TEXT "not json") = None.
Proof. reflexivity. Qed.

Example scalar_is_refused : Deserialize (TEXT "42") = None.
Proof. reflexivity. Qed.

Example truncated_object_is_refused : Deserialize (JSON "{'cmd':'jump'") = None.
Proof. reflexivity. Qed.

(** ** C10: an object without a [cmd] string *)

(** C10. A line that is a JSON object with no string field [cmd] leaves the
    subsystem as it was and asks for no screenshot and writes no file: it
    takes the final [else] of [ProcessLine], the branch of an unknown command
    name, whose only trace is the warning. *)
Theorem C10_missing_cmd_is_unknown : forall (Now : Q) (E : FEngine)
    (Line : FString) (Obj : FJsonObject) (s : UStrandsInputServerSubsystem),
  Deserialize Line = Some Obj ->
  match TryGetField Obj (TEXT "cmd") with
  | Some (JString _) => False
  | _ => True
  end ->
  ProcessLine Now E Line s
  = (s, [LogWarning (TEXT "StrandsInputServer: Unknown cmd ''")]) /\
  ProcessLine Now E Line s = ExecuteCommand Now E (CmdUnknown []) s /\
  ProcessLine Now E (JSON "{'cmd':'dance'}") s
  = (s, [LogWarning (TEXT "StrandsInputServer: Unknown cmd 'dance'")]).
Proof.
  intros Now E Line Obj s HD HC.
  assert (HG : GetStringField Obj (TEXT "cmd") = []).
  { unfold GetStringField.
    destruct (TryGetField Obj (TEXT "cmd")) as [[| b | q | t | l | o]|];
      try reflexivity.
    contradiction. }
  assert (HP : ProcessLine Now E Line s = ExecuteCommand Now E (CmdUnknown []) s).
  { unfold ProcessLine. rewrite HD.
    rewrite (DecodeCommand_no_cmd E (Settings s) Obj HG). reflexivity. }
  split; [rewrite HP; reflexivity|].
  split; [exact HP | reflexivity].
Qed.

Lemma C10_witness :
  ProcessLine 0 Engine_Character (JSON "{'forward':1,'cmd':5}")
    (InitialSubsystem DefaultSettings)
  = (InitialSubsystem DefaultSettings,
     [LogWarning (TEXT "StrandsInputServer: Unknown cmd ''")]).
Proof.
  apply (C10_missing_cmd_is_unknown 0 Engine_Character (JSON "{'forward':1,'cmd':5}")
           [(TEXT "forward", JNumber 1); (TEXT "cmd", JNumber 5)]
           (InitialSubsystem DefaultSettings)).
  - vm_compute. reflexivity.
  - simpl. exact I.
Defined.

(** ** The sprint latch, one line and one frame at a time *)

Lemma ProcessLine_sprint : forall Now E b s,
  ProcessLine Now E (SprintLine b) s = (set_PendingSprintEnabled (Some b) s, []).
Proof. intros Now E b s. destruct b; reflexivity. Qed.

Lemma ApplyScheduledActions_frame : forall Delta Now E s,
  let s' := fst (ApplyScheduledActions Delta Now E s) in
  PendingSprintEnabled s' = PendingSprintEnabled s /\ Settings s' = Settings s /\
  Clients s' = Clients s /\ Listener s' = Listener s /\ bRunning s' = bRunning s.
Proof.
  intros Delta Now E s. unfold ApplyScheduledActions.
  destruct (Sweep Axis EndTime Now (MoveActions s)) as [ma ms].
  destruct (Sweep Rate LookEndTime Now (LookActions s)) as [la ls].
  destruct (Strands_GetControlledCharacter (GetWorld E)) as [C|]; simpl.
  - destruct (0 <? PendingJumpCount s)%Z; simpl; repeat split; reflexivity.
  - repeat split; reflexivity.
Qed.

Lemma CurrentMaxWalkSpeed_set : forall E v x,
  CurrentMaxWalkSpeed E = Some v ->
  CurrentMaxWalkSpeed (SetMaxWalkSpeed x E) = Some x /\
  exists C, Strands_GetControlledCharacter (GetWorld E) = Some C.
Proof.
  intros E v x H. unfold CurrentMaxWalkSpeed, SetMaxWalkSpeed in *.
  unfold Strands_GetControlledCharacter in *.
  destruct (GetWorld E) as [W|]; [|discriminate].
  destruct (GetFirstPlayerController W) as [PC|]; [|discriminate].
  destruct (GetPawn PC) as [[p|C]|]; try discriminate.
  destruct (GetCharacterMovement C) as [MC|]; [|discriminate].
  simpl. split; [reflexivity | exists C; reflexivity].
Qed.

Lemma PollClients_no_clients : forall h s,
  Clients s = [] -> PollClients h s = (s, []).
Proof. intros h s H. unfold PollClients. rewrite H. reflexivity. Qed.

Lemma Tick_no_clients : forall Delta NowPoll NowApply E s,
  Clients s = [] ->
  Tick Delta NowPoll NowApply E s
  = (fst (ApplySprintIfPending E (fst (ApplyScheduledActions Delta NowApply E s))),
     snd (ApplySprintIfPending E (fst (ApplyScheduledActions Delta NowApply E s))),
     snd (ApplyScheduledActions Delta NowApply E s)).
Proof.
  intros Delta NowPoll NowApply E s H. unfold Tick.
  rewrite (PollClients_no_clients _ s H).
  destruct (bRunning s);
    destruct (ApplyScheduledActions Delta NowApply E s) as [s2 e2]; simpl;
    destruct (ApplySprintIfPending E s2) as [s3 E']; reflexivity.
Qed.

(** Without a character the latch is taken all the same and the command is
    lost: the speed is not set by this frame nor by a later one. *)
Example sprint_without_character_is_lost :
  let s1 := fst (ProcessLine 0 Engine_NoPawn (SprintLine true)
                   (InitialSubsystem DefaultSettings)) in
  let t1 := Tick 1 0 0 Engine_NoPawn s1 in
  let t2 := Tick 1 1 1 Engine_Character (fst (fst t1)) in
  PendingSprintEnabled (fst (fst t1)) = None /\
  CurrentMaxWalkSpeed (snd (fst t2)) = Some 600.
Proof. split; reflexivity. Qed.

(** ** C9: stopping the server *)

Lemma CloseAll_closes : forall cs C Sock,
  In C cs -> Socket C = Some Sock ->
  In (SocketClose (SocketId Sock)) (CloseAll cs) /\
  In (DestroySocket (SocketId Sock)) (CloseAll cs).
Proof.
  induction cs as [|D cs IH]; intros C Sock Hin HS; [contradiction|].
  simpl. destruct Hin as [-> | Hin].
  - rewrite HS. simpl. auto.
  - destruct (IH C Sock Hin HS) as [H1 H2].
    destruct (Socket D); simpl; auto.
Qed.

Lemma ApplyScheduledActions_after_stop : forall Delta Now E s,
  SchedulerState (fst (ApplyScheduledActions Delta Now E (fst (StopServer s))))
  = SchedulerState (fst (ApplyScheduledActions Delta Now E s)) /\
  snd (ApplyScheduledActions Delta Now E (fst (StopServer s)))
  = snd (ApplyScheduledActions Delta Now E s).
Proof.
  intros Delta Now E s. unfold ApplyScheduledActions, StopServer. simpl.
  destruct (Sweep Axis EndTime Now (MoveActions s)) as [ma ms].
  destruct (Sweep Rate LookEndTime Now (LookActions s)) as [la ls].
  destruct (Strands_GetControlledCharacter (GetWorld E)) as [C|]; simpl.
  - destruct (0 <? PendingJumpCount s)%Z; simpl; split; reflexivity.
  - split; reflexivity.
Qed.

Lemma ApplySprintIfPending_frame : forall E s,
  let s' := fst (ApplySprintIfPending E s) in
  PendingSprintEnabled s' = None /\
  MoveActions s' = MoveActions s /\ LookActions s' = LookActions s /\
  PendingJumpCount s' = PendingJumpCount s /\
  Clients s' = Clients s /\ bRunning s' = bRunning s /\ Settings s' = Settings s.
Proof.
  intros E s. unfold ApplySprintIfPending.
  destruct (PendingSprintEnabled s) as [b|] eqn:H; simpl; repeat split; try reflexivity.
  exact H.
Qed.

Lemma ApplySprintIfPending_world : forall E s s',
  PendingSprintEnabled s = PendingSprintEnabled s' ->
  Settings s = Settings s' ->
  snd (ApplySprintIfPending E s) = snd (ApplySprintIfPending E s').
Proof.
  intros E s s' Hp Hs. unfold ApplySprintIfPending. rewrite Hp, Hs.
  destruct (PendingSprintEnabled s'); reflexivity.
Qed.

Lemma Tick_not_running : forall Delta NowPoll NowApply E s,
  bRunning s = false ->
  Tick Delta NowPoll NowApply E s
  = (fst (ApplySprintIfPending E (fst (ApplyScheduledActions Delta NowApply E s))),
     snd (ApplySprintIfPending E (fst (ApplyScheduledActions Delta NowApply E s))),
     snd (ApplyScheduledActions Delta NowApply E s)) /\
  bRunning (fst (fst (Tick Delta NowPoll NowApply E s))) = false.
Proof.
  intros Delta NowPoll NowApply E s H.
  assert (HT : Tick Delta NowPoll NowApply E s
               = (fst (ApplySprintIfPending E (fst (ApplyScheduledActions Delta NowApply E s))),
                  snd (ApplySprintIfPending E (fst (ApplyScheduledActions Delta NowApply E s))),
                  snd (ApplyScheduledActions Delta NowApply E s))).
  { unfold Tick. rewrite H.
    destruct (ApplyScheduledActions Delta NowApply E s) as [s2 e2]. cbn [fst snd].
    destruct (ApplySprintIfPending E s2) as [s3 E']. reflexivity. }
  split; [exact HT|]. rewrite HT. cbn [fst snd].
  destruct (ApplySprintIfPending_frame E (fst (ApplyScheduledActions Delta NowApply E s)))
    as [_ [_ [_ [_ [_ [Hr _]]]]]].
  destruct (ApplyScheduledActions_frame Delta NowApply E s) as [_ [_ [_ [_ Hr2]]]].
  cbv zeta in Hr. rewrite Hr, Hr2. exact H.
Qed.

(** C9. [StopServer] closes and destroys every client socket, empties the
    registry and releases the listener, and leaves the move pool, the look
    pool, the jump counter and the sprint latch as they were.  A frame tick
    after it does not poll, and still runs the resolve pass and the sprint
    latch on that state: it applies what a resolve pass on the state before
    the stop would have applied.  The same holds of every tick while the
    server is not running, and such a tick leaves it not running. *)
Theorem C9_stop_keeps_schedule : forall (s : UStrandsInputServerSubsystem),
  let s' := fst (StopServer s) in
  Clients s' = [] /\ Listener s' = false /\ bRunning s' = false /\
  SchedulerState s' = SchedulerState s /\ Settings s' = Settings s /\
  (forall C Sock, In C (Clients s) -> Socket C = Some Sock ->
     In (SocketClose (SocketId Sock)) (snd (StopServer s)) /\
     In (DestroySocket (SocketId Sock)) (snd (StopServer s))) /\
  forall (Delta NowPoll NowApply : Q) (E : FEngine),
    let t := Tick Delta NowPoll NowApply E s' in
    let r := ApplyScheduledActions Delta NowApply E s in
    snd t = snd r /\
    MoveActions (fst (fst t)) = MoveActions (fst r) /\
    LookActions (fst (fst t)) = LookActions (fst r) /\
    PendingJumpCount (fst (fst t)) = PendingJumpCount (fst r) /\
    PendingSprintEnabled (fst (fst t)) = None /\
    snd (fst t) = snd (ApplySprintIfPending E (fst r)) /\
    Clients (fst (fst t)) = [] /\ bRunning (fst (fst t)) = false /\
    forall s2, bRunning s2 = false ->
      Tick Delta NowPoll NowApply E s2
      = (fst (ApplySprintIfPending E (fst (ApplyScheduledActions Delta NowApply E s2))),
         snd (ApplySprintIfPending E (fst (ApplyScheduledActions Delta NowApply E s2))),
         snd (ApplyScheduledActions Delta NowApply E s2)) /\
      bRunning (fst (fst (Tick Delta NowPoll NowApply E s2))) = false.
Proof.
  intro s. cbv zeta.
  split; [reflexivity|]. split; [reflexivity|]. split; [reflexivity|].
  split; [reflexivity|]. split; [reflexivity|].
  split; [intros C Sock; apply CloseAll_closes|].
  intros Delta NowPoll NowApply E.
  pose proof (Tick_not_running Delta NowPoll NowApply E) as Hlater.
  rewrite (Tick_no_clients Delta NowPoll NowApply E (fst (StopServer s)) eq_refl).
  destruct (ApplyScheduledActions_after_stop Delta NowApply E s) as [Hsched Heff].
  destruct (ApplyScheduledActions_frame Delta NowApply E (fst (StopServer s)))
    as [Hl [Hset [Hcl [_ Hrun]]]].
  destruct (ApplyScheduledActions_frame Delta NowApply E s) as [Hl0 [Hset0 _]].
  set (a := fst (ApplyScheduledActions Delta NowApply E (fst (StopServer s)))) in *.
  set (r := ApplyScheduledActions Delta NowApply E s) in *.
  unfold SchedulerState in Hsched. injection Hsched as Hm Hk Hj Hp.
  change (Settings (fst (StopServer s))) with (Settings s) in Hset.
  change (Clients (fst (StopServer s))) with (@nil FStrandsClientState) in Hcl.
  change (bRunning (fst (StopServer s))) with false in Hrun.
  destruct (ApplySprintIfPending_frame E a) as [F1 [F2 [F3 [F4 [F5 [F6 F7]]]]]].
  cbv zeta in F1, F2, F3, F4, F5, F6, F7.
  cbn [fst snd].
  split; [exact Heff|].
  split; [rewrite F2; exact Hm|].
  split; [rewrite F3; exact Hk|].
  split; [rewrite F4; exact Hj|].
  split; [exact F1|].
  split; [apply ApplySprintIfPending_world; [exact Hp | rewrite Hset, Hset0; reflexivity]|].
  split; [rewrite F5; exact Hcl|].
  split; [rewrite F6; exact Hrun|].
  exact Hlater.
Qed.

(** ** C8: the probes of the state snapshot *)

Lemma controlled_pawn_of_character : forall World,
  match Strands_GetControlledCharacter World with
  | Some C => Some (AsPawn C)
  | None => Strands_GetControlledPawn World
  end = Strands_GetControlledPawn World.
Proof.
  intros [W|]; [|reflexivity]. simpl.
  destruct (GetFirstPlayerController W) as [PC|]; [|reflexivity].
  destruct (GetPawn PC) as [[p|c]|]; reflexivity.
Qed.

Lemma TraceDist_reports : forall World Start Dir Range,
  ProbeReports World Start Dir Range (TraceDist World Start Dir Range).
Proof.
  intros World Start Dir Range. unfold ProbeReports, TraceDist.
  destruct (LineTraceSingleByChannel World Start (V_add Start (V_scale Dir Range)));
    reflexivity.
Qed.

Lemma BlockedForward_iff : forall T,
  BlockedForward T = true <-> 0 < ForwardWaist T /\ ForwardWaist T < 100.
Proof.
  intro T. unfold BlockedForward. rewrite andb_true_iff, !Qltb_lt. reflexivity.
Qed.

Lemma BuildWorldState_traces : forall Now W,
  let World := Some W in
  let Root := BuildWorldState Now [] World in
  let T := RunTraces W (Strands_GetControlledPawn World) (Strands_GetControlledCharacter World) in
  SnapshotAt ["trace"; "forward"; "knee"]%string Root = Some (JNumber (ForwardKnee T)) /\
  SnapshotAt ["trace"; "forward"; "waist"]%string Root = Some (JNumber (ForwardWaist T)) /\
  SnapshotAt ["trace"; "forward"; "chest"]%string Root = Some (JNumber (ForwardChest T)) /\
  SnapshotAt ["trace"; "left"; "waist"]%string Root = Some (JNumber (LeftWaist T)) /\
  SnapshotAt ["trace"; "right"; "waist"]%string Root = Some (JNumber (RightWaist T)) /\
  SnapshotAt ["trace"; "down"; "dist"]%string Root = Some (JNumber (DownDist T)) /\
  SnapshotAt ["blocked"; "forward"]%string Root = Some (JBoolean (BlockedForward T)).
Proof.
  intros Now W World Root T. unfold Root, T, World, BuildWorldState.
  rewrite controlled_pawn_of_character.
  set (Ch := Strands_GetControlledCharacter (Some W)).
  set (Pw := Strands_GetControlledPawn (Some W)).
  set (TT := RunTraces W Pw Ch).
  destruct Pw as [P|]; repeat split; reflexivity.
Qed.

(** C8, as the code has it. In a snapshot built while a pawn is possessed,
    each of the six probes reports the distance of the nearest obstruction
    on its line, or its own maximum range (200 forward and sideways, 300
    down) when nothing is hit, and [blocked.forward] is true exactly when the
    forward waist distance is above 0 and below 100; with nothing in range
    every distance is the probe's maximum range and [blocked.forward] is
    false.  In a snapshot built while no pawn is possessed no probe is run:
    the six distances are reported as 0 and [blocked.forward] is false. *)
Theorem C8_probes_of_possessed_pawn : forall (Now : Q) (W : UWorld),
  let World := Some W in
  let Character := Strands_GetControlledCharacter World in
  let Root := BuildWorldState Now [] World in
  let T := RunTraces W (Strands_GetControlledPawn World) Character in
  (SnapshotAt ["trace"; "forward"; "knee"]%string Root = Some (JNumber (ForwardKnee T)) /\
   SnapshotAt ["trace"; "forward"; "waist"]%string Root = Some (JNumber (ForwardWaist T)) /\
   SnapshotAt ["trace"; "forward"; "chest"]%string Root = Some (JNumber (ForwardChest T)) /\
   SnapshotAt ["trace"; "left"; "waist"]%string Root = Some (JNumber (LeftWaist T)) /\
   SnapshotAt ["trace"; "right"; "waist"]%string Root = Some (JNumber (RightWaist T)) /\
   SnapshotAt ["trace"; "down"; "dist"]%string Root = Some (JNumber (DownDist T)) /\
   SnapshotAt ["blocked"; "forward"]%string Root = Some (JBoolean (BlockedForward T))) /\
  (BlockedForward T = true <-> 0 < ForwardWaist T /\ ForwardWaist T < 100) /\
  match Strands_GetControlledPawn World with
  | Some P =>
      let Base := GetActorLocation P in
      let Up := GetActorUpVector P in
      let Fwd := GetActorForwardVector P in
      let Right := GetActorRightVector P in
      let At := fun Height => V_add Base (V_scale Up (Height - HalfHeightOf Character)) in
      ProbeReports W (At 50) Fwd 200 (ForwardKnee T) /\
      ProbeReports W (At 90) Fwd 200 (ForwardWaist T) /\
      ProbeReports W (At 140) Fwd 200 (ForwardChest T) /\
      ProbeReports W (At 90) (V_neg Right) 200 (LeftWaist T) /\
      ProbeReports W (At 90) Right 200 (RightWaist T) /\
      ProbeReports W Base (V_neg Up) 300 (DownDist T) /\
      ((forall Start End, LineTraceSingleByChannel W Start End = None) ->
       T = mkTraces 200 200 200 200 200 300 /\ BlockedForward T = false)
  | None =>
      T = mkTraces 0 0 0 0 0 0 /\ BlockedForward T = false
  end.
Proof.
  intros Now W World Character Root T.
  split; [apply BuildWorldState_traces|].
  split; [apply BlockedForward_iff|].
  unfold T. destruct (Strands_GetControlledPawn World) as [P|].
  - cbv zeta. unfold RunTraces. cbn [ForwardKnee ForwardWaist ForwardChest LeftWaist RightWaist DownDist].
    fold (HalfHeightOf Character).
    repeat (split; [apply TraceDist_reports|]).
    intro Hnone. unfold TraceDist. rewrite !Hnone. split; reflexivity.
  - split; reflexivity.
Qed.

(** The claim as the specification words it fails for a snapshot built with
    no pawn possessed: nothing is hit, and yet every probe is reported at
    distance 0, not at its maximum range. *)
Lemma C8_no_pawn_reports_zero :
  let Root := BuildWorldState 0 [] (GetWorld Engine_NoPawn) in
  (forall Start End, NoHit Start End = None) /\
  SnapshotAt ["trace"; "forward"; "knee"]%string Root = Some (JNumber 0) /\
  SnapshotAt ["trace"; "forward"; "waist"]%string Root = Some (JNumber 0) /\
  SnapshotAt ["trace"; "forward"; "chest"]%string Root = Some (JNumber 0) /\
  SnapshotAt ["trace"; "left"; "waist"]%string Root = Some (JNumber 0) /\
  SnapshotAt ["trace"; "right"; "waist"]%string Root = Some (JNumber 0) /\
  SnapshotAt ["trace"; "down"; "dist"]%string Root = Some (JNumber 0) /\
  ~ 0 == RangeFwd /\ ~ 0 == RangeSide /\ ~ 0 == RangeDown.
Proof.
  cbv zeta. split; [reflexivity|].
  repeat (split; [reflexivity|]).
  repeat split; discriminate.
Qed.

(** P7 of the specification. *)
Example P7_snapshot_in_the_open :
  let Root := BuildWorldState 0 [] (GetWorld Engine_Character) in
  SnapshotAt ["pos"]%string Root = Some (JArray [JNumber 10; JNumber 20; JNumber 30]) /\
  SnapshotAt ["rot"; "yaw"]%string Root = Some (JNumber 90) /\
  SnapshotAt ["speed"]%string Root = Some (JNumber 0) /\
  SnapshotAt ["trace"; "forward"; "knee"]%string Root = Some (JNumber 200) /\
  SnapshotAt ["trace"; "forward"; "waist"]%string Root = Some (JNumber 200) /\
  SnapshotAt ["trace"; "forward"; "chest"]%string Root = Some (JNumber 200) /\
  SnapshotAt ["trace"; "left"; "waist"]%string Root = Some (JNumber 200) /\
  SnapshotAt ["trace"; "right"; "waist"]%string Root = Some (JNumber 200) /\
  SnapshotAt ["trace"; "down"; "dist"]%string Root = Some (JNumber 300) /\
  SnapshotAt ["blocked"; "forward"]%string Root = Some (JBoolean false).
Proof. repeat split; reflexivity. Qed.

(** ** The framer *)

Lemma TrimStart_suffix : forall s, exists w, s = w ++ TrimStart s.
Proof.
  induction s as [|c s [w IH]]; [exists []; reflexivity|].
  simpl. destruct (IsWhitespace c).
  - exists (c :: w). simpl. f_equal. exact IH.
  - exists []. reflexivity.
Qed.

Lemma TrimStart_head : forall s c,
  hd_error (TrimStart s) = Some c -> IsWhitespace c = false.
Proof.
  induction s as [|d s IH]; intros c H; [discriminate|].
  simpl in H. destruct (IsWhitespace d) eqn:E.
  - apply IH. exact H.
  - simpl in H. injection H as <-. exact E.
Qed.

Lemma TrimEnd_prefix : forall s, exists w, s = TrimEnd s ++ w.
Proof.
  intro s. unfold TrimEnd. destruct (TrimStart_suffix (rev s)) as [w Hw].
  exists (rev w). rewrite <- rev_app_distr, <- Hw, rev_involutive. reflexivity.
Qed.

Lemma TrimStartAndEnd_framed : forall s,
  TrimStartAndEnd s <> [] -> Framed (TrimStartAndEnd s).
Proof.
  intros s Hne. split; [exact Hne|]. split.
  - intros c Hc. unfold TrimStartAndEnd in *.
    destruct (TrimEnd_prefix (TrimStart s)) as [w Hw].
    destruct (TrimEnd (TrimStart s)) as [|d t] eqn:E; [discriminate|].
    simpl in Hc. injection Hc as <-.
    apply (TrimStart_head s). rewrite Hw. reflexivity.
  - intros c Hc. unfold TrimStartAndEnd, TrimEnd in Hc.
    rewrite rev_involutive in Hc. apply (TrimStart_head _ _ Hc).
Qed.

Lemma last_is_hd_rev : forall (l : FString),
  nth_error l (length l - 1) = hd_error (rev l).
Proof.
  intro l. destruct (last_or_nil l) as [-> | [q [z ->]]]; [reflexivity|].
  rewrite rev_app_distr, length_app. simpl.
  rewrite nth_error_app2 by lia.
  replace (length q + 1 - 1 - length q)%nat with 0%nat by lia. reflexivity.
Qed.

(** On a trimmed line the carriage return test of the source never fires:
    the trim has taken the carriage return already. *)
Lemma StripTrailingCR_framed : forall Line, Framed Line -> StripTrailingCR Line = Line.
Proof.
  intros Line [_ [_ Hlast]]. unfold StripTrailingCR. rewrite last_is_hd_rev.
  destruct (hd_error (rev Line)) as [c|] eqn:E; [|reflexivity].
  destruct (Ascii.eqb_spec c carriage_return) as [-> | _]; [|reflexivity].
  specialize (Hlast _ eq_refl). discriminate.
Qed.

Lemma SplitLinesLoop_framed : forall fuel Accumulator OutLines,
  Forall Framed OutLines ->
  Forall Framed (snd (SplitLinesLoop fuel Accumulator OutLines)).
Proof.
  induction fuel as [|fuel IH]; intros Accumulator OutLines Hout; [exact Hout|].
  simpl. destruct (FindChar newline Accumulator) as [i|]; [|exact Hout].
  destruct (TrimStartAndEnd (firstn i Accumulator)) as [|c t] eqn:E.
  - apply IH. exact Hout.
  - apply IH. apply Forall_app. split; [exact Hout|].
    constructor; [|constructor].
    assert (HF : Framed (c :: t)).
    { rewrite <- E. apply TrimStartAndEnd_framed. rewrite E. discriminate. }
    rewrite (StripTrailingCR_framed _ HF). exact HF.
Qed.

(** ** C4: the stream of P5 *)

(** C4. The byte stream of P5, a jump line ended by a line feed and a move
    line with [forward] 1 ended by a carriage return and a line feed, is
    framed into two lines and decoded into two commands, Jump first and then
    Move with forward 1, right 0 and the configured default move duration;
    read from a socket it leaves one pending jump and one move action, and
    nothing buffered.  Every frame the framer emits, on any input, is
    non-empty and has no whitespace and no carriage return at either end. *)
Theorem C4_two_commands_in_order : forall (Now : Q) (E : FEngine)
    (S : UStrandsInputServerSettings),
  let frames := snd (Strands_SplitLines P5_stream []) in
  let r := PollClients (ProcessLine Now E) (OneClient S P5_stream SCS_Connected) in
  frames = [JumpLine; MoveForwardLine] /\
  fst (Strands_SplitLines P5_stream []) = [] /\
  DecodeLines E S frames = [CmdJump; CmdMove 1 0 (DefaultMoveDuration S)] /\
  SchedulerState (fst r)
  = ([mkMoveAction (mkVector2D 1 0) (Now + FMath_Max 0 (DefaultMoveDuration S))],
     [], 1%Z, None) /\
  Clients (fst r) = [mkClient (Some (mkSocket 1 [] SCS_Connected)) []] /\
  snd r = [] /\
  (forall Accumulator, Forall Framed (snd (Strands_SplitLines Accumulator []))) /\
  (forall Accumulator, ~ In [] (snd (Strands_SplitLines Accumulator []))).
Proof.
  intros Now E S frames r.
  assert (HF : forall Accumulator, Forall Framed (snd (Strands_SplitLines Accumulator []))).
  { intro Accumulator. apply SplitLinesLoop_framed. constructor. }
  repeat (split; [reflexivity|]).
  split; [exact HF|].
  intros Accumulator Hin.
  pose proof (HF Accumulator) as H. rewrite Forall_forall in H.
  destruct (H _ Hin) as [Hne _]. apply Hne. reflexivity.
Qed.

(** Blank lines and padding between the two lines change nothing. *)
Example padded_stream_same_frames :
  snd (Strands_SplitLines
         (TEXT "  " ++ JumpLine ++ [carriage_return; newline; newline] ++ TEXT " "
          ++ [carriage_return; newline] ++ MoveForwardLine ++ TEXT "  " ++ [newline]
          ++ JSON "{'cmd'") [])
  = [JumpLine; MoveForwardLine].
Proof. reflexivity. Qed.

Example command_names_ignore_case : forall E S,
  DecodeLine E S (JSON "{'cmd':'JuMp'}") = Some CmdJump.
Proof. reflexivity. Qed.

(** ** The framer is incremental *)

Lemma FindChar_lt : forall c s i, FindChar c s = Some i -> (i < length s)%nat.
Proof.
  induction s as [|d s IH]; intros i H; [discriminate|].
  simpl in H. destruct (Ascii.eqb d c).
  - injection H as <-. simpl. lia.
  - destruct (FindChar c s) as [j|]; [|discriminate].
    injection H as <-. specialize (IH j eq_refl). simpl. lia.
Qed.

Lemma FindChar_app_found : forall c x y i,
  FindChar c x = Some i -> FindChar c (x ++ y) = Some i.
Proof.
  induction x as [|d x IH]; intros y i H; [discriminate|].
  simpl in *. destruct (Ascii.eqb d c); [exact H|].
  destruct (FindChar c x) as [j|]; [|discriminate].
  rewrite (IH y j eq_refl). exact H.
Qed.

Lemma SplitLinesLoop_fuel : forall f1 f2 acc out,
  (length acc <= f1)%nat -> (length acc <= f2)%nat ->
  SplitLinesLoop f1 acc out = SplitLinesLoop f2 acc out.
Proof.
  induction f1 as [|f1 IH]; intros f2 acc out H1 H2.
  - destruct acc; [|simpl in H1; lia]. destruct f2; reflexivity.
  - destruct f2 as [|f2].
    + destruct acc; [|simpl in H2; lia]. reflexivity.
    + simpl. destruct (FindChar newline acc) as [i|] eqn:E; [|reflexivity].
      apply FindChar_lt in E.
      assert (Hlen : (length (skipn (i + 1) acc) <= f1)%nat /\
                     (length (skipn (i + 1) acc) <= f2)%nat)
        by (rewrite length_skipn; lia).
      destruct Hlen as [Ha Hb].
      destruct (TrimStartAndEnd (firstn i acc)); apply IH; assumption.
Qed.

Lemma SplitLinesLoop_out : forall f acc out,
  SplitLinesLoop f acc out
  = (fst (SplitLinesLoop f acc []), out ++ snd (SplitLinesLoop f acc [])).
Proof.
  induction f as [|f IH]; intros acc out.
  - simpl. rewrite app_nil_r. reflexivity.
  - simpl. destruct (FindChar newline acc) as [i|].
    + destruct (TrimStartAndEnd (firstn i acc)) as [|c t].
      * apply IH.
      * rewrite (IH _ (out ++ _)), (IH _ [_]). simpl.
        rewrite <- app_assoc. reflexivity.
    + simpl. rewrite app_nil_r. reflexivity.
Qed.

(** One turn of the framer, on a text with a line feed at [i]. *)
Lemma Strands_SplitLines_step : forall x i,
  FindChar newline x = Some i ->
  Strands_SplitLines x []
  = (fst (Strands_SplitLines (skipn (i + 1) x) []),
     match TrimStartAndEnd (firstn i x) with
     | [] => []
     | c :: t => [StripTrailingCR (c :: t)]
     end ++ snd (Strands_SplitLines (skipn (i + 1) x) [])).
Proof.
  intros x i H. unfold Strands_SplitLines.
  pose proof (FindChar_lt _ _ _ H) as Hlt.
  destruct (length x) as [|m] eqn:El; [lia|].
  simpl. rewrite H.
  assert (Hf : (length (skipn (i + 1) x) <= m)%nat) by (rewrite length_skipn; lia).
  destruct (TrimStartAndEnd (firstn i x)) as [|c t].
  - rewrite (SplitLinesLoop_fuel m (length (skipn (i + 1) x)) _ [] Hf (le_n _)).
    simpl. destruct (SplitLinesLoop _ _ []); reflexivity.
  - rewrite SplitLinesLoop_out.
    rewrite (SplitLinesLoop_fuel m (length (skipn (i + 1) x)) _ [] Hf (le_n _)).
    reflexivity.
Qed.

Lemma Strands_SplitLines_no_newline : forall x,
  FindChar newline x = None -> Strands_SplitLines x [] = (x, []).
Proof.
  intros x H. unfold Strands_SplitLines.
  destruct (length x); simpl; [reflexivity | rewrite H; reflexivity].
Qed.

(** Framing [x] and then what is left of it followed by [y] gives the lines
    of [x ++ y]: the framer may be fed a stream in pieces. *)
Lemma Strands_SplitLines_app : forall n x y,
  (length x <= n)%nat ->
  Strands_SplitLines (x ++ y) []
  = (fst (Strands_SplitLines (fst (Strands_SplitLines x []) ++ y) []),
     snd (Strands_SplitLines x [])
     ++ snd (Strands_SplitLines (fst (Strands_SplitLines x []) ++ y) [])).
Proof.
  induction n as [|n IH]; intros x y Hn.
  - destruct x; [|simpl in Hn; lia]. simpl.
    destruct (Strands_SplitLines y []); reflexivity.
  - destruct (FindChar newline x) as [i|] eqn:E.
    + pose proof (FindChar_lt _ _ _ E) as Hlt.
      rewrite (Strands_SplitLines_step (x ++ y) i (FindChar_app_found _ _ y _ E)).
      rewrite (Strands_SplitLines_step x i E). cbn [fst snd].
      rewrite firstn_app, skipn_app.
      replace (i - length x)%nat with 0%nat by lia.
      replace (i + 1 - length x)%nat with 0%nat by lia.
      simpl (firstn 0 y). simpl (skipn 0 y). rewrite app_nil_r.
      assert (Hs : (length (skipn (i + 1) x) <= n)%nat) by (rewrite length_skipn; lia).
      rewrite (IH (skipn (i + 1) x) y Hs). cbn [fst snd].
      rewrite app_assoc. reflexivity.
    + rewrite (Strands_SplitLines_no_newline x E). simpl.
      destruct (Strands_SplitLines (x ++ y) []); reflexivity.
Qed.

Lemma Strands_SplitLines_rest : forall n x,
  (length x <= n)%nat -> FindChar newline (fst (Strands_SplitLines x [])) = None.
Proof.
  induction n as [|n IH]; intros x Hn.
  - destruct x; [reflexivity | simpl in Hn; lia].
  - destruct (FindChar newline x) as [i|] eqn:E.
    + pose proof (FindChar_lt _ _ _ E) as Hlt.
      rewrite (Strands_SplitLines_step x i E). cbn [fst].
      apply IH. rewrite length_skipn. lia.
    + rewrite (Strands_SplitLines_no_newline x E). exact E.
Qed.

(** ** Draining a socket reads everything and frames it as one text *)

Lemma RecvChunk_pos : (0 < RecvChunk)%nat.
Proof. unfold RecvChunk. simpl N.to_nat. apply Pos2Nat.is_pos. Qed.

(** No [Recv] asks for more than 64 KiB. *)
Lemma ToRead_bounded : forall PendingSize,
  (N.of_nat (Nat.min PendingSize RecvChunk) <= 65536)%N.
Proof.
  intro n. unfold RecvChunk.
  pose proof (Nat.le_min_r n (N.to_nat 65536)) as H.
  lia.
Qed.

Section DrainFacts.
Variable h : FString -> UStrandsInputServerSubsystem -> UStrandsInputServerSubsystem * list Effect.

Lemma ProcessLines_app : forall l1 l2 s,
  ProcessLines h (l1 ++ l2) s
  = (fst (ProcessLines h l2 (fst (ProcessLines h l1 s))),
     snd (ProcessLines h l1 s) ++ snd (ProcessLines h l2 (fst (ProcessLines h l1 s)))).
Proof.
  induction l1 as [|L l1 IH]; intros l2 s.
  - simpl. destruct (ProcessLines h l2 s); reflexivity.
  - simpl. destruct (h L s) as [s1 e1]. rewrite IH.
    destruct (ProcessLines h l1 s1) as [s2 e2]. simpl.
    rewrite app_assoc. reflexivity.
Qed.

Lemma DrainLoop_empty : forall fuel id st Pend s,
  DrainLoop h fuel (mkSocket id [] st) Pend s = (mkSocket id [] st, Pend, s, []).
Proof. intros [|fuel] id st Pend s; reflexivity. Qed.

Lemma DrainLoop_read : forall fuel id b bs st Pend s,
  let ToRead := Nat.min (length (b :: bs)) RecvChunk in
  let text := Pend ++ map ascii_of_byte (firstn ToRead (b :: bs)) in
  let after := ProcessLines h (snd (Strands_SplitLines text [])) s in
  let next := DrainLoop h fuel (mkSocket id (skipn ToRead (b :: bs)) st)
                (fst (Strands_SplitLines text [])) (fst after) in
  DrainLoop h (S fuel) (mkSocket id (b :: bs) st) Pend s
  = (fst (fst (fst next)), snd (fst (fst next)), snd (fst next), snd after ++ snd next).
Proof.
  intros fuel id b bs st Pend s ToRead text after next.
  assert (Hpos : (1 <= ToRead)%nat).
  { unfold ToRead. apply Nat.min_glb; [simpl; apply le_n_S, Nat.le_0_l | exact RecvChunk_pos]. }
  assert (Hlen : length (firstn ToRead (b :: bs)) = ToRead).
  { apply firstn_length_le. unfold ToRead. apply Nat.le_min_l. }
  change (DrainLoop h (S fuel) (mkSocket id (b :: bs) st) Pend s)
    with (if (0 <? length (firstn ToRead (b :: bs)))%nat
          then let (Pend1, Lines) := Strands_SplitLines text [] in
               let (s1, e1) := ProcessLines h Lines s in
               let '(Sock2, Pend2, s2, e2) :=
                 DrainLoop h fuel (mkSocket id (skipn ToRead (b :: bs)) st) Pend1 s1 in
               (Sock2, Pend2, s2, e1 ++ e2)
          else (mkSocket id (skipn ToRead (b :: bs)) st, Pend, s, [])).
  rewrite Hlen.
  destruct (Nat.ltb_spec 0 ToRead) as [_ | Hbad]; [|lia].
  unfold next, after. clear next after.
  destruct (Strands_SplitLines text []) as [Pend1 Lines]. cbn [fst snd].
  destruct (ProcessLines h Lines s) as [s1 e1]. cbn [fst snd].
  destruct (DrainLoop h fuel (mkSocket id (skipn ToRead (b :: bs)) st) Pend1 s1)
    as [[[Sock2 Pend2] s2] e2].
  reflexivity.
Qed.

Lemma DrainLoop_spec : forall fuel Sock Pend s,
  (length (Incoming Sock) <= fuel)%nat ->
  FindChar newline Pend = None ->
  let text := Pend ++ map ascii_of_byte (Incoming Sock) in
  DrainLoop h fuel Sock Pend s
  = (mkSocket (SocketId Sock) [] (GetConnectionState Sock),
     fst (Strands_SplitLines text []),
     fst (ProcessLines h (snd (Strands_SplitLines text [])) s),
     snd (ProcessLines h (snd (Strands_SplitLines text [])) s)).
Proof.
  induction fuel as [|fuel IH]; intros [id inc st] Pend s Hlen Hnl;
    cbn [Incoming SocketId GetConnectionState] in Hlen |- *.
  - destruct inc; [|simpl in Hlen; lia].
    rewrite DrainLoop_empty. cbn [map]. rewrite app_nil_r.
    rewrite (Strands_SplitLines_no_newline Pend Hnl). reflexivity.
  - destruct inc as [|b bs].
    + rewrite DrainLoop_empty. cbn [map]. rewrite app_nil_r.
      rewrite (Strands_SplitLines_no_newline Pend Hnl). reflexivity.
    + rewrite DrainLoop_read.
      set (ToRead := Nat.min (length (b :: bs)) RecvChunk).
      assert (Hpos : (1 <= ToRead)%nat).
      { unfold ToRead. apply Nat.min_glb;
          [simpl; apply le_n_S, Nat.le_0_l | exact RecvChunk_pos]. }
      set (c1 := map ascii_of_byte (firstn ToRead (b :: bs))).
      set (rest := skipn ToRead (b :: bs)).
      assert (Hrest : (length rest <= fuel)%nat).
      { unfold rest. rewrite length_skipn. lia. }
      assert (Hnl1 : FindChar newline (fst (Strands_SplitLines (Pend ++ c1) [])) = None).
      { apply (Strands_SplitLines_rest (length (Pend ++ c1))). apply le_n. }
      rewrite (IH (mkSocket id rest st) _ _ Hrest Hnl1).
      cbn [Incoming SocketId GetConnectionState fst snd].
      assert (Htext : Pend ++ map ascii_of_byte (b :: bs)
                      = (Pend ++ c1) ++ map ascii_of_byte rest).
      { unfold c1, rest. rewrite <- app_assoc, <- map_app, firstn_skipn. reflexivity. }
      rewrite Htext.
      rewrite (Strands_SplitLines_app (length (Pend ++ c1)) (Pend ++ c1)
                 (map ascii_of_byte rest) (le_n _)).
      cbn [fst snd]. rewrite ProcessLines_app. reflexivity.
Qed.

Lemma DrainSocket_spec : forall Sock Pend s,
  FindChar newline Pend = None ->
  let text := Pend ++ map ascii_of_byte (Incoming Sock) in
  DrainSocket h Sock Pend s
  = (mkSocket (SocketId Sock) [] (GetConnectionState Sock),
     fst (Strands_SplitLines text []),
     fst (ProcessLines h (snd (Strands_SplitLines text [])) s),
     snd (ProcessLines h (snd (Strands_SplitLines text [])) s)).
Proof.
  intros Sock Pend s Hnl. unfold DrainSocket. apply DrainLoop_spec; [apply le_n | exact Hnl].
Qed.
End DrainFacts.

(** ** The poll pass drains every client before it looks at its connection *)

Lemma RemoveAtSwap_perm : forall {A : Type} (p : list A) (a : A) (d : list A),
  exists d', RemoveAtSwap (length p) (p ++ a :: d) = p ++ d' /\ Permutation d' d.
Proof.
  intros A p a d. destruct (last_or_nil d) as [-> | [q [z ->]]].
  - exists []. rewrite RemoveAtSwap_last, app_nil_r. split; [reflexivity | constructor].
  - exists (z :: q). rewrite RemoveAtSwap_middle. split; [reflexivity|].
    apply Permutation_cons_append.
Qed.

Lemma SetAt_middle : forall {A : Type} (p : list A) (a v : A) (d : list A),
  SetAt (length p) v (p ++ a :: d) = p ++ v :: d.
Proof.
  intros A p a v d. unfold SetAt. rewrite length_app. simpl.
  destruct (Nat.ltb_spec (length p) (length p + S (length d))) as [_ | H]; [|lia].
  rewrite firstn_app, firstn_all, Nat.sub_diag. simpl. rewrite app_nil_r.
  f_equal. f_equal. clear. induction p as [|b p IH]; simpl; [reflexivity | exact IH].
Qed.

Lemma set_Clients_same : forall s, set_Clients (Clients s) s = s.
Proof. intros []; reflexivity. Qed.

Section PollFacts.
Variable h : FString -> UStrandsInputServerSubsystem -> UStrandsInputServerSubsystem * list Effect.

(** The line handler does not look at the registry. *)
Hypothesis h_commutes : forall Line cs s,
  h Line (set_Clients cs s) = (set_Clients cs (fst (h Line s)), snd (h Line s)).

Lemma ProcessLines_commutes : forall Lines cs s,
  ProcessLines h Lines (set_Clients cs s)
  = (set_Clients cs (fst (ProcessLines h Lines s)), snd (ProcessLines h Lines s)).
Proof.
  induction Lines as [|L Lines IH]; intros cs s; [reflexivity|].
  simpl. rewrite h_commutes. destruct (h L s) as [s1 e1]. cbn [fst snd].
  rewrite IH. destruct (ProcessLines h Lines s1) as [s2 e2]. reflexivity.
Qed.

Lemma ProcessLines_clients : forall Lines s,
  Clients (fst (ProcessLines h Lines s)) = Clients s.
Proof.
  intros Lines s. rewrite <- (set_Clients_same s) at 1.
  rewrite ProcessLines_commutes. reflexivity.
Qed.

Lemma PollSpec_commutes : forall L cs s,
  PollSpec h L (set_Clients cs s)
  = (set_Clients cs (fst (PollSpec h L s)), snd (PollSpec h L s)).
Proof.
  induction L as [|C L IH]; intros cs s; [reflexivity|].
  simpl. rewrite ProcessLines_commutes.
  destruct (ProcessLines h (FramesOf C) s) as [s1 e1]. cbn [fst snd].
  rewrite IH. destruct (PollSpec h L s1) as [s2 e2]. reflexivity.
Qed.

Lemma PollLoop_spec : forall n pre done s,
  Clients s = pre ++ done ->
  length pre = n ->
  Forall NoLineBuffered pre ->
  exists kept,
    PollLoop h n s
    = (set_Clients kept (fst (PollSpec h (rev pre) s)), snd (PollSpec h (rev pre) s)) /\
    Permutation kept (map Drained (filter StaysConnected pre) ++ done).
Proof.
  induction n as [|i IH]; intros pre done s Hcs Hlen Hnl.
  - destruct pre; [|discriminate]. simpl in Hcs. exists done. simpl.
    rewrite <- Hcs, set_Clients_same. split; [reflexivity | apply Permutation_refl].
  - destruct (last_or_nil pre) as [-> | [pre' [C ->]]]; [discriminate|].
    rewrite length_app in Hlen. simpl in Hlen.
    assert (Hi : i = length pre') by lia. subst i.
    apply Forall_app in Hnl. destruct Hnl as [Hnl' HnlC].
    pose proof (Forall_inv HnlC) as HC.
    rewrite <- app_assoc in Hcs. simpl in Hcs.
    rewrite rev_app_distr, filter_app, map_app.
    change (rev [C] ++ rev pre') with (C :: rev pre').
    cbn [PollLoop PollSpec].
    assert (Hnth : nth_error (Clients s) (length pre') = Some C).
    { rewrite Hcs, nth_error_app2 by lia. rewrite Nat.sub_diag. reflexivity. }
    rewrite Hnth.
    destruct (Socket C) as [Sock|] eqn:ES.
    + unfold NoLineBuffered in HC.
      rewrite (DrainSocket_spec h Sock (Pending C) s HC).
      assert (HF : FramesOf C
                   = snd (Strands_SplitLines (Pending C ++ map ascii_of_byte (Incoming Sock)) [])).
      { unfold FramesOf, TextOf. rewrite ES. reflexivity. }
      assert (HD : Drained C
                   = mkClient (Some (mkSocket (SocketId Sock) [] (GetConnectionState Sock)))
                       (fst (Strands_SplitLines (Pending C ++ map ascii_of_byte (Incoming Sock)) []))).
      { unfold Drained, TextOf. rewrite ES. reflexivity. }
      rewrite <- HF, <- HD.
      assert (HSC : StaysConnected C = IsConnected Sock).
      { unfold StaysConnected. rewrite ES. reflexivity. }
      assert (HCl : ClosingOf C
                    = if IsConnected Sock then []
                      else [SocketClose (SocketId Sock); DestroySocket (SocketId Sock)]).
      { unfold ClosingOf. rewrite ES. reflexivity. }
      change (IsConnected (mkSocket (SocketId Sock) [] (GetConnectionState Sock)))
        with (IsConnected Sock).
      cbn [SocketId].
      pose proof (ProcessLines_clients (FramesOf C) s) as Hc1.
      destruct (ProcessLines h (FramesOf C) s) as [s1 e1]. cbn [fst snd] in Hc1 |- *.
      change (Clients (set_Clients ?x s1)) with x.
      rewrite Hc1, Hcs, SetAt_middle.
      cbn [filter]. rewrite HSC, HCl.
      destruct (IsConnected Sock); cbn [negb].
      * destruct (IH pre' (Drained C :: done) (set_Clients (pre' ++ Drained C :: done) s1)
                    eq_refl eq_refl Hnl') as [kept [Hk Hp]].
        rewrite Hk, PollSpec_commutes. cbn [fst snd].
        exists kept. destruct (PollSpec h (rev pre') s1) as [s2 e2]. cbn [fst snd].
        split; [reflexivity|].
        cbn [map]. rewrite <- app_assoc. exact Hp.
      * destruct (RemoveAtSwap_perm pre' (Drained C) done) as [done' [HR HP]].
        cbn [Clients set_Clients]. rewrite HR.
        destruct (IH pre' done' (set_Clients (pre' ++ done')
                                   (set_Clients (pre' ++ Drained C :: done) s1))
                    eq_refl eq_refl Hnl') as [kept [Hk Hp]].
        rewrite Hk, PollSpec_commutes. cbn [fst snd].
        rewrite PollSpec_commutes. cbn [fst snd].
        exists kept. destruct (PollSpec h (rev pre') s1) as [s2 e2]. cbn [fst snd].
        split; [reflexivity|].
        cbn [map]. rewrite app_nil_r.
        eapply Permutation_trans; [exact Hp|].
        apply Permutation_app_head. exact HP.
    + assert (HF : FramesOf C = []) by (unfold FramesOf; rewrite ES; reflexivity).
      assert (HCl : ClosingOf C = []) by (unfold ClosingOf; rewrite ES; reflexivity).
      assert (HSC : StaysConnected C = false) by (unfold StaysConnected; rewrite ES; reflexivity).
      rewrite HF, HCl. cbn [ProcessLines filter]. rewrite HSC.
      rewrite Hcs.
      destruct (RemoveAtSwap_perm pre' C done) as [done' [HR HP]].
      rewrite HR.
      destruct (IH pre' done' (set_Clients (pre' ++ done') s) eq_refl eq_refl Hnl')
        as [kept [Hk Hp]].
      rewrite Hk, PollSpec_commutes. cbn [fst snd].
      exists kept. destruct (PollSpec h (rev pre') s) as [s2 e2]. cbn [fst snd].
      split; [reflexivity|].
      cbn [map]. rewrite app_nil_r.
      eapply Permutation_trans; [exact Hp|].
      apply Permutation_app_head. exact HP.
Qed.
End PollFacts.

Lemma ExecuteCommand_commutes : forall Now E c cs s,
  ExecuteCommand Now E c (set_Clients cs s)
  = (set_Clients cs (fst (ExecuteCommand Now E c s)), snd (ExecuteCommand Now E c s)).
Proof.
  intros Now E c cs s. destruct c as [f r d | y p d | | [b|] | o b | o | c]; reflexivity.
Qed.

Lemma ProcessLine_commutes : forall Now E Line cs s,
  ProcessLine Now E Line (set_Clients cs s)
  = (set_Clients cs (fst (ProcessLine Now E Line s)), snd (ProcessLine Now E Line s)).
Proof.
  intros Now E Line cs s. unfold ProcessLine.
  destruct (Deserialize Line) as [Obj|]; [|reflexivity].
  change (Settings (set_Clients cs s)) with (Settings s).
  apply ExecuteCommand_commutes.
Qed.

Lemma Drained_no_line : forall C, NoLineBuffered C -> NoLineBuffered (Drained C).
Proof.
  intros C HC. unfold Drained, NoLineBuffered.
  destruct (Socket C); [|exact HC]. simpl.
  apply (Strands_SplitLines_rest (length (TextOf C))). apply le_n.
Qed.

Lemma Drained_nothing_unread : forall C Sock,
  Socket (Drained C) = Some Sock -> Incoming Sock = [].
Proof.
  intros C Sock H. unfold Drained in H.
  destruct (Socket C) as [S0|] eqn:E.
  - simpl in H. injection H as <-. reflexivity.
  - rewrite E in H. discriminate.
Qed.

(** X12. [PollClients] of the CitySample copy, for any registry between two
    frames: going through the clients from the last to the first, it frames
    and handles everything each client has sent, buffered text and unread
    bytes as one stream, and only then closes and destroys the socket of a
    client that is not connected; the registry is left with the connected
    clients, each with nothing unread and no complete line buffered. *)
Theorem PollClients_drains_before_liveness : forall (Now : Q) (E : FEngine)
    (s : UStrandsInputServerSubsystem),
  Forall NoLineBuffered (Clients s) ->
  exists kept,
    PollClients (ProcessLine Now E) s
    = (set_Clients kept (fst (PollSpec (ProcessLine Now E) (rev (Clients s)) s)),
       snd (PollSpec (ProcessLine Now E) (rev (Clients s)) s)) /\
    Permutation kept (map Drained (filter StaysConnected (Clients s))) /\
    Forall NoLineBuffered kept /\
    Forall (fun C => forall Sock, Socket C = Some Sock ->
                       Incoming Sock = [] /\ IsConnected Sock = true) kept.
Proof.
  intros Now E s Hnl.
  destruct (PollLoop_spec (ProcessLine Now E) (ProcessLine_commutes Now E)
              (length (Clients s)) (Clients s) [] s
              (eq_sym (app_nil_r _)) eq_refl Hnl) as [kept [Hk Hp]].
  rewrite app_nil_r in Hp.
  exists kept. split; [exact Hk|]. split; [exact Hp|].
  split; apply Forall_forall; intros C HC;
    apply (Permutation_in _ Hp) in HC; apply in_map_iff in HC;
    destruct HC as [C0 [<- HC0]]; apply filter_In in HC0; destruct HC0 as [Hin Hst].
  - apply Drained_no_line. rewrite Forall_forall in Hnl. apply Hnl. exact Hin.
  - intros Sock HS. split; [apply (Drained_nothing_unread C0 Sock HS)|].
    unfold Drained, StaysConnected in *.
    destruct (Socket C0) as [S0|]; [|discriminate].
    simpl in HS. injection HS as <-. exact Hst.
Qed.

Lemma PollClients_drains_closed_peer :
  exists kept,
    PollClients (ProcessLine 0 Engine_Character)
      (OneClient DefaultSettings (JumpLine ++ [newline]) SCS_NotConnected)
    = (set_Clients kept
         (fst (PollSpec (ProcessLine 0 Engine_Character)
                 (rev (Clients (OneClient DefaultSettings (JumpLine ++ [newline])
                                  SCS_NotConnected)))
                 (OneClient DefaultSettings (JumpLine ++ [newline]) SCS_NotConnected))),
       snd (PollSpec (ProcessLine 0 Engine_Character)
              (rev (Clients (OneClient DefaultSettings (JumpLine ++ [newline])
                               SCS_NotConnected)))
              (OneClient DefaultSettings (JumpLine ++ [newline]) SCS_NotConnected))).
Proof.
  destruct (PollClients_drains_before_liveness 0 Engine_Character
              (OneClient DefaultSettings (JumpLine ++ [newline]) SCS_NotConnected))
    as [kept [Hk _]].
  - repeat constructor.
  - exists kept. exact Hk.
Defined.

(** ** C3: the two copies of [PollClients] *)

(** C3, on the copy of the plugin under MyProject. That copy looks at the
    connection state before it reads: a client that sent a line and closed
    is closed and removed with its bytes unread, whatever they are, and the
    scheduler never sees them.  On the jump line the jump is lost, where the
    CitySample copy, on the same registry, handles the jump first and closes
    the socket after. *)
Theorem C3_MyProject_poll_drops_unread_bytes : forall (Now : Q) (E : FEngine)
    (S : UStrandsInputServerSettings) (stream : FString),
  let s0 := OneClient S stream SCS_NotConnected in
  let old := PollClients_MyProject (ProcessLine_MyProject Now E) s0 in
  let jump := OneClient S (JumpLine ++ [newline]) SCS_NotConnected in
  let old_jump := PollClients_MyProject (ProcessLine_MyProject Now E) jump in
  let new_jump := PollClients (ProcessLine Now E) jump in
  (SchedulerState (fst old) = SchedulerState s0 /\
   Clients (fst old) = [] /\
   snd old = [SocketClose 1; DestroySocket 1]) /\
  (PendingJumpCount (fst old_jump) = 0%Z /\ Clients (fst old_jump) = []) /\
  (PendingJumpCount (fst new_jump) = 1%Z /\ Clients (fst new_jump) = [] /\
   snd new_jump = [SocketClose 1; DestroySocket 1]).
Proof.
  intros Now E S stream s0 old jump old_jump new_jump.
  repeat split; reflexivity.
Qed.

(** A connected client is drained by both copies alike. *)
Example MyProject_poll_reads_connected_client : forall Now E S,
  let s0 := OneClient S (JumpLine ++ [newline]) SCS_Connected in
  PendingJumpCount (fst (PollClients_MyProject (ProcessLine_MyProject Now E) s0)) = 1%Z /\
  PendingJumpCount (fst (PollClients (ProcessLine Now E) s0)) = 1%Z.
Proof. intros. split; reflexivity. Qed.

(** A stream that arrives in two pieces over two frames is framed as the
    whole: the piece after the last line feed waits in the buffer. *)
Example split_delivery_same_commands : forall Now E S,
  let first := firstn 20 P5_stream in
  let second := skipn 20 P5_stream in
  let s1 := fst (PollClients (ProcessLine Now E) (OneClient S first SCS_Connected)) in
  let refill := fun C => match Socket C with
                         | Some Sock => mkClient (Some (mkSocket (SocketId Sock) (bytes_of second)
                                                                 SCS_NotConnected)) (Pending C)
                         | None => C
                         end in
  let s2 := fst (PollClients (ProcessLine Now E) (set_Clients (map refill (Clients s1)) s1)) in
  SchedulerState s2
  = SchedulerState (fst (PollClients (ProcessLine Now E) (OneClient S P5_stream SCS_Connected)))
  /\ Clients s2 = [].
Proof. intros. split; reflexivity. Qed.

(** ** C1: the resolved move axis *)

Lemma filter_repeat_jump : forall (f : Effect -> bool) k,
  f CharacterJump = false -> filter f (repeat CharacterJump k) = [].
Proof.
  intros f k H. induction k as [|k IH]; [reflexivity|]. simpl. rewrite H. exact IH.
Qed.

Lemma Qle_bool_compat : forall a a' b b', a == a' -> b == b' -> Qle_bool a b = Qle_bool a' b'.
Proof.
  intros a a' b b' Ha Hb.
  destruct (Qle_bool a b) eqn:E1, (Qle_bool a' b') eqn:E2; try reflexivity.
  - apply Qle_bool_iff in E1. rewrite Ha, Hb in E1. apply Qle_bool_iff in E1. congruence.
  - apply Qle_bool_iff in E2. rewrite <- Ha, <- Hb in E2. apply Qle_bool_iff in E2. congruence.
Qed.

Lemma IsNearlyZero_compat : forall a b, V2_eq a b -> IsNearlyZero a = IsNearlyZero b.
Proof.
  intros a b [H1 H2]. unfold IsNearlyZero.
  rewrite (Qle_bool_compat (Qabs (X a)) (Qabs (X b)) _ _ (Qabs_wd _ _ H1) (Qeq_refl _)).
  rewrite (Qle_bool_compat (Qabs (Y a)) (Qabs (Y b)) _ _ (Qabs_wd _ _ H2) (Qeq_refl _)).
  reflexivity.
Qed.

(** The movement inputs of a pass: none without a possessed character or
    with a nearly zero axis, else the forward and the right input, scaled by
    the clamped sum the loop has computed. *)
Lemma ApplyScheduledActions_movement_inputs : forall Delta Now E s,
  let MoveAxis := ClampAxis (snd (Sweep Axis EndTime Now (MoveActions s))) in
  filter is_movement_input (snd (ApplyScheduledActions Delta Now E s))
  = match Strands_GetControlledCharacter (GetWorld E) with
    | Some C =>
        if IsNearlyZero MoveAxis then []
        else [AddMovementInput (GetActorForwardVector (AsPawn C)) (X MoveAxis);
              AddMovementInput (GetActorRightVector (AsPawn C)) (Y MoveAxis)]
    | None => []
    end.
Proof.
  intros Delta Now E s MoveAxis. unfold MoveAxis, ApplyScheduledActions.
  rewrite controlled_pawn_of_character.
  destruct (Sweep Axis EndTime Now (MoveActions s)) as [ma ms].
  destruct (Sweep Rate LookEndTime Now (LookActions s)) as [la ls]. cbn [snd].
  destruct (Strands_GetControlledCharacter (GetWorld E)) as [C|].
  - destruct (0 <? PendingJumpCount (set_LookActions la (set_MoveActions ma s)))%Z;
      cbn [snd]; rewrite !filter_app;
      try rewrite (filter_repeat_jump is_movement_input _ eq_refl);
      destruct (IsNearlyZero (ClampAxis ms));
      destruct (Strands_GetControlledPawn (GetWorld E));
      try destruct (IsNearlyZero ls); reflexivity.
  - cbn [snd app].
    destruct (Strands_GetControlledPawn (GetWorld E)); [|reflexivity].
    destruct (IsNearlyZero ls); reflexivity.
Qed.

(** C1. For every pool of move actions and every resolve time [Now], the
    resolved move axis is the componentwise sum of the axes of the actions
    with [Now < EndTime], each component clamped on its own to [-1, 1]; the
    actions with [EndTime <= Now] add nothing and are gone from the pool the
    pass leaves, which holds the live actions and nothing else.

    The axis is read where [ApplyScheduledActions] hands it on: with a
    character possessed and a clamped sum that is not nearly zero, the
    movement inputs of the pass are the forward input and the right input
    of that character and no other, and their scales [ax] and [ay] are the
    two components of the resolved axis; without a character, or with a
    nearly zero axis, the pass gives no movement input.  The last conjunct
    says the same of the axis the loop computes before it looks for a
    character. *)
Theorem C1_resolved_move_axis : forall (Delta Now : Q) (E : FEngine)
    (s : UStrandsInputServerSubsystem),
  let live := live_moves Now (MoveActions s) in
  let r := ApplyScheduledActions Delta Now E s in
  let kept := MoveActions (fst r) in
  match Strands_GetControlledCharacter (GetWorld E) with
  | Some C =>
      if IsNearlyZero (ClampAxis (sum_vectors Axis live))
      then filter is_movement_input (snd r) = []
      else exists ax ay,
             filter is_movement_input (snd r)
             = [AddMovementInput (GetActorForwardVector (AsPawn C)) ax;
                AddMovementInput (GetActorRightVector (AsPawn C)) ay] /\
             ax == clamp_unit (X (sum_vectors Axis live)) /\
             ay == clamp_unit (Y (sum_vectors Axis live)) /\
             -1 <= ax <= 1 /\ -1 <= ay <= 1
  | None => filter is_movement_input (snd r) = []
  end /\
  Permutation kept live /\
  (forall a, In a (MoveActions s) -> EndTime a <= Now -> ~ In a kept) /\
  (forall a, In a kept -> In a (MoveActions s) /\ Now < EndTime a) /\
  (let MoveAxis := ClampAxis (snd (Sweep Axis EndTime Now (MoveActions s))) in
   X MoveAxis == clamp_unit (X (sum_vectors Axis live)) /\
   Y MoveAxis == clamp_unit (Y (sum_vectors Axis live)) /\
   -1 <= X MoveAxis <= 1 /\ -1 <= Y MoveAxis <= 1).
Proof.
  intros Delta Now E s live r kept.
  destruct (Sweep_spec FStrandsMoveAction Axis EndTime Now (MoveActions s)) as [Hperm [HX HY]].
  fold (live_moves Now (MoveActions s)) in Hperm, HX, HY. fold live in Hperm, HX, HY.
  assert (Hb : -1 <= 1) by (unfold Qle; simpl; lia).
  assert (Hkept : Permutation kept live).
  { unfold kept, r. rewrite ApplyScheduledActions_MoveActions. exact Hperm. }
  set (MoveAxis := ClampAxis (snd (Sweep Axis EndTime Now (MoveActions s)))).
  assert (HMX : X MoveAxis == clamp_unit (X (sum_vectors Axis live))).
  { unfold MoveAxis. simpl. rewrite <- FMath_Clamp_unit.
    apply FMath_Clamp_compat. exact HX. }
  assert (HMY : Y MoveAxis == clamp_unit (Y (sum_vectors Axis live))).
  { unfold MoveAxis. simpl. rewrite <- FMath_Clamp_unit.
    apply FMath_Clamp_compat. exact HY. }
  assert (HRX : -1 <= X MoveAxis <= 1).
  { unfold MoveAxis. simpl. apply FMath_Clamp_range; exact Hb. }
  assert (HRY : -1 <= Y MoveAxis <= 1).
  { unfold MoveAxis. simpl. apply FMath_Clamp_range; exact Hb. }
  assert (HZ : IsNearlyZero MoveAxis = IsNearlyZero (ClampAxis (sum_vectors Axis live))).
  { apply IsNearlyZero_compat, ClampAxis_compat. split; assumption. }
  pose proof (ApplyScheduledActions_movement_inputs Delta Now E s) as Hm.
  cbv zeta in Hm. fold MoveAxis in Hm. fold r in Hm.
  split; [|split; [|split; [|split]]].
  - destruct (Strands_GetControlledCharacter (GetWorld E)) as [C|]; [|exact Hm].
    rewrite <- HZ. destruct (IsNearlyZero MoveAxis); [exact Hm|].
    exists (X MoveAxis), (Y MoveAxis).
    split; [exact Hm|]. split; [exact HMX|]. split; [exact HMY|].
    split; [exact HRX | exact HRY].
  - exact Hkept.
  - intros a Hin Hexp Hk.
    apply (Permutation_in _ Hkept) in Hk. unfold live, live_moves in Hk.
    apply filter_In in Hk. destruct Hk as [_ Hk]. apply Qltb_lt in Hk.
    exact (Qlt_not_le _ _ Hk Hexp).
  - intros a Hk.
    apply (Permutation_in _ Hkept) in Hk. unfold live, live_moves in Hk.
    apply filter_In in Hk. destruct Hk as [Hin Hk]. apply Qltb_lt in Hk.
    split; assumption.
  - split; [exact HMX|]. split; [exact HMY|]. split; [exact HRX | exact HRY].
Qed.

(** A character with two overlapping moves, (2, 0) and (0, -3): the frame
    hands it the forward input 1 and the right input -1. *)
Example move_axis_reaches_the_character : forall Delta,
  let s := set_MoveActions [mkMoveAction (mkVector2D 2 0) 10; mkMoveAction (mkVector2D 0 (-3)) 12]
             (InitialSubsystem DefaultSettings) in
  filter is_movement_input (snd (ApplyScheduledActions Delta 5 Engine_Character s))
  = [AddMovementInput (GetActorForwardVector SamplePawn) 1;
     AddMovementInput (GetActorRightVector SamplePawn) (-1)].
Proof. intros Delta. reflexivity. Qed.

(** * Further properties of the subsystem *)

(** ** The look pool and the inputs of a resolve pass *)

Lemma ApplyScheduledActions_LookActions : forall Delta Now E s,
  LookActions (fst (ApplyScheduledActions Delta Now E s))
  = fst (Sweep Rate LookEndTime Now (LookActions s)).
Proof.
  intros Delta Now E s. unfold ApplyScheduledActions.
  destruct (Sweep Axis EndTime Now (MoveActions s)) as [ma ms].
  destruct (Sweep Rate LookEndTime Now (LookActions s)) as [la ls].
  destruct (Strands_GetControlledCharacter (GetWorld E)) as [C|]; simpl.
  - destruct (0 <? PendingJumpCount s)%Z; reflexivity.
  - reflexivity.
Qed.

(** X1. The look rate of a resolve pass is the sum of the rates of the look
    actions with [Now < EndTime], with no clamp; the pass leaves those
    actions in the pool and nothing else.  Whenever a pawn is possessed,
    character or not, and the rate is not nearly zero, the pass sends one yaw
    and one pitch input, the rate times the frame's delta; otherwise it sends
    no look input. *)
Theorem X1_look_rate_is_unclamped_sum : forall (Delta Now : Q) (E : FEngine)
    (s : UStrandsInputServerSubsystem),
  let live := live_looks Now (LookActions s) in
  let LookRate := snd (Sweep Rate LookEndTime Now (LookActions s)) in
  let r := ApplyScheduledActions Delta Now E s in
  V2_eq LookRate (sum_vectors Rate live) /\
  Permutation (LookActions (fst r)) live /\
  IsNearlyZero LookRate = IsNearlyZero (sum_vectors Rate live) /\
  filter is_look_input (snd r)
  = match Strands_GetControlledPawn (GetWorld E) with
    | Some _ =>
        if IsNearlyZero LookRate then []
        else [AddControllerYawInput (X LookRate * Delta);
              AddControllerPitchInput (Y LookRate * Delta)]
    | None => []
    end.
Proof.
  intros Delta Now E s live LookRate r.
  destruct (Sweep_spec FStrandsLookAction Rate LookEndTime Now (LookActions s)) as [Hperm Hsum].
  fold (live_looks Now (LookActions s)) in Hperm, Hsum. fold live in Hperm, Hsum.
  split; [exact Hsum|].
  split; [unfold r; rewrite ApplyScheduledActions_LookActions; exact Hperm|].
  split; [apply IsNearlyZero_compat; exact Hsum|].
  unfold r, LookRate, ApplyScheduledActions.
  rewrite controlled_pawn_of_character.
  destruct (Sweep Axis EndTime Now (MoveActions s)) as [ma ms].
  destruct (Sweep Rate LookEndTime Now (LookActions s)) as [la ls]. cbn [snd].
  destruct (Strands_GetControlledCharacter (GetWorld E)) as [C|].
  - destruct (0 <? PendingJumpCount (set_LookActions la (set_MoveActions ma s)))%Z;
      cbn [snd]; rewrite !filter_app;
      try rewrite (filter_repeat_jump is_look_input _ eq_refl);
      destruct (IsNearlyZero (ClampAxis ms));
      destruct (Strands_GetControlledPawn (GetWorld E));
      try destruct (IsNearlyZero ls); reflexivity.
  - cbn [snd app].
    destruct (Strands_GetControlledPawn (GetWorld E)); [|reflexivity].
    destruct (IsNearlyZero ls); reflexivity.
Qed.

(** X2. A resolve pass sends movement input exactly when a character is
    possessed and the clamped sum of the live move axes is not nearly zero
    (some component above 0.0001 in absolute value): then it sends two
    inputs, along the character's forward and right vectors, scaled by the
    two components of the resolved axis.  Overlapping moves that cancel, an
    empty pool, and a pawn that is no character send none. *)
Theorem X2_movement_input_needs_character_and_axis : forall (Delta Now : Q) (E : FEngine)
    (s : UStrandsInputServerSubsystem),
  let MoveAxis := ClampAxis (snd (Sweep Axis EndTime Now (MoveActions s))) in
  let r := ApplyScheduledActions Delta Now E s in
  IsNearlyZero MoveAxis
  = IsNearlyZero (ClampAxis (sum_vectors Axis (live_moves Now (MoveActions s)))) /\
  filter is_movement_input (snd r)
  = match Strands_GetControlledCharacter (GetWorld E) with
    | Some C =>
        if IsNearlyZero MoveAxis then []
        else [AddMovementInput (GetActorForwardVector (AsPawn C)) (X MoveAxis);
              AddMovementInput (GetActorRightVector (AsPawn C)) (Y MoveAxis)]
    | None => []
    end.
Proof.
  intros Delta Now E s MoveAxis r. split.
  - apply IsNearlyZero_compat, ClampAxis_compat.
    apply (Sweep_spec FStrandsMoveAction Axis EndTime Now (MoveActions s)).
  - unfold r, MoveAxis, ApplyScheduledActions.
    rewrite controlled_pawn_of_character.
    destruct (Sweep Axis EndTime Now (MoveActions s)) as [ma ms].
    destruct (Sweep Rate LookEndTime Now (LookActions s)) as [la ls]. cbn [snd].
    destruct (Strands_GetControlledCharacter (GetWorld E)) as [C|].
    + destruct (0 <? PendingJumpCount (set_LookActions la (set_MoveActions ma s)))%Z;
        cbn [snd]; rewrite !filter_app;
        try rewrite (filter_repeat_jump is_movement_input _ eq_refl);
        destruct (IsNearlyZero (ClampAxis ms));
        destruct (Strands_GetControlledPawn (GetWorld E));
        try destruct (IsNearlyZero ls); reflexivity.
    + cbn [snd app].
      destruct (Strands_GetControlledPawn (GetWorld E)); [|reflexivity].
      destruct (IsNearlyZero ls); reflexivity.
Qed.

Example opposite_moves_cancel : forall Delta,
  let s := set_MoveActions [mkMoveAction (mkVector2D 1 0) 10; mkMoveAction (mkVector2D (-1) 0) 12]
             (InitialSubsystem DefaultSettings) in
  snd (ApplyScheduledActions Delta 5 Engine_Character s) = [].
Proof. reflexivity. Qed.

Example plain_pawn_gets_look_only : forall Delta,
  let s := mkSubsystem true [] true [mkMoveAction (mkVector2D 1 0) 10]
             [mkLookAction (mkVector2D 90 0) 10] 2 None DefaultSettings in
  snd (ApplyScheduledActions Delta 5 Engine_PlainPawn s)
  = [AddControllerYawInput (90 * Delta); AddControllerPitchInput (0 * Delta)] /\
  PendingJumpCount (fst (ApplyScheduledActions Delta 5 Engine_PlainPawn s)) = 2%Z.
Proof. intro Delta. split; reflexivity. Qed.

(** ** The window of one command *)

Lemma FMath_Max_zero : forall d,
  (d <= 0 -> FMath_Max 0 d == 0) /\ (0 < d -> FMath_Max 0 d = d) /\ 0 <= FMath_Max 0 d.
Proof.
  intro d. unfold FMath_Max. destruct (Qltb d 0) eqn:E.
  - apply Qltb_lt in E. split; [reflexivity|]. split; [|apply Qle_refl].
    intro H. exfalso. exact (Qlt_irrefl _ (Qlt_trans _ _ _ H E)).
  - apply Qltb_ge in E. split; [|split; [reflexivity | exact E]].
    intro H. apply Qle_antisym; assumption.
Qed.

(** A pass over a pool whose last action has expired is the pass over the
    pool without it: the loop starts at that action, removes it, and goes
    on as it would have started. *)
Lemma Sweep_last_expired : forall {A : Type} (vec : A -> FVector2D) (expiry : A -> Q)
    (T : Q) (pool : list A) (a : A),
  Qltb T (expiry a) = false ->
  Sweep vec expiry T (pool ++ [a]) = Sweep vec expiry T pool.
Proof.
  intros A vec expiry T pool a Hd. unfold Sweep.
  rewrite length_app, Nat.add_comm. cbn [length Nat.add SweepLoop].
  rewrite nth_error_app2 by apply le_n. rewrite Nat.sub_diag. cbn [nth_error].
  assert (Hq : Qle_bool (expiry a) T = true).
  { apply Qle_bool_iff. apply Qltb_ge. exact Hd. }
  rewrite Hq, RemoveAtSwap_last. reflexivity.
Qed.

(** X3. A move command ingested at time [Now] with duration [d] adds one
    action to the end of the pool, with the expiry [Now + max(0, d)], and
    that action counts in exactly the resolve passes whose clock [T] is
    before that expiry.  In those the pass keeps it, and the sum of the pass
    is the sum over the live actions of the pool with the new one after
    them; in the others the pass drops it and returns, pool and sum, what
    it returns on the pool without the command.  A command with a zero or
    negative duration never counts in a pass at or after its ingest; one
    with a positive duration counts exactly while [T < Now + d]. *)
Theorem X3_move_counts_until_its_expiry : forall (Now T : Q) (E : FEngine)
    (f r d : Q) (s : UStrandsInputServerSubsystem),
  let s1 := fst (ExecuteCommand Now E (CmdMove f r d) s) in
  let counts := Qltb T (Now + FMath_Max 0 d) in
  exists a : FStrandsMoveAction,
    MoveActions s1 = MoveActions s ++ [a] /\
    EndTime a = Now + FMath_Max 0 d /\
    Permutation (fst (Sweep Axis EndTime T (MoveActions s1)))
                (live_moves T (MoveActions s) ++ (if counts then [a] else [])) /\
    V2_eq (snd (Sweep Axis EndTime T (MoveActions s1)))
          (sum_vectors Axis (live_moves T (MoveActions s) ++ (if counts then [a] else []))) /\
    (counts = false ->
     Sweep Axis EndTime T (MoveActions s1) = Sweep Axis EndTime T (MoveActions s)) /\
    (d <= 0 -> Now <= T -> counts = false) /\
    (0 < d -> (counts = true <-> T < Now + d)).
Proof.
  intros Now T E f r d s s1 counts.
  set (a := mkMoveAction (mkVector2D f r) (Now + FMath_Max 0 d)).
  exists a.
  destruct (Sweep_spec FStrandsMoveAction Axis EndTime T (MoveActions s ++ [a])) as [Hperm Hsum].
  rewrite filter_app in Hperm, Hsum.
  fold (live_moves T (MoveActions s)) in Hperm, Hsum.
  assert (Hfa : filter (alive EndTime T) [a] = if counts then [a] else []).
  { unfold counts. simpl. unfold alive. simpl. destruct (Qltb T (Now + FMath_Max 0 d)); reflexivity. }
  rewrite Hfa in Hperm, Hsum.
  split; [reflexivity|]. split; [reflexivity|]. split; [exact Hperm|]. split; [exact Hsum|].
  split.
  { intro Hc. change (MoveActions s1) with (MoveActions s ++ [a]).
    apply Sweep_last_expired. exact Hc. }
  destruct (FMath_Max_zero d) as [Hneg [Hpos _]]. split.
  - intros Hd HT. unfold counts. apply Qltb_ge.
    rewrite (Hneg Hd). rewrite Qplus_0_r. exact HT.
  - intro Hd. unfold counts. rewrite (Hpos Hd). apply Qltb_lt.
Qed.

(** X4. A tick on an idle subsystem does nothing: with no client, empty
    pools, no pending jump and an unset sprint latch, [Tick] leaves the
    subsystem and the world as they are and touches nothing in the engine,
    whether the server runs or not. *)
Theorem X4_idle_tick_is_noop : forall (Delta NowPoll NowApply : Q) (E : FEngine)
    (s : UStrandsInputServerSubsystem),
  Clients s = [] -> MoveActions s = [] -> LookActions s = [] ->
  (PendingJumpCount s <= 0)%Z -> PendingSprintEnabled s = None ->
  Tick Delta NowPoll NowApply E s = (s, E, []).
Proof.
  intros Delta NowPoll NowApply E s Hc Hm Hl Hj Hp.
  rewrite (Tick_no_clients Delta NowPoll NowApply E s Hc).
  assert (HA : ApplyScheduledActions Delta NowApply E s = (s, [])).
  { clear Hc Hp. destruct s as [li cs br ma la pj ps st].
    cbn [MoveActions LookActions PendingJumpCount] in Hm, Hl, Hj. subst ma la.
    unfold ApplyScheduledActions.
    cbn [MoveActions LookActions Sweep SweepLoop length set_MoveActions set_LookActions
         PendingJumpCount Listener Clients bRunning PendingSprintEnabled Settings].
    destruct (Z.ltb_spec 0 pj) as [Hbad|_]; [lia|].
    destruct (Strands_GetControlledCharacter (GetWorld E)) as [C|];
      destruct (Strands_GetControlledPawn (GetWorld E)); reflexivity. }
  rewrite HA. cbn [fst snd]. unfold ApplySprintIfPending. rewrite Hp. reflexivity.
Qed.

Lemma X4_witness :
  Tick 1 0 0 Engine_Character (InitialSubsystem DefaultSettings)
  = (InitialSubsystem DefaultSettings, Engine_Character, []).
Proof.
  apply (X4_idle_tick_is_noop 1 0 0 Engine_Character (InitialSubsystem DefaultSettings));
    solve [reflexivity | simpl; lia].
Defined.

(** ** Counting jumps *)

Lemma wrap32_small : forall z, (- 2 ^ 31 <= z < 2 ^ 31)%Z -> wrap32 z = z.
Proof.
  intros z H. unfold wrap32. rewrite Z.mod_small; lia.
Qed.

Lemma ProcessLines_jumps : forall Now E k s,
  (0 <= PendingJumpCount s)%Z ->
  (PendingJumpCount s + Z.of_nat k < 2 ^ 31)%Z ->
  ProcessLines (ProcessLine Now E) (repeat JumpLine k) s
  = (set_PendingJumpCount (PendingJumpCount s + Z.of_nat k) s, []).
Proof.
  intros Now E k. induction k as [|k IH]; intros s H0 Hk.
  - simpl. rewrite Z.add_0_r. destruct s; reflexivity.
  - cbn [repeat ProcessLines]. rewrite ProcessLine_jump.
    rewrite wrap32_small by lia.
    rewrite IH by (simpl; lia). simpl.
    replace (PendingJumpCount s + 1 + Z.of_nat k)%Z
      with (PendingJumpCount s + Z.of_nat (S k))%Z by lia.
    reflexivity.
Qed.

(** X5. Jump commands add up: [k] jump lines ingested on a counter [n >= 0]
    leave the counter at [n + k] (as long as that is below 2^31) and touch
    nothing else, and the next resolve pass with a character possessed calls
    [Jump] exactly [n + k] times and leaves the counter at 0. *)
Theorem X5_jumps_add_up : forall (Delta Now T : Q) (E : FEngine) (C : ACharacter)
    (k : nat) (s : UStrandsInputServerSubsystem),
  Strands_GetControlledCharacter (GetWorld E) = Some C ->
  (0 <= PendingJumpCount s)%Z ->
  (PendingJumpCount s + Z.of_nat k < 2 ^ 31)%Z ->
  let s1 := fst (ProcessLines (ProcessLine Now E) (repeat JumpLine k) s) in
  let r := ApplyScheduledActions Delta T E s1 in
  s1 = set_PendingJumpCount (PendingJumpCount s + Z.of_nat k) s /\
  JumpCount (snd r) = (Z.to_nat (PendingJumpCount s) + k)%nat /\
  PendingJumpCount (fst r) = 0%Z.
Proof.
  intros Delta Now T E C k s HC H0 Hk s1 r.
  assert (Hs1 : s1 = set_PendingJumpCount (PendingJumpCount s + Z.of_nat k) s).
  { unfold s1. rewrite (ProcessLines_jumps Now E k s H0 Hk). reflexivity. }
  split; [exact Hs1|].
  pose proof (ApplyScheduledActions_jumps Delta T E s1) as HJ.
  rewrite HC in HJ. fold r in HJ. destruct HJ as [HJ1 HJ2].
  rewrite Hs1 in HJ1, HJ2. cbn [PendingJumpCount set_PendingJumpCount] in HJ1, HJ2.
  split; [rewrite HJ1; lia|].
  rewrite HJ2. destruct (Z.ltb_spec 0 (PendingJumpCount s + Z.of_nat k)); lia.
Qed.

Lemma X5_witness :
  JumpCount (snd (ApplyScheduledActions 1 0 Engine_Character
     (fst (ProcessLines (ProcessLine 0 Engine_Character) (repeat JumpLine 3)
             (InitialSubsystem DefaultSettings)))))
  = 3%nat.
Proof.
  apply (X5_jumps_add_up 1 0 0 Engine_Character SampleCharacter 3
           (InitialSubsystem DefaultSettings)).
  - reflexivity.
  - simpl. lia.
  - simpl. lia.
Defined.

(** ** What a line can do to the subsystem *)

(** X7. Ingest only appends. Whatever the line, [ProcessLine] leaves every
    action that was in the move and look pools where it was, adds at most
    one action, at the end of one pool, with an expiry that is not before
    the time of ingest whatever duration was sent, and leaves the registry,
    the listener, the running flag and the settings alone. *)
Theorem X7_ingest_only_appends : forall (Now : Q) (E : FEngine) (Line : FString)
    (s : UStrandsInputServerSubsystem),
  let s' := fst (ProcessLine Now E Line s) in
  exists (ma : list FStrandsMoveAction) (la : list FStrandsLookAction),
    MoveActions s' = MoveActions s ++ ma /\
    LookActions s' = LookActions s ++ la /\
    (length ma + length la <= 1)%nat /\
    Forall (fun a => Now <= EndTime a) ma /\
    Forall (fun a => Now <= LookEndTime a) la /\
    Clients s' = Clients s /\ Listener s' = Listener s /\
    bRunning s' = bRunning s /\ Settings s' = Settings s.
Proof.
  intros Now E Line s s'.
  assert (Hge : forall d, Now <= Now + FMath_Max 0 d).
  { intro d. destruct (FMath_Max_zero d) as [_ [_ H]].
    rewrite <- (Qplus_0_r Now) at 1. apply Qplus_le_r. exact H. }
  assert (Hnil : exists (ma : list FStrandsMoveAction) (la : list FStrandsLookAction),
             MoveActions s = MoveActions s ++ ma /\ LookActions s = LookActions s ++ la /\
             (length ma + length la <= 1)%nat /\
             Forall (fun a => Now <= EndTime a) ma /\
             Forall (fun a => Now <= LookEndTime a) la /\
             Clients s = Clients s /\ Listener s = Listener s /\
             bRunning s = bRunning s /\ Settings s = Settings s).
  { exists [], []. rewrite !app_nil_r.
    repeat split; try reflexivity; try (simpl; lia); constructor. }
  unfold s', ProcessLine.
  destruct (Deserialize Line) as [Obj|]; [|exact Hnil].
  destruct (DecodeCommand E (Settings s) Obj) as [f r d | y p d | | [b|] | o b | o | c];
    cbn [ExecuteCommand fst]; try exact Hnil.
  - exists [mkMoveAction (mkVector2D f r) (Now + FMath_Max 0 d)], [].
    rewrite app_nil_r.
    repeat split; try reflexivity; try (simpl; lia); repeat constructor. apply Hge.
  - exists [], [mkLookAction (mkVector2D y p) (Now + FMath_Max 0 d)].
    rewrite app_nil_r.
    repeat split; try reflexivity; try (simpl; lia); repeat constructor. apply Hge.
Qed.

(** ** The command name *)

Lemma FString_eqb_neq : forall a b, FString_eqb a b = false -> a <> b.
Proof.
  intros a b H E. apply FString_eqb_eq in E. congruence.
Qed.

Lemma DecodeCommand_cases : forall E S Obj,
  let Cmd := GetStringField Obj (TEXT "cmd") in
  let L := map ToLower Cmd in
  let c := DecodeCommand E S Obj in
  (L = TEXT "move" /\ exists f r d, c = CmdMove f r d) \/
  (L = TEXT "look" /\ exists y p d, c = CmdLook y p d) \/
  (L = TEXT "jump" /\ c = CmdJump) \/
  (L = TEXT "sprint" /\ exists b, c = CmdSprint b) \/
  (L = TEXT "screenshot" /\ exists o b, c = CmdScreenshot o b) \/
  (L = TEXT "state" /\ exists o, c = CmdState o) \/
  ((L <> TEXT "move" /\ L <> TEXT "look" /\ L <> TEXT "jump" /\
    L <> TEXT "sprint" /\ L <> TEXT "screenshot" /\ L <> TEXT "state") /\
   c = CmdUnknown Cmd).
Proof.
  intros E S Obj Cmd L c. unfold c, DecodeCommand, EqualsIgnoreCase. fold Cmd. fold L.
  change (map ToLower (TEXT "move")) with (TEXT "move").
  change (map ToLower (TEXT "look")) with (TEXT "look").
  change (map ToLower (TEXT "jump")) with (TEXT "jump").
  change (map ToLower (TEXT "sprint")) with (TEXT "sprint").
  change (map ToLower (TEXT "screenshot")) with (TEXT "screenshot").
  change (map ToLower (TEXT "state")) with (TEXT "state").
  destruct (FString_eqb L (TEXT "move")) eqn:E1.
  { apply FString_eqb_eq in E1. left. split; [exact E1 | repeat eexists]. }
  destruct (FString_eqb L (TEXT "look")) eqn:E2.
  { apply FString_eqb_eq in E2. right; left. split; [exact E2 | repeat eexists]. }
  destruct (FString_eqb L (TEXT "jump")) eqn:E3.
  { apply FString_eqb_eq in E3. do 2 right; left. split; [exact E3 | reflexivity]. }
  destruct (FString_eqb L (TEXT "sprint")) eqn:E4.
  { apply FString_eqb_eq in E4. do 3 right; left. split; [exact E4 | repeat eexists]. }
  destruct (FString_eqb L (TEXT "screenshot")) eqn:E5.
  { apply FString_eqb_eq in E5. do 4 right; left. split; [exact E5 | repeat eexists]. }
  destruct (FString_eqb L (TEXT "state")) eqn:E6.
  { apply FString_eqb_eq in E6. do 5 right; left. split; [exact E6 | repeat eexists]. }
  do 6 right. split; [|reflexivity].
  repeat split; apply FString_eqb_neq; assumption.
Qed.

(** X6. [ProcessLine] picks its branch by the command name with letter case
    ignored: a line reaches the branch of [move], [look], [jump], [sprint],
    [screenshot] or [state] exactly when its [cmd], in lower case, is that
    name, and it reaches the unknown-command branch, with the name as it was
    sent, exactly when the lower-cased [cmd] is none of the six. *)
Theorem X6_command_name_dispatch : forall (E : FEngine) (S : UStrandsInputServerSettings)
    (Obj : FJsonObject),
  let Cmd := GetStringField Obj (TEXT "cmd") in
  let c := DecodeCommand E S Obj in
  (In (map ToLower Cmd) CommandNames <-> forall u, c <> CmdUnknown u) /\
  (~ In (map ToLower Cmd) CommandNames <-> c = CmdUnknown Cmd) /\
  (map ToLower Cmd = TEXT "move" <-> exists f r d, c = CmdMove f r d) /\
  (map ToLower Cmd = TEXT "look" <-> exists y p d, c = CmdLook y p d) /\
  (map ToLower Cmd = TEXT "jump" <-> c = CmdJump) /\
  (map ToLower Cmd = TEXT "sprint" <-> exists b, c = CmdSprint b) /\
  (map ToLower Cmd = TEXT "screenshot" <-> exists o b, c = CmdScreenshot o b) /\
  (map ToLower Cmd = TEXT "state" <-> exists o, c = CmdState o).
Proof.
  intros E S Obj Cmd c.
  pose proof (DecodeCommand_cases E S Obj) as H. cbv zeta in H. fold Cmd c in H.
  assert (Hin : forall L, In L CommandNames <->
                L = TEXT "move" \/ L = TEXT "look" \/ L = TEXT "jump" \/
                L = TEXT "sprint" \/ L = TEXT "screenshot" \/ L = TEXT "state").
  { intro L. unfold CommandNames. simpl. intuition (subst; auto). }
  rewrite Hin. clear Hin. generalize dependent c. intro c.
  generalize (map ToLower Cmd). intros L H.
  destruct H as [[HL [f [r [d Hc]]]] | [[HL [y [p [d Hc]]]] | [[HL Hc] | [[HL [b Hc]] |
                [[HL [o [b Hc]]] | [[HL [o Hc]] | [[N1 [N2 [N3 [N4 [N5 N6]]]]] Hc]]]]]]];
    subst c; try subst L;
    repeat match goal with |- _ /\ _ => split end;
    split; intro H;
    try (repeat eexists; reflexivity);
    try reflexivity;
    try (intros u Hu; discriminate Hu);
    try discriminate H;
    try (cbv in H; discriminate H);
    try (repeat match goal with Hex : exists _, _ |- _ => destruct Hex end;
         match goal with Heq : _ = _ |- _ => discriminate Heq end);
    try (exfalso; apply H; cbv; tauto);
    try tauto;
    try (exfalso; apply (H Cmd); reflexivity);
    try (exfalso; intuition congruence).
Qed.

(** The two chains of tests, side by side: they part only where the
    CitySample chain reaches its [screenshot] or [state] branch, which the
    MyProject chain does not have. *)
Lemma DecodeCommand_MyProject_cases : forall E S Obj,
  DecodeCommand_MyProject E S Obj
  = match DecodeCommand E S Obj with
    | CmdScreenshot _ _ | CmdState _ => CmdUnknown (GetStringField Obj (TEXT "cmd"))
    | c => c
    end.
Proof.
  intros E S Obj. unfold DecodeCommand_MyProject, DecodeCommand. cbv zeta.
  destruct (EqualsIgnoreCase (GetStringField Obj (TEXT "cmd")) (TEXT "move")); [reflexivity|].
  destruct (EqualsIgnoreCase (GetStringField Obj (TEXT "cmd")) (TEXT "look")); [reflexivity|].
  destruct (EqualsIgnoreCase (GetStringField Obj (TEXT "cmd")) (TEXT "jump")); [reflexivity|].
  destruct (EqualsIgnoreCase (GetStringField Obj (TEXT "cmd")) (TEXT "sprint")).
  { destruct (HasField Obj (TEXT "enabled")); [|reflexivity].
    destruct (TryGetBoolField Obj (TEXT "enabled")); reflexivity. }
  destruct (EqualsIgnoreCase (GetStringField Obj (TEXT "cmd")) (TEXT "screenshot"));
    [reflexivity|].
  destruct (EqualsIgnoreCase (GetStringField Obj (TEXT "cmd")) (TEXT "state")); reflexivity.
Qed.

(** X8. The copy of [ProcessLine] under MyProject handles every line as the
    CitySample copy does, except a [screenshot] or [state] command: that one
    it answers with the unknown-command warning, asks for no screenshot and
    writes no file. *)
Theorem X8_MyProject_lacks_screenshot_and_state : forall (Now : Q) (E : FEngine)
    (Line : FString) (s : UStrandsInputServerSubsystem),
  match DecodeLine E (Settings s) Line with
  | Some (CmdScreenshot _ _) | Some (CmdState _) =>
      exists Cmd,
        (map ToLower Cmd = TEXT "screenshot" \/ map ToLower Cmd = TEXT "state") /\
        ProcessLine_MyProject Now E Line s
        = (s, [LogWarning (TEXT "StrandsInputServer: Unknown cmd '" ++ Cmd ++ TEXT "'")])
  | _ => ProcessLine_MyProject Now E Line s = ProcessLine Now E Line s
  end.
Proof.
  intros Now E Line s. unfold DecodeLine, ProcessLine_MyProject, ProcessLine.
  destruct (Deserialize Line) as [Obj|]; [|reflexivity].
  rewrite DecodeCommand_MyProject_cases.
  pose proof (DecodeCommand_cases E (Settings s) Obj) as H. cbv zeta in H.
  destruct (DecodeCommand E (Settings s) Obj) as [f r d | y p d | | [b|] | o b | o | c];
    try reflexivity;
    exists (GetStringField Obj (TEXT "cmd")); (split; [|reflexivity]);
    destruct H as [[HL [? [? [? Hc]]]] | [[HL [? [? [? Hc]]]] | [[HL Hc] | [[HL [? Hc]] |
                  [[HL [? [? Hc]]] | [[HL [? Hc]] | [_ Hc]]]]]]];
    try discriminate Hc; auto.
Qed.

(** ** The framer, fed in pieces *)

(** X9. The framer can be fed a stream in pieces: framing [x], and then
    framing what the first call left in the accumulator followed by [y],
    emits the frames of [x ++ y], in order, and leaves what framing [x ++ y]
    at once leaves. *)
Theorem X9_framer_is_incremental : forall (x y : FString),
  let first := Strands_SplitLines x [] in
  let second := Strands_SplitLines (fst first ++ y) [] in
  Strands_SplitLines (x ++ y) [] = (fst second, snd first ++ snd second).
Proof.
  intros x y. apply (Strands_SplitLines_app (length x)). apply le_n.
Qed.

Lemma FindChar_split : forall c x i,
  FindChar c x = Some i -> x = firstn i x ++ c :: skipn (i + 1) x.
Proof.
  induction x as [|d x IH]; intros i H; [discriminate|].
  simpl in H. destruct (Ascii.eqb_spec d c) as [-> | Hne].
  - injection H as <-. reflexivity.
  - destruct (FindChar c x) as [j|]; [|discriminate].
    injection H as <-. simpl. f_equal. apply IH. reflexivity.
Qed.

Lemma Strands_SplitLines_shape : forall n x,
  (length x <= n)%nat ->
  (exists consumed,
     x = consumed ++ fst (Strands_SplitLines x []) /\
     (consumed = [] \/ exists t, consumed = t ++ [newline])) /\
  (length (snd (Strands_SplitLines x [])) <= count_occ ascii_dec x newline)%nat.
Proof.
  induction n as [|n IH]; intros x Hn.
  - destruct x; [|simpl in Hn; lia]. split; [|simpl; lia].
    exists []. split; [reflexivity | left; reflexivity].
  - destruct (FindChar newline x) as [i|] eqn:E.
    + pose proof (FindChar_lt _ _ _ E) as Hlt.
      pose proof (FindChar_split _ _ _ E) as Hx.
      rewrite (Strands_SplitLines_step x i E). cbn [fst snd].
      assert (Hs : (length (skipn (i + 1) x) <= n)%nat) by (rewrite length_skipn; lia).
      destruct (IH (skipn (i + 1) x) Hs) as [[consumed [Hc Hend]] Hcount].
      split.
      * exists (firstn i x ++ newline :: consumed). split.
        -- rewrite <- app_assoc. simpl. rewrite <- Hc. exact Hx.
        -- right. destruct Hend as [-> | [t ->]].
           ++ exists (firstn i x). reflexivity.
           ++ exists (firstn i x ++ newline :: t). rewrite <- app_assoc. reflexivity.
      * assert (Hc2 : count_occ ascii_dec x newline
                      = (count_occ ascii_dec (firstn i x) newline
                         + S (count_occ ascii_dec (skipn (i + 1) x) newline))%nat).
        { set (a := firstn i x) in *. set (b := skipn (i + 1) x) in *.
          rewrite Hx, count_occ_app. simpl.
          destruct (ascii_dec newline newline) as [_ | Hbad]; [reflexivity | contradiction]. }
        rewrite Hc2, length_app.
        destruct (TrimStartAndEnd (firstn i x)); simpl; lia.
    + rewrite (Strands_SplitLines_no_newline x E). split; [|simpl; lia].
      exists []. split; [reflexivity | left; reflexivity].
Qed.

(** X10. The framer neither loses nor invents text at the end of a stream.
    What it leaves in the accumulator holds no line feed and is the end of
    the input, from after the last line feed on; a text with no line feed is
    left whole and emits nothing; and it emits at most one frame per line
    feed. *)
Theorem X10_framer_keeps_the_partial_line : forall (x : FString),
  let rest := fst (Strands_SplitLines x []) in
  let frames := snd (Strands_SplitLines x []) in
  FindChar newline rest = None /\
  (exists consumed,
     x = consumed ++ rest /\ (consumed = [] \/ exists t, consumed = t ++ [newline])) /\
  (FindChar newline x = None <-> rest = x) /\
  (FindChar newline x = None -> frames = []) /\
  (length frames <= count_occ ascii_dec x newline)%nat.
Proof.
  intros x rest frames.
  destruct (Strands_SplitLines_shape (length x) x (le_n _)) as [Hshape Hcount].
  assert (Hrest : FindChar newline rest = None)
    by (apply (Strands_SplitLines_rest (length x)); apply le_n).
  split; [exact Hrest|]. split; [exact Hshape|]. split; [|split; [|exact Hcount]].
  - split; intro H.
    + unfold rest. rewrite (Strands_SplitLines_no_newline x H). reflexivity.
    + rewrite <- H. exact Hrest.
  - intro H. unfold frames. rewrite (Strands_SplitLines_no_newline x H). reflexivity.
Qed.

(** ** Draining, accepting, and the two poll loops *)

Lemma firstn_min_length : forall {A : Type} (n : nat) (l : list A),
  firstn (Nat.min (length l) n) l = firstn n l.
Proof.
  intros A n l. destruct (Nat.le_ge_cases (length l) n) as [H|H].
  - rewrite (Nat.min_l _ _ H), firstn_all, (firstn_all2 _ H). reflexivity.
  - rewrite (Nat.min_r _ _ H). reflexivity.
Qed.

Lemma skipn_min_length : forall {A : Type} (n : nat) (l : list A),
  skipn (Nat.min (length l) n) l = skipn n l.
Proof.
  intros A n l. destruct (Nat.le_ge_cases (length l) n) as [H|H].
  - rewrite (Nat.min_l _ _ H), skipn_all, (skipn_all2 _ H). reflexivity.
  - rewrite (Nat.min_r _ _ H). reflexivity.
Qed.

(** X11. Draining a socket reads all of it, however much there is: the
    socket is left with nothing unread and with the identity and connection
    state it had, and the lines handled are the frames of the buffered text
    followed by all the bytes read, as if they had come in one piece; the
    client's buffer is left with the text after the last line feed.  The
    loop reads at most 64 KiB in a turn: its first turn takes the first
    65536 unread bytes, or all of them when there are fewer, frames them
    after the buffered text and leaves the rest unread.  (The buffer handed
    in holds no line feed, as every buffer the framer leaves.) *)
Theorem X11_drain_reads_everything : forall
    (h : FString -> UStrandsInputServerSubsystem -> UStrandsInputServerSubsystem * list Effect)
    (Sock : FSocket) (Pend : FString) (s : UStrandsInputServerSubsystem),
  FindChar newline Pend = None ->
  let text := Pend ++ map ascii_of_byte (Incoming Sock) in
  let r := DrainSocket h Sock Pend s in
  let one := DrainLoop h 1 Sock Pend s in
  let chunk := firstn RecvChunk (Incoming Sock) in
  fst (fst (fst r)) = mkSocket (SocketId Sock) [] (GetConnectionState Sock) /\
  snd (fst (fst r)) = fst (Strands_SplitLines text []) /\
  (snd (fst r), snd r) = ProcessLines h (snd (Strands_SplitLines text [])) s /\
  FindChar newline (snd (fst (fst r))) = None /\
  (N.of_nat (length chunk) <= 65536)%N /\
  fst (fst (fst one))
  = mkSocket (SocketId Sock) (skipn RecvChunk (Incoming Sock)) (GetConnectionState Sock) /\
  snd (fst (fst one)) = fst (Strands_SplitLines (Pend ++ map ascii_of_byte chunk) []) /\
  (snd (fst one), snd one)
  = ProcessLines h (snd (Strands_SplitLines (Pend ++ map ascii_of_byte chunk) [])) s.
Proof.
  intros h Sock Pend s Hnl text r one chunk.
  assert (Hone :
    (N.of_nat (length chunk) <= 65536)%N /\
    fst (fst (fst one))
    = mkSocket (SocketId Sock) (skipn RecvChunk (Incoming Sock)) (GetConnectionState Sock) /\
    snd (fst (fst one)) = fst (Strands_SplitLines (Pend ++ map ascii_of_byte chunk) []) /\
    (snd (fst one), snd one)
    = ProcessLines h (snd (Strands_SplitLines (Pend ++ map ascii_of_byte chunk) [])) s).
  { split.
    { pose proof (firstn_le_length RecvChunk (Incoming Sock)) as Hle. fold chunk in Hle.
      unfold RecvChunk in Hle. lia. }
    unfold one, chunk. clear r one chunk text.
    destruct Sock as [id inc st]. cbn [Incoming SocketId GetConnectionState].
    destruct inc as [|b bs].
    - rewrite DrainLoop_empty, firstn_nil, skipn_nil. cbn [map fst snd].
      rewrite app_nil_r, (Strands_SplitLines_no_newline Pend Hnl). cbn [fst snd ProcessLines].
      repeat split; reflexivity.
    - rewrite DrainLoop_read. cbv zeta.
      rewrite firstn_min_length, skipn_min_length.
      change (DrainLoop h 0 ?a ?b ?c) with (a, b, c, @nil Effect). cbn [fst snd].
      rewrite app_nil_r.
      split; [reflexivity|]. split; [reflexivity|].
      destruct (ProcessLines h
                  (snd (Strands_SplitLines
                          (Pend ++ map ascii_of_byte (firstn RecvChunk (b :: bs))) [])) s);
        reflexivity. }
  unfold r.
  rewrite (DrainSocket_spec h Sock Pend s Hnl). fold text. cbn [fst snd].
  split; [reflexivity|]. split; [reflexivity|].
  split; [destruct (ProcessLines h (snd (Strands_SplitLines text [])) s); reflexivity|].
  split; [apply (Strands_SplitLines_rest (length text)); apply le_n|].
  exact Hone.
Qed.

Lemma X11_witness :
  fst (fst (fst (DrainSocket (ProcessLine 0 Engine_Character)
                   (mkSocket 7 (bytes_of P5_stream) SCS_NotConnected) (TEXT "  ")
                   (InitialSubsystem DefaultSettings))))
  = mkSocket 7 [] SCS_NotConnected.
Proof.
  apply (X11_drain_reads_everything (ProcessLine 0 Engine_Character)
           (mkSocket 7 (bytes_of P5_stream) SCS_NotConnected) (TEXT "  ")
           (InitialSubsystem DefaultSettings)).
  reflexivity.
Defined.

(** X13. Accepting a connection adds one client at the end of the registry,
    leaves the clients that were there as they were, and drains the new
    socket at once: whatever the peer had already sent is framed and handled
    before the accept task returns, and the client is registered with
    nothing unread.  The connection state is not looked at: a peer that sent
    and closed is registered all the same. *)
Theorem X13_accept_registers_and_drains : forall (Now : Q) (E : FEngine)
    (InSocket : FSocket) (s : UStrandsInputServerSubsystem),
  let NewClient := mkClient (Some InSocket) [] in
  let handled := ProcessLines (ProcessLine Now E) (FramesOf NewClient) s in
  let r := OnClientAccepted (ProcessLine Now E) InSocket s in
  fst r = set_Clients (Clients s ++ [Drained NewClient]) (fst handled) /\
  snd r = snd handled /\
  Clients (fst r)
  = Clients s
    ++ [mkClient (Some (mkSocket (SocketId InSocket) [] (GetConnectionState InSocket)))
                 (fst (Strands_SplitLines (map ascii_of_byte (Incoming InSocket)) []))].
Proof.
  intros Now E InSocket s NewClient handled r.
  assert (Hr : r = (set_Clients (Clients s ++ [Drained NewClient]) (fst handled), snd handled)).
  { unfold r, handled, NewClient, OnClientAccepted, DrainLastClient.
    cbn [Clients set_Clients].
    rewrite length_app. simpl length.
    replace (length (Clients s) + 1 - 1)%nat with (length (Clients s)) by lia.
    rewrite nth_error_app2 by lia. rewrite Nat.sub_diag. cbn [nth_error Socket Pending].
    rewrite (DrainSocket_spec (ProcessLine Now E) InSocket []
               (set_Clients (Clients s ++ [mkClient (Some InSocket) []]) s) eq_refl).
    cbn [app].
    rewrite (ProcessLines_commutes (ProcessLine Now E) (ProcessLine_commutes Now E)).
    cbn [fst snd Clients set_Clients].
    rewrite SetAt_middle. reflexivity. }
  rewrite Hr. cbn [fst snd]. repeat split; reflexivity.
Qed.

Lemma nth_error_RemoveAtSwap_below : forall {A : Type} (i j : nat) (l : list A),
  (j < i)%nat -> nth_error (RemoveAtSwap i l) j = nth_error l j.
Proof.
  intros A i j l Hj. unfold RemoveAtSwap.
  destruct (Nat.leb_spec (length l) i) as [_ | Hi]; [reflexivity|].
  destruct (Nat.eqb_spec i (length l - 1)) as [Hlast | Hmid].
  - destruct (last_or_nil l) as [-> | [q [z ->]]]; [reflexivity|].
    rewrite removelast_last. rewrite length_app in Hlast. simpl in Hlast.
    rewrite nth_error_app1 by lia. reflexivity.
  - destruct (nth_error l (length l - 1)) as [z|]; [|reflexivity].
    rewrite nth_error_app1 by (rewrite length_firstn; lia).
    rewrite nth_error_firstn.
    destruct (Nat.ltb_spec j i) as [_ | Hbad]; [reflexivity | lia].
Qed.

Lemma nth_error_SetAt_below : forall {A : Type} (i j : nat) (v : A) (l : list A),
  (j < i)%nat -> nth_error (SetAt i v l) j = nth_error l j.
Proof.
  intros A i j v l Hj. unfold SetAt.
  destruct (Nat.ltb_spec i (length l)) as [Hi | _]; [|reflexivity].
  rewrite nth_error_app1 by (rewrite length_firstn; lia).
  rewrite nth_error_firstn.
  destruct (Nat.ltb_spec j i) as [_ | Hbad]; [reflexivity | lia].
Qed.

Section CopiesAgree.
Variable h : FString -> UStrandsInputServerSubsystem -> UStrandsInputServerSubsystem * list Effect.
Hypothesis h_commutes : forall Line cs s,
  h Line (set_Clients cs s) = (set_Clients cs (fst (h Line s)), snd (h Line s)).

Lemma DrainLoop_keeps : forall fuel Sock Pend s,
  let r := DrainLoop h fuel Sock Pend s in
  IsConnected (fst (fst (fst r))) = IsConnected Sock /\
  Clients (snd (fst r)) = Clients s.
Proof.
  induction fuel as [|fuel IH]; intros [id inc st] Pend s; [split; reflexivity|].
  destruct inc as [|b bs].
  - rewrite DrainLoop_empty. split; reflexivity.
  - cbv zeta. rewrite DrainLoop_read. cbn [fst snd].
    match goal with
    | |- context [DrainLoop h fuel ?k ?p ?t] => destruct (IH k p t) as [H1 H2]
    end.
    cbv zeta in H1, H2. rewrite H1, H2.
    split; [reflexivity|]. apply (ProcessLines_clients h h_commutes).
Qed.

Lemma PollLoops_agree : forall n s,
  (forall j C Sock, (j < n)%nat -> nth_error (Clients s) j = Some C ->
                    Socket C = Some Sock -> IsConnected Sock = true) ->
  PollLoop_MyProject h n s = PollLoop h n s.
Proof.
  induction n as [|i IH]; intros s Hconn; [reflexivity|].
  cbn [PollLoop PollLoop_MyProject].
  destruct (nth_error (Clients s) i) as [C|] eqn:EC; [|reflexivity].
  destruct (Socket C) as [Sock|] eqn:ES.
  - rewrite (Hconn i C Sock (Nat.lt_succ_diag_r i) EC ES). cbn [negb].
    destruct (DrainLoop_keeps (length (Incoming Sock)) Sock (Pending C) s) as [Hk1 Hk2].
    cbv zeta in Hk1, Hk2. fold (DrainSocket h Sock (Pending C) s) in Hk1, Hk2.
    destruct (DrainSocket h Sock (Pending C) s) as [[[Sock1 Pend1] s1] e1].
    cbn [fst snd] in Hk1, Hk2.
    rewrite Hk1, (Hconn i C Sock (Nat.lt_succ_diag_r i) EC ES). cbn [negb].
    rewrite IH; [reflexivity|].
    intros j C' Sock' Hj HC' HS'.
    change (Clients (set_Clients ?x s1)) with x in HC'.
    rewrite nth_error_SetAt_below, Hk2 in HC' by exact Hj.
    apply (Hconn j C' Sock'); [lia | exact HC' | exact HS'].
  - apply IH. intros j C' Sock' Hj HC' HS'.
    change (Clients (set_Clients ?x s)) with x in HC'.
    rewrite nth_error_RemoveAtSwap_below in HC' by exact Hj.
    apply (Hconn j C' Sock'); [lia | exact HC' | exact HS'].
Qed.
End CopiesAgree.

Lemma ProcessLine_MyProject_commutes : forall Now E Line cs s,
  ProcessLine_MyProject Now E Line (set_Clients cs s)
  = (set_Clients cs (fst (ProcessLine_MyProject Now E Line s)),
     snd (ProcessLine_MyProject Now E Line s)).
Proof.
  intros Now E Line cs s. unfold ProcessLine_MyProject.
  destruct (Deserialize Line) as [Obj|]; [|reflexivity].
  change (Settings (set_Clients cs s)) with (Settings s).
  apply ExecuteCommand_commutes.
Qed.

(** X14. The two copies of [PollClients] part ways on clients that are not
    connected, and only there: on a registry whose sockets are all connected
    the loop of the MyProject copy and the loop of the CitySample copy, run
    with the same line handler, leave the same subsystem and the same
    effects. *)
Theorem X14_poll_copies_agree_when_connected : forall (Now : Q) (E : FEngine)
    (s : UStrandsInputServerSubsystem),
  (forall C Sock, In C (Clients s) -> Socket C = Some Sock -> IsConnected Sock = true) ->
  PollClients_MyProject (ProcessLine_MyProject Now E) s
  = PollClients (ProcessLine_MyProject Now E) s /\
  PollClients_MyProject (ProcessLine Now E) s = PollClients (ProcessLine Now E) s.
Proof.
  intros Now E s Hconn.
  assert (Hn : forall j C Sock, (j < length (Clients s))%nat ->
                 nth_error (Clients s) j = Some C ->
                 Socket C = Some Sock -> IsConnected Sock = true).
  { intros j C Sock _ HC HS. apply (Hconn C Sock); [|exact HS].
    apply nth_error_In with j. exact HC. }
  split; unfold PollClients_MyProject, PollClients.
  - apply (PollLoops_agree _ (ProcessLine_MyProject_commutes Now E)). exact Hn.
  - apply (PollLoops_agree _ (ProcessLine_commutes Now E)). exact Hn.
Qed.

Lemma X14_witness :
  PollClients_MyProject (ProcessLine_MyProject 0 Engine_Character)
    (OneClient DefaultSettings P5_stream SCS_Connected)
  = PollClients (ProcessLine_MyProject 0 Engine_Character)
      (OneClient DefaultSettings P5_stream SCS_Connected).
Proof.
  apply (X14_poll_copies_agree_when_connected 0 Engine_Character
           (OneClient DefaultSettings P5_stream SCS_Connected)).
  intros C Sock [<- | []] HS. simpl in HS. injection HS as <-. reflexivity.
Defined.

(** ** More of the snapshot *)

(** X15. [blocked.forward] never fires without an obstruction: in a
    snapshot built with a pawn possessed the flag is true exactly when the
    forward line from the waist, 200 long, hits something at a distance
    strictly between 0 and 100, and that distance is the one reported as
    [trace.forward.waist].  A line that hits nothing, or hits at distance 0
    or at 100 and beyond, leaves the flag false. *)
Theorem X15_blocked_forward_means_near_hit : forall (Now : Q) (W : UWorld) (P : APawn),
  Strands_GetControlledPawn (Some W) = Some P ->
  let Character := Strands_GetControlledCharacter (Some W) in
  let Root := BuildWorldState Now [] (Some W) in
  let Start := WaistStartOf P Character in
  let End := V_add Start (V_scale (GetActorForwardVector P) 200) in
  SnapshotAt ["blocked"; "forward"]%string Root = Some (JBoolean true) <->
  exists d, LineTraceSingleByChannel W Start End = Some d /\ 0 < d /\ d < 100 /\
            SnapshotAt ["trace"; "forward"; "waist"]%string Root = Some (JNumber d).
Proof.
  intros Now W P HP Character Root Start End.
  destruct (BuildWorldState_traces Now W) as [_ [Hw [_ [_ [_ [_ Hb]]]]]].
  cbv zeta in Hw, Hb. fold Root in Hw, Hb. rewrite Hb, Hw. clear Hb Hw.
  rewrite HP. fold Character.
  set (T := RunTraces W (Some P) Character).
  assert (HT : ForwardWaist T = match LineTraceSingleByChannel W Start End with
                                | Some d => d
                                | None => 200
                                end) by reflexivity.
  split.
  - intro H. injection H as H. apply BlockedForward_iff in H. destruct H as [H0 H1].
    rewrite HT in H0, H1 |- *.
    destruct (LineTraceSingleByChannel W Start End) as [d|].
    + exists d. repeat split; assumption.
    + exfalso. revert H1. unfold Qlt. simpl. lia.
  - intros [d [Hd [H0 [H1 Hn]]]]. do 2 f_equal. apply BlockedForward_iff.
    rewrite HT, Hd. split; assumption.
Qed.

Lemma X15_witness :
  SnapshotAt ["blocked"; "forward"]%string
    (BuildWorldState 0 [] (GetWorld (Engine_Wall 50))) = Some (JBoolean true).
Proof.
  apply (X15_blocked_forward_means_near_hit 0
           (mkWorld (Some (mkController (Some (CharacterPawn SampleCharacter))))
                    (fun _ _ => Some 50)) SamplePawn).
  - reflexivity.
  - exists 50. repeat split; reflexivity.
Defined.

Example wall_at_the_threshold_does_not_block :
  SnapshotAt ["blocked"; "forward"]%string
    (BuildWorldState 0 [] (GetWorld (Engine_Wall 100))) = Some (JBoolean false) /\
  SnapshotAt ["blocked"; "forward"]%string
    (BuildWorldState 0 [] (GetWorld (Engine_Wall 0))) = Some (JBoolean false).
Proof. split; reflexivity. Qed.

(** X17. The fields of a snapshot. With a world, the document always holds
    [ts] (the clock), [pawn], [move], [trace] and [blocked]; it holds [pos],
    [rot], [vel] and [speed] exactly when a pawn is possessed, and without
    one [pawn] is an empty object.  [move] is an empty object unless the
    pawn is a character with a movement component.  With no world the
    document is left as it was handed in. *)
Theorem X17_snapshot_fields : forall (Now : Q) (W : UWorld),
  let Root := BuildWorldState Now [] (Some W) in
  map fst Root
  = map TEXT (match Strands_GetControlledPawn (Some W) with
              | Some _ => ["ts"; "pawn"; "pos"; "rot"; "vel"; "speed";
                           "move"; "trace"; "blocked"]
              | None => ["ts"; "pawn"; "move"; "trace"; "blocked"]
              end)%string /\
  SnapshotAt ["ts"]%string Root = Some (JNumber Now) /\
  match Strands_GetControlledPawn (Some W) with
  | Some P =>
      SnapshotAt ["pawn"; "name"]%string Root = Some (JString (GetName P)) /\
      SnapshotAt ["pos"]%string Root
      = Some (JArray [JNumber (VX (GetActorLocation P)); JNumber (VY (GetActorLocation P));
                      JNumber (VZ (GetActorLocation P))]) /\
      SnapshotAt ["rot"; "yaw"]%string Root = Some (JNumber (Yaw (GetActorRotation P))) /\
      SnapshotAt ["speed"]%string Root = Some (JNumber (VelocityLength P))
  | None => SnapshotAt ["pawn"]%string Root = Some (JObject [])
  end /\
  SnapshotAt ["move"]%string Root
  = Some (JObject
      match Strands_GetControlledCharacter (Some W) with
      | Some C =>
          match GetCharacterMovement C with
          | Some MoveComp =>
              [(TEXT "mode", JString (ModeStr (MovementMode MoveComp)));
               (TEXT "isFalling", JBoolean (IsFalling MoveComp));
               (TEXT "isCrouched", JBoolean (bIsCrouched C))]
          | None => []
          end
      | None => []
      end) /\
  forall Out, BuildWorldState Now Out None = Out.
Proof.
  intros Now W Root. unfold Root, BuildWorldState.
  rewrite controlled_pawn_of_character.
  set (Ch := Strands_GetControlledCharacter (Some W)).
  set (Pw := Strands_GetControlledPawn (Some W)).
  set (TT := RunTraces W Pw Ch).
  destruct Pw as [P|]; repeat split; try reflexivity;
    destruct Ch as [C|]; try reflexivity;
    unfold MoveFields; destruct (GetCharacterMovement C); reflexivity.
Qed.

(** ** Start, stop and the sprint latch *)



(** X19. Only a [state] command writes a file and only a [screenshot]
    command asks for a screenshot. A state command writes exactly one
    document, the snapshot of the world at that moment, at its path, and
    makes the directory first when the path has one; a screenshot command
    forwards exactly one request.  Both leave the subsystem as it was, and
    no other line, well formed or not, touches the file system or asks for a
    screenshot. *)
Theorem X19_only_state_and_screenshot_produce_output : forall (Now : Q) (E : FEngine)
    (Line : FString) (s : UStrandsInputServerSubsystem),
  let r := ProcessLine Now E Line s in
  match DecodeLine E (Settings s) Line with
  | Some (CmdState OutPath) =>
      fst r = s /\
      filter is_screenshot_request (snd r) = [] /\
      snd r = match GetPath OutPath with
              | [] => []
              | c :: t => [MakeDirectory (c :: t)]
              end ++ [SaveStringToFile (BuildWorldState Now [] (GetWorld E)) OutPath]
  | Some (CmdScreenshot OutPath bShowUI) =>
      fst r = s /\ snd r = [RequestScreenshot OutPath bShowUI]
  | _ =>
      filter is_file_effect (snd r) = [] /\ filter is_screenshot_request (snd r) = []
  end.
Proof.
  intros Now E Line s r. unfold r, DecodeLine, ProcessLine.
  destruct (Deserialize Line) as [Obj|]; [|split; reflexivity].
  destruct (DecodeCommand E (Settings s) Obj) as [f rr d | y p d | | [b|] | o b | o | c];
    cbn [ExecuteCommand fst snd]; try (split; reflexivity).
  split; [reflexivity|]. unfold WriteWorldStateToFile.
  destruct (GetPath o); split; reflexivity.
Qed.

(** ** The sweep over several frames *)

Lemma Permutation_filter_compat : forall {A : Type} (f : A -> bool) (l l' : list A),
  Permutation l l' -> Permutation (filter f l) (filter f l').
Proof.
  induction 1 as [| a l l' _ IH | a b l | l l' l'' _ IH1 _ IH2]; simpl.
  - constructor.
  - destruct (f a); [constructor|]; exact IH.
  - destruct (f a), (f b); try apply Permutation_refl. apply perm_swap.
  - eapply Permutation_trans; eassumption.
Qed.

Lemma filter_alive_later : forall {A : Type} (expiry : A -> Q) (T T' : Q) (l : list A),
  T <= T' ->
  filter (alive expiry T') (filter (alive expiry T) l) = filter (alive expiry T') l.
Proof.
  intros A expiry T T' l HT. induction l as [|a l IH]; [reflexivity|].
  simpl. destruct (alive expiry T a) eqn:E1; simpl; [rewrite IH; reflexivity|].
  destruct (alive expiry T' a) eqn:E2; [|exact IH].
  unfold alive in E1, E2. apply Qltb_ge in E1. apply Qltb_lt in E2.
  exfalso. apply (Qlt_irrefl T').
  eapply Qlt_le_trans; [exact E2|]. eapply Qle_trans; eassumption.
Qed.

Lemma SweepLoop_all_live : forall {A : Type} (vec : A -> FVector2D) (expiry : A -> Q)
    (Now : Q) (n : nat) (l : list A) (Sum : FVector2D),
  Forall (fun a => alive expiry Now a = true) l ->
  fst (SweepLoop vec expiry Now n l Sum) = l.
Proof.
  intros A vec expiry Now n. induction n as [|i IH]; intros l Sum Hl; [reflexivity|].
  simpl. destruct (nth_error l i) as [a|] eqn:E; [|reflexivity].
  rewrite Forall_forall in Hl. pose proof (Hl a (nth_error_In _ _ E)) as Ha.
  unfold alive, Qltb in Ha. apply negb_true_iff in Ha. rewrite Ha.
  apply IH. apply Forall_forall. exact Hl.
Qed.

(** X22. Which move actions survive does not depend on which frames ran.
    For clock values [T <= T'], a resolve pass at [T'] on the pool a pass at
    [T] has left keeps the same move actions as a pass at [T'] on the pool
    as it was; and a second pass at the same [T] leaves the pool exactly as
    the first left it, order included. *)
Theorem X22_sweep_is_path_independent : forall (T T' : Q)
    (pool : list FStrandsMoveAction),
  T <= T' ->
  let first := Sweep Axis EndTime T pool in
  let later := Sweep Axis EndTime T' (fst first) in
  let direct := Sweep Axis EndTime T' pool in
  Permutation (fst later) (fst direct) /\
  fst (Sweep Axis EndTime T (fst first)) = fst first.
Proof.
  intros T T' pool HT first later direct.
  destruct (Sweep_spec _ Axis EndTime T pool) as [P1 S1]. fold first in P1, S1.
  destruct (Sweep_spec _ Axis EndTime T' (fst first)) as [P2 S2]. fold later in P2, S2.
  destruct (Sweep_spec _ Axis EndTime T' pool) as [P3 S3]. fold direct in P3, S3.
  assert (HP : Permutation (filter (alive EndTime T') (fst first))
                           (filter (alive EndTime T') pool)).
  { rewrite <- (filter_alive_later EndTime T T' pool HT).
    apply Permutation_filter_compat. exact P1. }
  assert (Hlive : Forall (fun a => alive EndTime T a = true) (fst first)).
  { apply Forall_forall. intros a Ha. apply (Permutation_in _ P1) in Ha.
    apply filter_In in Ha. apply Ha. }
  split.
  - eapply Permutation_trans; [exact P2|].
    eapply Permutation_trans; [exact HP|]. apply Permutation_sym. exact P3.
  - apply SweepLoop_all_live. exact Hlive.
Qed.

Lemma X22_witness :
  Permutation
    (fst (Sweep Axis EndTime 11
            (fst (Sweep Axis EndTime 5
                    [mkMoveAction (mkVector2D 1 0) 4; mkMoveAction (mkVector2D 0 1) 10;
                     mkMoveAction (mkVector2D 1 1) 12]))))
    (fst (Sweep Axis EndTime 11
            [mkMoveAction (mkVector2D 1 0) 4; mkMoveAction (mkVector2D 0 1) 10;
             mkMoveAction (mkVector2D 1 1) 12])).
Proof.
  apply (X22_sweep_is_path_independent 5 11
           [mkMoveAction (mkVector2D 1 0) 4; mkMoveAction (mkVector2D 0 1) 10;
            mkMoveAction (mkVector2D 1 1) 12]).
  unfold Qle. simpl. lia.
Defined.

(** ** A whole frame *)

Lemma ApplyScheduledActions_commutes : forall Delta Now E cs s,
  ApplyScheduledActions Delta Now E (set_Clients cs s)
  = (set_Clients cs (fst (ApplyScheduledActions Delta Now E s)),
     snd (ApplyScheduledActions Delta Now E s)).
Proof.
  intros Delta Now E cs s. unfold ApplyScheduledActions.
  cbn [MoveActions LookActions set_Clients].
  destruct (Sweep Axis EndTime Now (MoveActions s)) as [ma ms].
  destruct (Sweep Rate LookEndTime Now (LookActions s)) as [la ls].
  destruct (Strands_GetControlledCharacter (GetWorld E)) as [C|]; cbn.
  - destruct (0 <? PendingJumpCount s)%Z; reflexivity.
  - reflexivity.
Qed.

(** X20. A frame resolves what it has just received. While the server runs,
    [Tick] first handles the frames of everything every client has sent,
    clients taken from the last to the first, and closes the sockets that
    are not connected; then it resolves and applies the pools and the jump
    counter as that handling left them; then it takes the sprint latch.  So
    a command that arrived before the frame acts in that very frame.  The
    registry is left with the connected clients, drained. *)
Theorem X20_tick_resolves_what_it_polled : forall (Delta NowPoll NowApply : Q) (E : FEngine)
    (s : UStrandsInputServerSubsystem),
  bRunning s = true ->
  Forall NoLineBuffered (Clients s) ->
  let polled := PollSpec (ProcessLine NowPoll E) (rev (Clients s)) s in
  let resolved := ApplyScheduledActions Delta NowApply E (fst polled) in
  let t := Tick Delta NowPoll NowApply E s in
  snd t = snd polled ++ snd resolved /\
  MoveActions (fst (fst t)) = MoveActions (fst resolved) /\
  LookActions (fst (fst t)) = LookActions (fst resolved) /\
  PendingJumpCount (fst (fst t)) = PendingJumpCount (fst resolved) /\
  PendingSprintEnabled (fst (fst t)) = None /\
  snd (fst t) = snd (ApplySprintIfPending E (fst resolved)) /\
  Permutation (Clients (fst (fst t))) (map Drained (filter StaysConnected (Clients s))).
Proof.
  intros Delta NowPoll NowApply E s Hrun Hnl polled resolved t.
  destruct (PollLoop_spec (ProcessLine NowPoll E) (ProcessLine_commutes NowPoll E)
              (length (Clients s)) (Clients s) [] s
              (eq_sym (app_nil_r _)) eq_refl Hnl) as [kept [Hk Hp]].
  rewrite app_nil_r in Hp. fold (PollClients (ProcessLine NowPoll E) s) in Hk.
  fold polled in Hk.
  assert (Ht : t = (fst (ApplySprintIfPending E (set_Clients kept (fst resolved))),
                    snd (ApplySprintIfPending E (set_Clients kept (fst resolved))),
                    snd polled ++ snd resolved)).
  { unfold t, Tick. rewrite Hrun, Hk.
    rewrite ApplyScheduledActions_commutes. fold resolved.
    destruct (ApplySprintIfPending E (set_Clients kept (fst resolved))); reflexivity. }
  rewrite Ht. cbn [fst snd].
  destruct (ApplySprintIfPending_frame E (set_Clients kept (fst resolved)))
    as [F1 [F2 [F3 [F4 [F5 _]]]]].
  cbv zeta in F1, F2, F3, F4, F5.
  split; [reflexivity|]. split; [exact F2|]. split; [exact F3|]. split; [exact F4|].
  split; [exact F1|].
  split; [apply ApplySprintIfPending_world; reflexivity|].
  rewrite F5. exact Hp.
Qed.

Lemma X20_witness :
  snd (Tick 1 0 0 Engine_Character (OneClient DefaultSettings (JumpLine ++ [newline]) SCS_Connected))
  = snd (PollSpec (ProcessLine 0 Engine_Character)
           (rev (Clients (OneClient DefaultSettings (JumpLine ++ [newline]) SCS_Connected)))
           (OneClient DefaultSettings (JumpLine ++ [newline]) SCS_Connected))
    ++ snd (ApplyScheduledActions 1 0 Engine_Character
              (fst (PollSpec (ProcessLine 0 Engine_Character)
                      (rev (Clients (OneClient DefaultSettings (JumpLine ++ [newline])
                                       SCS_Connected)))
                      (OneClient DefaultSettings (JumpLine ++ [newline]) SCS_Connected)))).
Proof.
  apply (X20_tick_resolves_what_it_polled 1 0 0 Engine_Character
           (OneClient DefaultSettings (JumpLine ++ [newline]) SCS_Connected)).
  - reflexivity.
  - repeat constructor.
Defined.

Example jump_acts_in_the_frame_it_arrives :
  let t := Tick 1 0 0 Engine_Character
             (OneClient DefaultSettings (JumpLine ++ [newline]) SCS_Connected) in
  snd t = [CharacterJump] /\ PendingJumpCount (fst (fst t)) = 0%Z.
Proof. split; reflexivity. Qed.

(** ** C6: the sprint latch over whole frames *)

Lemma ProcessLines_frame : forall Now E Lines s,
  let s' := fst (ProcessLines (ProcessLine Now E) Lines s) in
  bRunning s' = bRunning s /\ Settings s' = Settings s.
Proof.
  intros Now E Lines. induction Lines as [|L Lines IH]; intros s; [split; reflexivity|].
  cbn [ProcessLines].
  destruct (ProcessLine_frame Now E L s) as [_ [_ [Hr Hs]]].
  destruct (ProcessLine Now E L s) as [s1 e1]. cbn [fst] in Hr, Hs.
  specialize (IH s1).
  destruct (ProcessLines (ProcessLine Now E) Lines s1) as [s2 e2]. cbn [fst] in *.
  destruct IH as [I1 I2]. split; congruence.
Qed.

Lemma PollSpec_frame : forall Now E cs s,
  let s' := fst (PollSpec (ProcessLine Now E) cs s) in
  bRunning s' = bRunning s /\ Settings s' = Settings s.
Proof.
  intros Now E cs. induction cs as [|C cs IH]; intros s; [split; reflexivity|].
  cbn [PollSpec].
  destruct (ProcessLines_frame Now E (FramesOf C) s) as [Hr Hs].
  destruct (ProcessLines (ProcessLine Now E) (FramesOf C) s) as [s1 e1]. cbn [fst] in Hr, Hs.
  specialize (IH s1).
  destruct (PollSpec (ProcessLine Now E) cs s1) as [s2 e2]. cbn [fst] in *.
  destruct IH as [I1 I2]. split; congruence.
Qed.

Lemma Received_frame : forall Now E s,
  bRunning (Received Now E s) = bRunning s /\ Settings (Received Now E s) = Settings s.
Proof.
  intros Now E s. unfold Received. destruct (bRunning s) eqn:Hrun.
  - destruct (PollSpec_frame Now E (rev (Clients s)) s) as [Hr Hs].
    split; [rewrite Hr; exact Hrun | exact Hs].
  - split; [exact Hrun | reflexivity].
Qed.

(** Clients that have nothing to deliver leave the subsystem as it is. *)
Lemma PollSpec_nothing_sent : forall h cs s,
  Forall (fun C => FramesOf C = []) cs -> fst (PollSpec h cs s) = s.
Proof.
  intros h cs. induction cs as [|C cs IH]; intros s H; [reflexivity|].
  cbn [PollSpec]. rewrite (Forall_inv H). cbn [ProcessLines].
  specialize (IH s (Forall_inv_tail H)).
  destruct (PollSpec h cs s) as [s2 e2]. exact IH.
Qed.

(** A client a poll pass has drained has no complete line to deliver. *)
Lemma FramesOf_Drained : forall C, FramesOf (Drained C) = [].
Proof.
  intros C. unfold FramesOf, Drained.
  destruct (Socket C) as [Sock|] eqn:HS.
  - cbn [Socket]. unfold TextOf. cbn [Socket Pending Incoming map]. rewrite app_nil_r.
    rewrite Strands_SplitLines_no_newline; [reflexivity|].
    apply (Strands_SplitLines_rest _ _ (le_n _)).
  - rewrite HS. reflexivity.
Qed.

Lemma ApplySprintIfPending_commutes : forall E cs s,
  ApplySprintIfPending E (set_Clients cs s)
  = (set_Clients cs (fst (ApplySprintIfPending E s)), snd (ApplySprintIfPending E s)).
Proof.
  intros E cs s. unfold ApplySprintIfPending. cbn [PendingSprintEnabled Settings set_Clients].
  destruct (PendingSprintEnabled s); reflexivity.
Qed.

(** A frame, with or without clients: the pass resolves the subsystem as
    the poll left it and then takes the sprint latch; the registry holds the
    connected clients, drained, or is untouched while the server does not
    run. *)
Lemma Tick_frame : forall Delta NowPoll NowApply E s,
  Forall NoLineBuffered (Clients s) ->
  let resolved := ApplyScheduledActions Delta NowApply E (Received NowPoll E s) in
  exists kept,
    fst (Tick Delta NowPoll NowApply E s)
    = (set_Clients kept (fst (ApplySprintIfPending E (fst resolved))),
       snd (ApplySprintIfPending E (fst resolved))) /\
    Permutation kept (if bRunning s then map Drained (filter StaysConnected (Clients s))
                      else Clients s).
Proof.
  intros Delta NowPoll NowApply E s Hnl resolved. subst resolved.
  unfold Received, Tick. destruct (bRunning s) eqn:Hrun.
  - destruct (PollLoop_spec (ProcessLine NowPoll E) (ProcessLine_commutes NowPoll E)
                (length (Clients s)) (Clients s) [] s
                (eq_sym (app_nil_r _)) eq_refl Hnl) as [kept [Hk Hp]].
    rewrite app_nil_r in Hp. fold (PollClients (ProcessLine NowPoll E) s) in Hk.
    exists kept. split; [|exact Hp].
    rewrite Hk, ApplyScheduledActions_commutes, ApplySprintIfPending_commutes. reflexivity.
  - exists (Clients s). split; [|apply Permutation_refl].
    destruct (ApplyScheduledActions_frame Delta NowApply E s) as [_ [_ [Hc _]]].
    destruct (ApplyScheduledActions Delta NowApply E s) as [s2 e2]. cbn [fst] in *.
    destruct (ApplySprintIfPending_frame E s2) as [_ [_ [_ [_ [Hc3 _]]]]].
    destruct (ApplySprintIfPending E s2) as [s3 E']. cbn [fst snd] in *.
    rewrite <- Hc, <- Hc3, set_Clients_same. reflexivity.
Qed.

(** C6. The sprint latch holds the value of the last Sprint command ingested,
    and the next frame takes it, once.  Two Sprint lines in a row leave the
    latch at the value of the second.  Take any registry of clients, none
    with a complete line left in its buffer (which is how a poll pass leaves
    them), and a world whose possessed character has a movement component.
    A frame whose poll leaves the latch at [true], the last Sprint command
    ingested before the frame or in it being Sprint(enabled=true), sets the
    character's maximum walk speed to [SprintWalkSpeed] and leaves the latch
    unset.  The frame after it, its clients having sent nothing new, writes
    no speed, whatever the world has become in between, and finds the latch
    unset; and so does every frame whose poll leaves the latch unset, no
    Sprint command having been ingested since the latch was last taken. *)
Theorem C6_sprint_latch_one_shot : forall (Delta NowPoll NowApply : Q) (E : FEngine)
    (s : UStrandsInputServerSubsystem) (v : Q),
  CurrentMaxWalkSpeed E = Some v ->
  Forall NoLineBuffered (Clients s) ->
  PendingSprintEnabled (Received NowPoll E s) = Some true ->
  let t1 := Tick Delta NowPoll NowApply E s in
  (forall (Now' : Q) (E' : FEngine) (b0 b : bool) (s' : UStrandsInputServerSubsystem),
     PendingSprintEnabled (fst (ProcessLine Now' E' (SprintLine b0) s')) = Some b0 /\
     PendingSprintEnabled
       (fst (ProcessLine Now' E' (SprintLine b)
               (fst (ProcessLine Now' E' (SprintLine b0) s')))) = Some b) /\
  PendingSprintEnabled (fst (fst t1)) = None /\
  CurrentMaxWalkSpeed (snd (fst t1)) = Some (SprintWalkSpeed (Settings s)) /\
  (forall (Delta' NowPoll' NowApply' : Q) (E2 : FEngine),
     let t2 := Tick Delta' NowPoll' NowApply' E2 (fst (fst t1)) in
     snd (fst t2) = E2 /\ PendingSprintEnabled (fst (fst t2)) = None) /\
  (forall (Delta' NowPoll' NowApply' : Q) (E2 : FEngine)
          (s2 : UStrandsInputServerSubsystem),
     Forall NoLineBuffered (Clients s2) ->
     PendingSprintEnabled (Received NowPoll' E2 s2) = None ->
     let t2 := Tick Delta' NowPoll' NowApply' E2 s2 in
     snd (fst t2) = E2 /\ PendingSprintEnabled (fst (fst t2)) = None).
Proof.
  intros Delta NowPoll NowApply E s v Hv Hnl Hlatch t1.
  assert (G : forall (Delta' NowPoll' NowApply' : Q) (E2 : FEngine)
                     (s2 : UStrandsInputServerSubsystem),
            Forall NoLineBuffered (Clients s2) ->
            PendingSprintEnabled (Received NowPoll' E2 s2) = None ->
            snd (fst (Tick Delta' NowPoll' NowApply' E2 s2)) = E2 /\
            PendingSprintEnabled (fst (fst (Tick Delta' NowPoll' NowApply' E2 s2))) = None).
  { intros Delta' NowPoll' NowApply' E2 s2 Hnl2 Hl2.
    destruct (Tick_frame Delta' NowPoll' NowApply' E2 s2 Hnl2) as [kept [Ht _]].
    cbv zeta in Ht. rewrite Ht. cbn [fst snd].
    destruct (ApplyScheduledActions_frame Delta' NowApply' E2 (Received NowPoll' E2 s2))
      as [Hl _].
    cbv zeta in Hl. rewrite Hl2 in Hl.
    unfold ApplySprintIfPending. rewrite Hl. cbn [fst snd].
    split; [reflexivity | exact Hl]. }
  destruct (Tick_frame Delta NowPoll NowApply E s Hnl) as [kept [Ht Hp]].
  cbv zeta in Ht. fold t1 in Ht.
  destruct (ApplyScheduledActions_frame Delta NowApply E (Received NowPoll E s))
    as [Hl [Hset [_ [_ Hrun]]]].
  cbv zeta in Hl, Hset, Hrun.
  destruct (Received_frame NowPoll E s) as [Rrun Rset].
  set (s2 := fst (ApplyScheduledActions Delta NowApply E (Received NowPoll E s))) in *.
  rewrite Hlatch in Hl. rewrite Rset in Hset. rewrite Rrun in Hrun.
  destruct (CurrentMaxWalkSpeed_set E v (SprintWalkSpeed (Settings s)) Hv) as [Hspeed [C HC]].
  assert (Ha : ApplySprintIfPending E s2
               = (set_PendingSprintEnabled None s2,
                  SetMaxWalkSpeed (SprintWalkSpeed (Settings s)) E)).
  { unfold ApplySprintIfPending. rewrite Hl, HC, Hset. reflexivity. }
  rewrite Ha in Ht. cbn [fst snd] in Ht.
  split.
  { intros Now' E' b0 b s'. rewrite !ProcessLine_sprint. split; reflexivity. }
  rewrite Ht. cbn [fst snd].
  split; [reflexivity|].
  split; [exact Hspeed|].
  split; [|exact G].
  intros Delta' NowPoll' NowApply' E2.
  set (s3 := set_Clients kept (set_PendingSprintEnabled None s2)).
  assert (Hnl3 : Forall NoLineBuffered (Clients s3)).
  { change (Clients s3) with kept. apply Forall_forall. intros C0 HC0.
    apply (Permutation_in _ Hp) in HC0. rewrite Forall_forall in Hnl.
    destruct (bRunning s).
    - apply in_map_iff in HC0. destruct HC0 as [D [<- HD]].
      apply filter_In in HD. apply Drained_no_line, Hnl, HD.
    - apply Hnl, HC0. }
  apply (G Delta' NowPoll' NowApply' E2 s3 Hnl3).
  unfold Received. change (bRunning s3) with (bRunning s2). rewrite Hrun.
  destruct (bRunning s) eqn:Hr; [|reflexivity].
  rewrite PollSpec_nothing_sent; [reflexivity|].
  change (Clients s3) with kept. apply Forall_forall. intros C0 HC0.
  apply in_rev in HC0. apply (Permutation_in _ Hp) in HC0.
  apply in_map_iff in HC0. destruct HC0 as [D [<- _]]. apply FramesOf_Drained.
Qed.

(** The end-to-end case of the specification: a connected client has sent
    Sprint(false) and then Sprint(true); the frame that polls it sets the
    speed of the sample character to 1000. *)
Lemma C6_witness :
  CurrentMaxWalkSpeed
    (snd (fst (Tick 1 0 0 Engine_Character
       (OneClient DefaultSettings
          (SprintLine false ++ [newline] ++ SprintLine true ++ [newline]) SCS_Connected))))
  = Some 1000.
Proof.
  refine (proj1 (proj2 (proj2 (C6_sprint_latch_one_shot 1 0 0 Engine_Character
           (OneClient DefaultSettings
              (SprintLine false ++ [newline] ++ SprintLine true ++ [newline]) SCS_Connected)
           600 _ _ _)))).
  - vm_compute. reflexivity.
  - repeat constructor.
  - vm_compute. reflexivity.
Defined.

(** A frame with an idle client registered takes the latch as well, and a
    Sprint(false) that arrives in the frame overrides a latch set before. *)
Example sprint_with_an_idle_client :
  let s := set_PendingSprintEnabled (Some true) (OneClient DefaultSettings [] SCS_Connected) in
  let t := Tick 1 0 0 Engine_Character s in
  CurrentMaxWalkSpeed (snd (fst t)) = Some 1000 /\
  PendingSprintEnabled (fst (fst t)) = None /\
  length (Clients (fst (fst t))) = 1%nat.
Proof. repeat split; reflexivity. Qed.

Example sprint_false_in_the_frame_overrides :
  let s := set_PendingSprintEnabled (Some true)
             (OneClient DefaultSettings (SprintLine false ++ [newline]) SCS_Connected) in
  PendingSprintEnabled (Received 0 Engine_Character s) = Some false /\
  CurrentMaxWalkSpeed (snd (fst (Tick 1 0 0 Engine_Character s))) = Some 600.
Proof. split; reflexivity. Qed.

(** ** The fields of a command *)


